(** * Attendance verification subsystem of SMART-CAMPUS-ENGAGEMENT

    A shallow embedding of
      backend/app/models/attendance.py
      backend/app/repositories/attendance_repository.py
      backend/app/services/attendance_service.py
      backend/app/routers/attendance.py
    followed by the properties of the marking pipeline, the photo and
    geofence registries, the window scheduler, the holiday calendar and the
    statistics engine.

    Conventions of the embedding
    - a Python [float] is a binary64 primitive float; comparisons go through
      the IEEE comparison, so a NaN compares false as in Python;
    - a Python [str] is a [string] whose characters are the code points
      0..255;
    - a [datetime.date] is its proleptic Gregorian ordinal ([toordinal]),
      1 being 0001-01-01 and 3652059 being 9999-12-31;
    - an exception is the [Raise] branch of [result]; the database session is
      the record [Db], threaded explicitly; the clock ([datetime.now()]) is an
      argument [now] of every operation that reads it. *)

From Stdlib Require Import ZArith List String Ascii Bool Lia.
From Stdlib Require Import Floats Uint63 DecimalString.
From Stdlib Require Import Sorting.Sorted Sorting.Permutation.
Import ListNotations.

Local Open Scope string_scope.
Local Open Scope list_scope.
Local Open Scope Z_scope.

(* ================================================================== *)
(** * Python runtime *)
(* ================================================================== *)

(** Exceptions that the modelled code raises or lets through. *)
Inductive exn : Type :=
| ValueError (msg : string)
| OverflowError (msg : string)
| ValidationError (field : string)
| MultipleResultsFound
| IntegrityError (constraint : string)
| HTTPException (status_code : Z) (detail : string)
| RecursionFuel.

Inductive result (A : Type) : Type :=
| Ok (a : A)
| Raise (e : exn).
Arguments Ok {A} a.
Arguments Raise {A} e.

Definition bind {A B : Type} (m : result A) (k : A -> result B) : result B :=
  match m with
  | Ok a => k a
  | Raise e => Raise e
  end.

Notation "x <- m ;; k" := (bind m (fun x => k))
  (at level 61, m at next level, right associativity).
Notation "' p <- m ;; k" := (bind m (fun p => k))
  (at level 61, p pattern, m at next level, right associativity).

Definition is_ok {A : Type} (m : result A) : bool :=
  match m with Ok _ => true | Raise _ => false end.

(** ** Floats *)

Definition float_le (a b : float) : bool :=
  match PrimFloat.compare a b with FLt | FEq => true | _ => false end.
Definition float_ge (a b : float) : bool :=
  match PrimFloat.compare a b with FGt | FEq => true | _ => false end.
Definition float_gt (a b : float) : bool :=
  match PrimFloat.compare a b with FGt => true | _ => false end.
Definition float_is_nan (a : float) : bool :=
  match PrimFloat.compare a a with FNotComparable => true | _ => false end.

(** [float(n)] for an int in the exactly representable range. *)
Definition float_of_Z (n : Z) : float :=
  if n <? 0 then PrimFloat.opp (PrimFloat.of_uint63 (Uint63.of_Z (- n)))
  else PrimFloat.of_uint63 (Uint63.of_Z n).

(** [a / b] on two ints (true division). *)
Definition int_truediv (a b : Z) : float :=
  PrimFloat.div (float_of_Z a) (float_of_Z b).

(** The integer nearest to [m * 2^e], ties to even. *)
Definition round_half_even_scaled (m e : Z) : Z :=
  if 0 <=? e then m * 2 ^ e
  else
    let d := 2 ^ (- e) in
    let q := m / d in
    let r := m mod d in
    match 2 * r ?= d with
    | Lt => q
    | Gt => q + 1
    | Eq => if Z.even q then q else q + 1
    end.

(** [round(x, 2)]: the decimal with two places nearest to the exact value of
    [x] (ties to even), converted back to the nearest float. *)
Definition py_round2 (x : float) : float :=
  match Prim2SF x with
  | S754_finite s m e =>
      let n := round_half_even_scaled (Zpos m * 100) e in
      let r := PrimFloat.div (float_of_Z n) 100%float in
      if s then PrimFloat.opp r else r
  | _ => x
  end.

(** ** Strings *)

Definition chr (n : nat) : ascii := ascii_of_nat n.
Definition ord (c : ascii) : nat := nat_of_ascii c.

Definition TAB : ascii := chr 9.
Definition LF : ascii := chr 10.
Definition SPACE : ascii := chr 32.
Definition COMMA : ascii := chr 44.

(** [str.isspace] on one character (code points below 256). *)
Definition isspace (c : ascii) : bool :=
  let n := ord c in
  ((9 <=? n) && (n <=? 13) || (28 <=? n) && (n <=? 32)
   || (n =? 133) || (n =? 160))%nat.

(** [\d] and [[a-zA-Z]] of the [re] module. *)
Definition isdecimal (c : ascii) : bool :=
  let n := ord c in ((48 <=? n) && (n <=? 57))%nat.
Definition isasciialpha (c : ascii) : bool :=
  let n := ord c in
  ((65 <=? n) && (n <=? 90) || (97 <=? n) && (n <=? 122))%nat.

Definition lower_char (c : ascii) : ascii :=
  let n := ord c in
  if ((65 <=? n) && (n <=? 90)
      || (192 <=? n) && (n <=? 222) && negb (n =? 215))%nat
  then chr (n + 32) else c.

Fixpoint dropwhile {A : Type} (p : A -> bool) (l : list A) : list A :=
  match l with
  | [] => []
  | x :: t => if p x then dropwhile p t else l
  end.

Fixpoint takewhile {A : Type} (p : A -> bool) (l : list A) : list A :=
  match l with
  | [] => []
  | x :: t => if p x then x :: takewhile p t else []
  end.

Definition lstrip (l : list ascii) : list ascii := dropwhile isspace l.
Definition rstrip (l : list ascii) : list ascii := rev (dropwhile isspace (rev l)).

(** [s.strip()] *)
Definition strip (s : string) : string :=
  string_of_list_ascii (rstrip (lstrip (list_ascii_of_string s))).

(** [s.lower()] *)
Definition lower (s : string) : string :=
  string_of_list_ascii (map lower_char (list_ascii_of_string s)).

Fixpoint starts_with (p l : list ascii) : bool :=
  match p, l with
  | [], _ => true
  | _ :: _, [] => false
  | a :: p', b :: l' => Ascii.eqb a b && starts_with p' l'
  end.

Fixpoint contains_chars (p l : list ascii) : bool :=
  starts_with p l ||
  match l with
  | [] => false
  | _ :: t => contains_chars p t
  end.

(** [sub in s] *)
Definition str_in (sub s : string) : bool :=
  contains_chars (list_ascii_of_string sub) (list_ascii_of_string s).

(** [s.split(sep)] for a one-character separator, on character lists. *)
Fixpoint split_on (sep : ascii) (cur : list ascii) (l : list ascii)
  : list (list ascii) :=
  match l with
  | [] => [rev cur]
  | c :: t =>
      if Ascii.eqb c sep then rev cur :: split_on sep [] t
      else split_on sep (c :: cur) t
  end.

(** [s.split('\n')] *)
Definition split_lines (s : string) : list string :=
  map string_of_list_ascii (split_on LF [] (list_ascii_of_string s)).

(** [sep.join(l)] *)
Fixpoint join (sep : string) (l : list string) : string :=
  match l with
  | [] => ""
  | [x] => x
  | x :: t => x ++ sep ++ join sep t
  end.

(** [str(n)] for an int. *)
Definition str_of_Z (n : Z) : string := NilZero.string_of_int (Z.to_int n).

(** ["%0<w>d" % n] for a non-negative int. *)
Fixpoint pad_zeros (k : nat) (s : string) : string :=
  match k with
  | O => s
  | S k' => pad_zeros k' ("0" ++ s)
  end.
Definition zfill (w : nat) (n : Z) : string :=
  let s := str_of_Z n in pad_zeros (w - String.length s) s.

(** The value of a run of decimal digits. *)
Definition int_of_digits (l : list ascii) : Z :=
  fold_left (fun acc c => acc * 10 + (Z.of_nat (ord c) - 48)) l 0.

(** [sys.get_int_max_str_digits()], CPython's default. *)
Definition MAX_STR_DIGITS : Z := 4300.

(** [int(s)] on a run of decimal digits: CPython refuses a string of more
    than [MAX_STR_DIGITS] digits (leading zeros count). *)
Definition py_int (l : list ascii) : result Z :=
  let digits := Z.of_nat (List.length l) in
  if MAX_STR_DIGITS <? digits then
    Raise (ValueError
             ("Exceeds the limit (4300 digits) for integer string conversion: "
              ++ "value has " ++ str_of_Z digits
              ++ " digits; use sys.set_int_max_str_digits() to increase the limit"))
  else Ok (int_of_digits l).

(** [len(l)] *)
Definition len {A : Type} (l : list A) : Z := Z.of_nat (List.length l).

(** ** The two regular expressions of the bulk import *)

(** [re.split(r'\t+|,|  +', line)]: the separators are a run of tabs, one
    comma, or a run of two or more spaces.  [run] remembers the separator in
    progress: a tab continues a run of tabs, a space a run of spaces. *)
Inductive sep_run : Type := NoRun | TabRun | SpaceRun.

Fixpoint re_split_parts (run : sep_run) (cur : list ascii) (l : list ascii)
  : list (list ascii) :=
  match l with
  | [] => [rev cur]
  | c :: t =>
      if Ascii.eqb c TAB then
        match run with
        | TabRun => re_split_parts TabRun cur t
        | _ => rev cur :: re_split_parts TabRun [] t
        end
      else if Ascii.eqb c COMMA then rev cur :: re_split_parts NoRun [] t
      else if Ascii.eqb c SPACE then
        match run with
        | SpaceRun => re_split_parts SpaceRun cur t
        | _ =>
            match t with
            | c' :: t' =>
                if Ascii.eqb c' SPACE
                then rev cur :: re_split_parts SpaceRun [] t
                else re_split_parts NoRun (c :: cur) t
            | [] => re_split_parts NoRun (c :: cur) t
            end
        end
      else re_split_parts NoRun (c :: cur) t
  end.

Definition re_split (line : string) : list string :=
  map string_of_list_ascii (re_split_parts NoRun [] (list_ascii_of_string line)).

(** [re.match(r'([a-zA-Z]+)\s*(\d+)', s)]: the two groups, when it matches. *)
Definition re_match_date (s : string) : option (string * string) :=
  let l := list_ascii_of_string s in
  let g1 := takewhile isasciialpha l in
  let rest := dropwhile isspace (dropwhile isasciialpha l) in
  let g2 := takewhile isdecimal rest in
  match g1, g2 with
  | _ :: _, _ :: _ => Some (string_of_list_ascii g1, string_of_list_ascii g2)
  | _, _ => None
  end.

(** ** [datetime.date], [datetime.time], [datetime.datetime] *)

Definition date : Type := Z.

Definition MINYEAR : Z := 1.
Definition MAXYEAR : Z := 9999.
Definition date_min : date := 1.
Definition date_max : date := 3652059.

Definition _is_leap (year : Z) : bool :=
  (year mod 4 =? 0) && (negb (year mod 100 =? 0) || (year mod 400 =? 0)).

Definition _DAYS_IN_MONTH (month : Z) : Z :=
  match month with
  | 1 => 31 | 2 => 28 | 3 => 31 | 4 => 30 | 5 => 31 | 6 => 30
  | 7 => 31 | 8 => 31 | 9 => 30 | 10 => 31 | 11 => 30 | 12 => 31
  | _ => -1
  end.

Definition _DAYS_BEFORE_MONTH (month : Z) : Z :=
  match month with
  | 1 => 0 | 2 => 31 | 3 => 59 | 4 => 90 | 5 => 120 | 6 => 151
  | 7 => 181 | 8 => 212 | 9 => 243 | 10 => 273 | 11 => 304 | 12 => 334
  | _ => -1
  end.

Definition _days_before_year (year : Z) : Z :=
  let y := year - 1 in y * 365 + y / 4 - y / 100 + y / 400.

Definition _days_in_month (year month : Z) : Z :=
  if (month =? 2) && _is_leap year then 29 else _DAYS_IN_MONTH month.

Definition _days_before_month (year month : Z) : Z :=
  _DAYS_BEFORE_MONTH month + (if (2 <? month) && _is_leap year then 1 else 0).

Definition _ymd2ord (year month day : Z) : Z :=
  _days_before_year year + _days_before_month year month + day.

(** An int argument that the C implementation takes as a C [int] (format
    ["i"]): an int beyond C [long] or beyond C [int] raises OverflowError. *)
Definition c_int (n : Z) : result Z :=
  if (n <? -9223372036854775808) || (9223372036854775807 <? n) then
    Raise (OverflowError "Python int too large to convert to C long")
  else if 2147483647 <? n then
    Raise (OverflowError "signed integer is greater than maximum")
  else if n <? -2147483648 then
    Raise (OverflowError "signed integer is less than minimum")
  else Ok n.

(** [date(year, month, day)]: the three arguments are converted to C ints
    in this order, then checked. *)
Definition date_new (year month day : Z) : result date :=
  year <- c_int year ;;
  month <- c_int month ;;
  day <- c_int day ;;
  if negb ((MINYEAR <=? year) && (year <=? MAXYEAR)) then
    Raise (ValueError ("year " ++ str_of_Z year ++ " is out of range"))
  else if negb ((1 <=? month) && (month <=? 12)) then
    Raise (ValueError "month must be in 1..12")
  else if negb ((1 <=? day) && (day <=? _days_in_month year month)) then
    Raise (ValueError "day is out of range for month")
  else Ok (_ymd2ord year month day).

(** [date.fromordinal(n)] as year, month, day. *)
Definition _ord2ymd (n0 : Z) : Z * Z * Z :=
  let n := n0 - 1 in
  let n400 := n / 146097 in
  let n := n mod 146097 in
  let year := n400 * 400 + 1 in
  let n100 := n / 36524 in
  let n := n mod 36524 in
  let n4 := n / 1461 in
  let n := n mod 1461 in
  let n1 := n / 365 in
  let n := n mod 365 in
  let year := year + n100 * 100 + n4 * 4 + n1 in
  if (n1 =? 4) || (n100 =? 4) then (year - 1, 12, 31)
  else
    let leapyear := (n1 =? 3) && (negb (n4 =? 24) || (n100 =? 3)) in
    let month := Z.shiftr (n + 50) 5 in
    let preceding :=
      _DAYS_BEFORE_MONTH month + (if (2 <? month) && leapyear then 1 else 0) in
    if n <? preceding then
      let month := month - 1 in
      let preceding :=
        preceding -
        (_DAYS_IN_MONTH month + (if (month =? 2) && leapyear then 1 else 0)) in
      (year, month, n - preceding + 1)
    else (year, month, n - preceding + 1).

Definition date_year (d : date) : Z := fst (fst (_ord2ymd d)).
Definition date_month (d : date) : Z := snd (fst (_ord2ymd d)).
Definition date_day (d : date) : Z := snd (_ord2ymd d).

(** [d.weekday()], 0 = Monday, 6 = Sunday. *)
Definition weekday (d : date) : Z := (d + 6) mod 7.

(** [d + timedelta(days=n)] *)
Definition date_add_days (d : date) (n : Z) : result date :=
  let o := d + n in
  if (date_min <=? o) && (o <=? date_max) then Ok o
  else Raise (OverflowError "date value out of range").

(** [str(d)] *)
Definition date_isoformat (d : date) : string :=
  zfill 4 (date_year d) ++ "-" ++ zfill 2 (date_month d) ++ "-"
  ++ zfill 2 (date_day d).

Record time : Type := mk_time {
  hour : Z;
  minute : Z;
  second : Z;
  microsecond : Z
}.

(** Comparison of two naive times: field by field. *)
Definition time_compare (a b : time) : comparison :=
  match hour a ?= hour b with
  | Eq =>
      match minute a ?= minute b with
      | Eq =>
          match second a ?= second b with
          | Eq => microsecond a ?= microsecond b
          | c => c
          end
      | c => c
      end
  | c => c
  end.

Definition time_le (a b : time) : bool :=
  match time_compare a b with Gt => false | _ => true end.

Definition time_min : time := mk_time 0 0 0 0.
Definition time_max : time := mk_time 23 59 59 999999.

Record datetime : Type := mk_datetime {
  dt_date : date;
  dt_time : time
}.

Definition datetime_compare (a b : datetime) : comparison :=
  match dt_date a ?= dt_date b with
  | Eq => time_compare (dt_time a) (dt_time b)
  | c => c
  end.

Definition datetime_ge (a b : datetime) : bool :=
  match datetime_compare a b with Lt => false | _ => true end.
Definition datetime_le (a b : datetime) : bool :=
  match datetime_compare a b with Gt => false | _ => true end.

(** [now.strftime("%Y%m%d_%H%M%S")] *)
Definition strftime_compact (now : datetime) : string :=
  let d := dt_date now in
  let t := dt_time now in
  zfill 4 (date_year d) ++ zfill 2 (date_month d) ++ zfill 2 (date_day d)
  ++ "_" ++ zfill 2 (hour t) ++ zfill 2 (minute t) ++ zfill 2 (second t).

(** [os.path.join(a, b)] *)
Definition os_path_join (a b : string) : string :=
  match b with
  | String "/" _ => b
  | _ =>
      match rev (list_ascii_of_string a) with
      | [] => b
      | c :: _ => if Ascii.eqb c "/" then a ++ b else a ++ "/" ++ b
      end
  end.

(** [Query.scalar_one_or_none()] over the rows a query selected. *)
Definition scalar_one_or_none {A : Type} (rows : list A) : result (option A) :=
  match rows with
  | [] => Ok None
  | [x] => Ok (Some x)
  | _ => Raise MultipleResultsFound
  end.

(** [ORDER BY key] as a stable insertion sort. *)
Fixpoint insert_by {A : Type} (le : A -> A -> bool) (x : A) (l : list A)
  : list A :=
  match l with
  | [] => [x]
  | y :: t => if le x y then x :: l else y :: insert_by le x t
  end.

Fixpoint order_by {A : Type} (le : A -> A -> bool) (l : list A) : list A :=
  match l with
  | [] => []
  | x :: t => insert_by le x (order_by le t)
  end.

(** [.offset(skip).limit(limit)] *)
Definition offset_limit {A : Type} (skip limit : nat) (l : list A) : list A :=
  firstn limit (skipn skip l).

Example date_new_2025_01_01 : date_new 2025 1 1 = Ok 739252.
Proof. reflexivity. Qed.

Example date_new_feb_30 :
  date_new 2025 2 30 = Raise (ValueError "day is out of range for month").
Proof. reflexivity. Qed.

Example isoformat_2025_01_01 : date_isoformat 739252 = "2025-01-01".
Proof. vm_compute. reflexivity. Qed.

Example weekday_2025_01_01 : weekday 739252 = 2.
Proof. reflexivity. Qed.

Example round_example : py_round2 (PrimFloat.mul (int_truediv 4 5) 100%float) = 80%float.
Proof. vm_compute. reflexivity. Qed.

Example re_split_example :
  re_split ("Jan 1" ++ String TAB ("Wednesday" ++ String TAB "New Year"))
  = ["Jan 1"; "Wednesday"; "New Year"].
Proof. vm_compute. reflexivity. Qed.

Example re_match_example : re_match_date "Jan 1" = Some ("Jan", "1").
Proof. vm_compute. reflexivity. Qed.

(* ================================================================== *)
(** * app/models *)
(* ================================================================== *)

Module StudentCategory.
Inductive t : Type := HOSTELLER | DAY_SCHOLAR.
Definition value (c : t) : string :=
  match c with
  | HOSTELLER => "HOSTELLER"
  | DAY_SCHOLAR => "DAY_SCHOLAR"
  end.
End StudentCategory.

Module User.
Record t : Type := mk {
  id : Z;
  student_category : option StudentCategory.t
}.
End User.

Module UserRole.
Inductive t : Type :=
| ADMIN | STUDENT | STAFF | WARDEN | MAINTENANCE_STAFF | HOSTELLER
| DAY_SCHOLAR.
Definition value (r : t) : string :=
  match r with
  | ADMIN => "ADMIN"
  | STUDENT => "STUDENT"
  | STAFF => "STAFF"
  | WARDEN => "WARDEN"
  | MAINTENANCE_STAFF => "MAINTENANCE_STAFF"
  | HOSTELLER => "HOSTELLER"
  | DAY_SCHOLAR => "DAY_SCHOLAR"
  end.
Definition eqb (a b : t) : bool :=
  match a, b with
  | ADMIN, ADMIN | STUDENT, STUDENT | STAFF, STAFF | WARDEN, WARDEN
  | MAINTENANCE_STAFF, MAINTENANCE_STAFF | HOSTELLER, HOSTELLER
  | DAY_SCHOLAR, DAY_SCHOLAR => true
  | _, _ => false
  end.
Definition all : list t :=
  [ADMIN; STUDENT; STAFF; WARDEN; MAINTENANCE_STAFF; HOSTELLER; DAY_SCHOLAR].
End UserRole.

(** A row of the [users] table with the columns that the attendance reports
    read ([User.t] above is the authenticated user as the marking flow uses
    it).  The reports take the table as an argument [users]. *)
Module UserRow.
Record t : Type := mk {
  id : Z;
  first_name : string;
  last_name : string;
  role : UserRole.t;
  register_number : option string;
  department : option string;
  is_active : bool
}.
End UserRow.

Module ProfilePhotoStatus.
Inductive t : Type := PENDING | APPROVED | REJECTED.
Definition eqb (a b : t) : bool :=
  match a, b with
  | PENDING, PENDING | APPROVED, APPROVED | REJECTED, REJECTED => true
  | _, _ => false
  end.
End ProfilePhotoStatus.

Module AttendanceStatus.
Inductive t : Type := PRESENT | ABSENT | PENDING.
Definition eqb (a b : t) : bool :=
  match a, b with
  | PRESENT, PRESENT | ABSENT, ABSENT | PENDING, PENDING => true
  | _, _ => false
  end.
End AttendanceStatus.

Module FailureReason.
Inductive t : Type :=
| OUTSIDE_CAMPUS
| GPS_DISABLED
| LOW_GPS_ACCURACY
| FACE_MISMATCH
| MULTIPLE_FACES
| NO_FACE_DETECTED
| PROFILE_NOT_APPROVED
| OUTSIDE_TIME_WINDOW
| ALREADY_MARKED
| IMAGE_QUALITY_POOR
| FACE_OBSTRUCTED.
End FailureReason.

Module ProfilePhoto.
Record t : Type := mk {
  id : Z;
  student_id : Z;
  file_path : string;
  filename : string;
  face_encoding : option (list float);
  status : ProfilePhotoStatus.t;
  rejection_reason : option string;
  reviewed_by : option Z;
  reviewed_at : option datetime;
  created_at : datetime
}.
Definition set_id (v : Z) (p : t) : t :=
  mk v (student_id p) (file_path p) (filename p) (face_encoding p)
     (status p) (rejection_reason p) (reviewed_by p) (reviewed_at p)
     (created_at p).
Definition set_status (v : ProfilePhotoStatus.t) (p : t) : t :=
  mk (id p) (student_id p) (file_path p) (filename p) (face_encoding p)
     v (rejection_reason p) (reviewed_by p) (reviewed_at p) (created_at p).
Definition set_rejection_reason (v : option string) (p : t) : t :=
  mk (id p) (student_id p) (file_path p) (filename p) (face_encoding p)
     (status p) v (reviewed_by p) (reviewed_at p) (created_at p).
Definition set_reviewed (by_ : option Z) (at_ : option datetime) (p : t) : t :=
  mk (id p) (student_id p) (file_path p) (filename p) (face_encoding p)
     (status p) (rejection_reason p) by_ at_ (created_at p).
End ProfilePhoto.

Module CampusGeofence.
Record t : Type := mk {
  id : Z;
  name : string;
  description : option string;
  latitude : float;
  longitude : float;
  radius_meters : float;
  accuracy_threshold : float;
  is_active : bool;
  is_primary : bool;
  created_by : option Z
}.
Definition set_id (v : Z) (g : t) : t :=
  mk v (name g) (description g) (latitude g) (longitude g)
     (radius_meters g) (accuracy_threshold g) (is_active g) (is_primary g)
     (created_by g).
Definition set_is_primary (v : bool) (g : t) : t :=
  mk (id g) (name g) (description g) (latitude g) (longitude g)
     (radius_meters g) (accuracy_threshold g) (is_active g) v (created_by g).
End CampusGeofence.

Module AttendanceWindow.
(** [days_of_week] is the JSON array kept in the column, as the list
    [json.loads] gives. *)
Record t : Type := mk {
  id : Z;
  name : string;
  start_time : time;
  end_time : time;
  days_of_week : list Z;
  student_category : option string;
  is_active : bool
}.
End AttendanceWindow.

Module AttendanceRecord.
Record t : Type := mk {
  id : Z;
  student_id : Z;
  attendance_date : date;
  status : AttendanceStatus.t;
  location_latitude : option float;
  location_longitude : option float;
  location_accuracy : option float;
  face_match_confidence : option float;
  marked_at : option datetime
}.
Definition set_id (v : Z) (r : t) : t :=
  mk v (student_id r) (attendance_date r) (status r) (location_latitude r)
     (location_longitude r) (location_accuracy r) (face_match_confidence r)
     (marked_at r).
End AttendanceRecord.

(** The pieces of an f-string: literal text and formatted values. *)
Inductive fpiece : Type :=
| Lit (s : string)
| FloatStr (x : float)      (* {x} *)
| FloatFixed0 (x : float)   (* {x:.0f} *)
| IntStr (n : Z).           (* {n} *)

Module AttendanceAttempt.
Record t : Type := mk {
  id : Z;
  student_id : Z;
  attempted_at : datetime;
  success : bool;
  failure_reason : option FailureReason.t;
  failure_details : option (list fpiece);
  location_latitude : option float;
  location_longitude : option float;
  location_accuracy : option float;
  captured_image_path : option string;
  face_match_score : option float;
  geofence_id : option Z
}.
Definition set_id_attempted_at (v : Z) (at_ : datetime) (a : t) : t :=
  mk v (student_id a) at_ (success a) (failure_reason a)
     (failure_details a) (location_latitude a) (location_longitude a)
     (location_accuracy a) (captured_image_path a) (face_match_score a)
     (geofence_id a).
Definition set_geofence_id (v : option Z) (a : t) : t :=
  mk (id a) (student_id a) (attempted_at a) (success a) (failure_reason a)
     (failure_details a) (location_latitude a) (location_longitude a)
     (location_accuracy a) (captured_image_path a) (face_match_score a) v.
Definition set_captured_image_path (v : option string) (a : t) : t :=
  mk (id a) (student_id a) (attempted_at a) (success a) (failure_reason a)
     (failure_details a) (location_latitude a) (location_longitude a)
     (location_accuracy a) v (face_match_score a) (geofence_id a).
Definition set_face_match_score (v : option float) (a : t) : t :=
  mk (id a) (student_id a) (attempted_at a) (success a) (failure_reason a)
     (failure_details a) (location_latitude a) (location_longitude a)
     (location_accuracy a) (captured_image_path a) v (geofence_id a).
(** [attempt.success = False; attempt.failure_reason = r;
    attempt.failure_details = d] ([d = None] leaves the column unset). *)
Definition set_failure (r : FailureReason.t) (d : option (list fpiece))
    (a : t) : t :=
  mk (id a) (student_id a) (attempted_at a) false (Some r)
     (match d with Some _ => d | None => failure_details a end)
     (location_latitude a) (location_longitude a)
     (location_accuracy a) (captured_image_path a) (face_match_score a)
     (geofence_id a).
Definition set_success (v : bool) (a : t) : t :=
  mk (id a) (student_id a) (attempted_at a) v (failure_reason a)
     (failure_details a) (location_latitude a) (location_longitude a)
     (location_accuracy a) (captured_image_path a) (face_match_score a)
     (geofence_id a).
End AttendanceAttempt.

Module Holiday.
Record t : Type := mk {
  id : Z;
  date_ : date;
  name : string;
  description : option string;
  holiday_type : string;
  is_recurring : bool;
  is_active : bool;
  created_by : option Z
}.
Definition set_is_active (v : bool) (h : t) : t :=
  mk (id h) (date_ h) (name h) (description h) (holiday_type h)
     (is_recurring h) v (created_by h).
End Holiday.

(** The session: one list of rows per table, plus the upload directory.
    [attendance_settings] keeps, for a key, the date its text denotes. *)
Record Db : Type := mk_db {
  profile_photos : list ProfilePhoto.t;
  campus_geofences : list CampusGeofence.t;
  attendance_windows : list AttendanceWindow.t;
  attendance_records : list AttendanceRecord.t;
  attendance_attempts : list AttendanceAttempt.t;
  holidays : list Holiday.t;
  attendance_settings : list (string * date);
  files : list (string * string)
}.

Definition with_profile_photos (v : list ProfilePhoto.t) (db : Db) : Db :=
  mk_db v (campus_geofences db) (attendance_windows db)
        (attendance_records db) (attendance_attempts db) (holidays db)
        (attendance_settings db) (files db).
Definition with_campus_geofences (v : list CampusGeofence.t) (db : Db) : Db :=
  mk_db (profile_photos db) v (attendance_windows db)
        (attendance_records db) (attendance_attempts db) (holidays db)
        (attendance_settings db) (files db).
Definition with_attendance_windows (v : list AttendanceWindow.t) (db : Db) : Db :=
  mk_db (profile_photos db) (campus_geofences db) v
        (attendance_records db) (attendance_attempts db) (holidays db)
        (attendance_settings db) (files db).
Definition with_attendance_records (v : list AttendanceRecord.t) (db : Db) : Db :=
  mk_db (profile_photos db) (campus_geofences db) (attendance_windows db)
        v (attendance_attempts db) (holidays db)
        (attendance_settings db) (files db).
Definition with_attendance_attempts (v : list AttendanceAttempt.t) (db : Db) : Db :=
  mk_db (profile_photos db) (campus_geofences db) (attendance_windows db)
        (attendance_records db) v (holidays db)
        (attendance_settings db) (files db).
Definition with_holidays (v : list Holiday.t) (db : Db) : Db :=
  mk_db (profile_photos db) (campus_geofences db) (attendance_windows db)
        (attendance_records db) (attendance_attempts db) v
        (attendance_settings db) (files db).
Definition with_files (v : list (string * string)) (db : Db) : Db :=
  mk_db (profile_photos db) (campus_geofences db) (attendance_windows db)
        (attendance_records db) (attendance_attempts db) (holidays db)
        (attendance_settings db) v.

(** The next value of an autoincrement primary key. *)
Definition next_id {A : Type} (id : A -> Z) (rows : list A) : Z :=
  1 + fold_right (fun r m => Z.max (id r) m) 0 rows.

(** Replace the row that has the primary key of [r] by [r]. *)
Definition replace_row {A : Type} (id : A -> Z) (r : A) (rows : list A)
  : list A :=
  map (fun x => if id x =? id r then r else x) rows.

(* ================================================================== *)
(** * app/repositories/attendance_repository.py *)
(* ================================================================== *)

Module UserRepository.

(** [count_by_role]: the dict of the roles that some user has, each with
    the number of its users, keyed by the role's value. *)
Definition count_by_role (users : list UserRow.t) : list (string * Z) :=
  flat_map
    (fun r =>
       let n := len (filter (fun u => UserRole.eqb (UserRow.role u) r) users) in
       if 0 <? n then [(UserRole.value r, n)] else [])
    UserRole.all.

End UserRepository.

(** [d.get(k, default)] on a dict with string keys. *)
Fixpoint str_dict_get (d : list (string * Z)) (k : string) (default : Z) : Z :=
  match d with
  | [] => default
  | (k', v) :: t => if String.eqb k k' then v else str_dict_get t k default
  end.

Module ProfilePhotoRepository.

(** [UniqueConstraint('student_id', 'status', name='uq_student_approved_photo')],
    checked for the row being written against the other rows. *)
Definition uq_student_approved_photo
    (photo : ProfilePhoto.t) (rows : list ProfilePhoto.t) : bool :=
  negb (existsb
          (fun p =>
             negb (ProfilePhoto.id p =? ProfilePhoto.id photo)
             && (ProfilePhoto.student_id p =? ProfilePhoto.student_id photo)
             && ProfilePhotoStatus.eqb (ProfilePhoto.status p)
                                       (ProfilePhoto.status photo))
          rows).

Definition create (db : Db) (now : datetime) (photo : ProfilePhoto.t)
  : result (ProfilePhoto.t * Db) :=
  let photo :=
    ProfilePhoto.mk (next_id ProfilePhoto.id (profile_photos db))
      (ProfilePhoto.student_id photo) (ProfilePhoto.file_path photo)
      (ProfilePhoto.filename photo) (ProfilePhoto.face_encoding photo)
      (ProfilePhoto.status photo) (ProfilePhoto.rejection_reason photo)
      (ProfilePhoto.reviewed_by photo) (ProfilePhoto.reviewed_at photo)
      now in
  if uq_student_approved_photo photo (profile_photos db)
  then Ok (photo, with_profile_photos (profile_photos db ++ [photo]) db)
  else Raise (IntegrityError "uq_student_approved_photo").

Definition get_by_id (db : Db) (photo_id : Z) : result (option ProfilePhoto.t) :=
  scalar_one_or_none
    (filter (fun p => ProfilePhoto.id p =? photo_id) (profile_photos db)).

Definition get_approved_photo_for_student (db : Db) (student_id : Z)
  : result (option ProfilePhoto.t) :=
  scalar_one_or_none
    (filter
       (fun p =>
          (ProfilePhoto.student_id p =? student_id)
          && ProfilePhotoStatus.eqb (ProfilePhoto.status p)
                                    ProfilePhotoStatus.APPROVED)
       (profile_photos db)).

(** [update]: the flush writes the changed attributes of [photo]. *)
Definition update (db : Db) (photo : ProfilePhoto.t)
  : result (ProfilePhoto.t * Db) :=
  if uq_student_approved_photo photo (profile_photos db)
  then Ok (photo,
           with_profile_photos
             (replace_row ProfilePhoto.id photo (profile_photos db)) db)
  else Raise (IntegrityError "uq_student_approved_photo").

(** The most recent photo of a student, whatever its status. *)
Definition get_latest_photo_for_student (db : Db) (student_id : Z)
  : result (option ProfilePhoto.t) :=
  scalar_one_or_none
    (firstn 1
       (order_by
          (fun a b => datetime_ge (ProfilePhoto.created_at a)
                                  (ProfilePhoto.created_at b))
          (filter (fun p => ProfilePhoto.student_id p =? student_id)
                  (profile_photos db)))).

(** The pending photos for admin review, oldest first. *)
Definition get_pending_photos (db : Db) (skip limit : nat)
  : list ProfilePhoto.t :=
  offset_limit skip limit
    (order_by
       (fun a b => datetime_le (ProfilePhoto.created_at a)
                               (ProfilePhoto.created_at b))
       (filter
          (fun p => ProfilePhotoStatus.eqb (ProfilePhoto.status p)
                                           ProfilePhotoStatus.PENDING)
          (profile_photos db))).

Definition count_pending (db : Db) : Z :=
  len (filter
         (fun p => ProfilePhotoStatus.eqb (ProfilePhoto.status p)
                                          ProfilePhotoStatus.PENDING)
         (profile_photos db)).

End ProfilePhotoRepository.

Module GeofenceRepository.

Definition create (db : Db) (geofence : CampusGeofence.t)
  : result (CampusGeofence.t * Db) :=
  let geofence :=
    CampusGeofence.set_id
      (next_id CampusGeofence.id (campus_geofences db)) geofence in
  Ok (geofence,
      with_campus_geofences (campus_geofences db ++ [geofence]) db).

Definition get_by_id (db : Db) (geofence_id : Z)
  : result (option CampusGeofence.t) :=
  scalar_one_or_none
    (filter (fun g => CampusGeofence.id g =? geofence_id)
            (campus_geofences db)).

Definition get_primary_active_geofence (db : Db)
  : result (option CampusGeofence.t) :=
  scalar_one_or_none
    (filter
       (fun g => Bool.eqb (CampusGeofence.is_active g) true
                 && Bool.eqb (CampusGeofence.is_primary g) true)
       (campus_geofences db)).

Definition update (db : Db) (geofence : CampusGeofence.t)
  : result (CampusGeofence.t * Db) :=
  Ok (geofence,
      with_campus_geofences
        (replace_row CampusGeofence.id geofence (campus_geofences db)) db).

Definition delete (db : Db) (geofence : CampusGeofence.t) : result Db :=
  Ok (with_campus_geofences
        (filter
           (fun g => negb (CampusGeofence.id g =? CampusGeofence.id geofence))
           (campus_geofences db)) db).

End GeofenceRepository.

Module AttendanceWindowRepository.

Definition get_active_windows (db : Db) (category : option StudentCategory.t)
  : list AttendanceWindow.t :=
  let query :=
    filter (fun w => Bool.eqb (AttendanceWindow.is_active w) true)
           (attendance_windows db) in
  match category with
  | Some category =>
      (* windows that match category or have no category *)
      filter
        (fun w =>
           match AttendanceWindow.student_category w with
           | Some c => String.eqb c (StudentCategory.value category)
           | None => true
           end)
        query
  | None => query
  end.

Definition create (db : Db) (window : AttendanceWindow.t)
  : result (AttendanceWindow.t * Db) :=
  let window :=
    AttendanceWindow.mk (next_id AttendanceWindow.id (attendance_windows db))
      (AttendanceWindow.name window) (AttendanceWindow.start_time window)
      (AttendanceWindow.end_time window) (AttendanceWindow.days_of_week window)
      (AttendanceWindow.student_category window)
      (AttendanceWindow.is_active window) in
  Ok (window, with_attendance_windows (attendance_windows db ++ [window]) db).

Definition get_by_id (db : Db) (window_id : Z)
  : result (option AttendanceWindow.t) :=
  scalar_one_or_none
    (filter (fun w => AttendanceWindow.id w =? window_id)
            (attendance_windows db)).

Definition get_all (db : Db) (skip limit : nat) : list AttendanceWindow.t :=
  offset_limit skip limit
    (order_by
       (fun a b => time_le (AttendanceWindow.start_time a)
                           (AttendanceWindow.start_time b))
       (attendance_windows db)).

Definition delete (db : Db) (window : AttendanceWindow.t) : result Db :=
  Ok (with_attendance_windows
        (filter
           (fun w => negb (AttendanceWindow.id w =? AttendanceWindow.id window))
           (attendance_windows db)) db).

End AttendanceWindowRepository.

Module AttendanceRecordRepository.

(** [UniqueConstraint('student_id', 'attendance_date',
    name='uq_student_daily_attendance')] *)
Definition uq_student_daily_attendance
    (record : AttendanceRecord.t) (rows : list AttendanceRecord.t) : bool :=
  negb (existsb
          (fun r =>
             negb (AttendanceRecord.id r =? AttendanceRecord.id record)
             && (AttendanceRecord.student_id r
                 =? AttendanceRecord.student_id record)
             && (AttendanceRecord.attendance_date r
                 =? AttendanceRecord.attendance_date record))
          rows).

Definition create (db : Db) (record : AttendanceRecord.t)
  : result (AttendanceRecord.t * Db) :=
  let record :=
    AttendanceRecord.set_id
      (next_id AttendanceRecord.id (attendance_records db)) record in
  if uq_student_daily_attendance record (attendance_records db)
  then Ok (record,
           with_attendance_records (attendance_records db ++ [record]) db)
  else Raise (IntegrityError "uq_student_daily_attendance").

Definition get_student_record_for_date
    (db : Db) (student_id : Z) (attendance_date : date)
  : result (option AttendanceRecord.t) :=
  scalar_one_or_none
    (filter
       (fun r =>
          (AttendanceRecord.student_id r =? student_id)
          && (AttendanceRecord.attendance_date r =? attendance_date))
       (attendance_records db)).

Definition update (db : Db) (record : AttendanceRecord.t)
  : result (AttendanceRecord.t * Db) :=
  if uq_student_daily_attendance record (attendance_records db)
  then Ok (record,
           with_attendance_records
             (replace_row AttendanceRecord.id record (attendance_records db))
             db)
  else Raise (IntegrityError "uq_student_daily_attendance").

Definition get_by_id (db : Db) (record_id : Z)
  : result (option AttendanceRecord.t) :=
  scalar_one_or_none
    (filter (fun r => AttendanceRecord.id r =? record_id)
            (attendance_records db)).

(** The records of a student, newest date first; a bound that is [None] is
    not applied. *)
Definition get_student_records (db : Db) (student_id : Z)
    (start_date end_date : option date) (skip limit : nat)
  : list AttendanceRecord.t :=
  let query :=
    filter (fun r => AttendanceRecord.student_id r =? student_id)
           (attendance_records db) in
  let query :=
    match start_date with
    | Some start_date =>
        filter (fun r => start_date <=? AttendanceRecord.attendance_date r)
               query
    | None => query
    end in
  let query :=
    match end_date with
    | Some end_date =>
        filter (fun r => AttendanceRecord.attendance_date r <=? end_date)
               query
    | None => query
    end in
  offset_limit skip limit
    (order_by
       (fun a b => AttendanceRecord.attendance_date b
                   <=? AttendanceRecord.attendance_date a)
       query).

Definition get_records_for_date (db : Db) (attendance_date : date)
    (skip limit : nat) : list AttendanceRecord.t :=
  offset_limit skip limit
    (filter (fun r => AttendanceRecord.attendance_date r =? attendance_date)
            (attendance_records db)).

Definition count_by_status_for_date (db : Db) (attendance_date : date)
    (status : AttendanceStatus.t) : Z :=
  len (filter
         (fun r =>
            (AttendanceRecord.attendance_date r =? attendance_date)
            && AttendanceStatus.eqb (AttendanceRecord.status r) status)
         (attendance_records db)).

End AttendanceRecordRepository.

Module AttendanceAttemptRepository.

(** [attempted_at] is filled by the server default [now()]. *)
Definition create (db : Db) (now : datetime) (attempt : AttendanceAttempt.t)
  : result (AttendanceAttempt.t * Db) :=
  let attempt :=
    AttendanceAttempt.set_id_attempted_at
      (next_id AttendanceAttempt.id (attendance_attempts db)) now attempt in
  Ok (attempt,
      with_attendance_attempts (attendance_attempts db ++ [attempt]) db).

Definition count_today_attempts (db : Db) (now : datetime) (student_id : Z)
  : Z :=
  let today_start := mk_datetime (dt_date now) (mk_time 0 0 0 0) in
  len (filter
         (fun a =>
            (AttendanceAttempt.student_id a =? student_id)
            && datetime_ge (AttendanceAttempt.attempted_at a) today_start)
         (attendance_attempts db)).

(** The attempts of a student, newest first. *)
Definition get_student_attempts (db : Db) (student_id : Z)
    (start_date end_date : option datetime) (skip limit : nat)
  : list AttendanceAttempt.t :=
  let query :=
    filter (fun a => AttendanceAttempt.student_id a =? student_id)
           (attendance_attempts db) in
  let query :=
    match start_date with
    | Some start_date =>
        filter (fun a => datetime_ge (AttendanceAttempt.attempted_at a)
                                     start_date) query
    | None => query
    end in
  let query :=
    match end_date with
    | Some end_date =>
        filter (fun a => datetime_le (AttendanceAttempt.attempted_at a)
                                     end_date) query
    | None => query
    end in
  offset_limit skip limit
    (order_by
       (fun a b => datetime_ge (AttendanceAttempt.attempted_at a)
                               (AttendanceAttempt.attempted_at b))
       query).

(** All failed attempts for admin review, newest first. *)
Definition get_failed_attempts (db : Db)
    (start_date end_date : option datetime) (skip limit : nat)
  : list AttendanceAttempt.t :=
  let query :=
    filter (fun a => Bool.eqb (AttendanceAttempt.success a) false)
           (attendance_attempts db) in
  let query :=
    match start_date with
    | Some start_date =>
        filter (fun a => datetime_ge (AttendanceAttempt.attempted_at a)
                                     start_date) query
    | None => query
    end in
  let query :=
    match end_date with
    | Some end_date =>
        filter (fun a => datetime_le (AttendanceAttempt.attempted_at a)
                                     end_date) query
    | None => query
    end in
  offset_limit skip limit
    (order_by
       (fun a b => datetime_ge (AttendanceAttempt.attempted_at a)
                               (AttendanceAttempt.attempted_at b))
       query).

Definition count_failed_for_date (db : Db) (target_date : date) : Z :=
  let start_dt := mk_datetime target_date time_min in
  let end_dt := mk_datetime target_date time_max in
  len (filter
         (fun a =>
            Bool.eqb (AttendanceAttempt.success a) false
            && datetime_ge (AttendanceAttempt.attempted_at a) start_dt
            && datetime_le (AttendanceAttempt.attempted_at a) end_dt)
         (attendance_attempts db)).

End AttendanceAttemptRepository.

(** [holiday_data], the dict given to [HolidayRepository.create]; an absent
    key is [None]. *)
Record holiday_data : Type := mk_holiday_data {
  hd_date : date;
  hd_name : string;
  hd_description : option string;
  hd_holiday_type : option string;
  hd_is_recurring : option bool
}.

Definition dict_get {A : Type} (v : option A) (default : A) : A :=
  match v with Some x => x | None => default end.

Module HolidayRepository.

(** [date: unique=True] *)
Definition uq_date (holiday : Holiday.t) (rows : list Holiday.t) : bool :=
  negb (existsb
          (fun h => negb (Holiday.id h =? Holiday.id holiday)
                    && (Holiday.date_ h =? Holiday.date_ holiday))
          rows).

Definition create (db : Db) (data : holiday_data) (created_by : Z)
  : result (Holiday.t * Db) :=
  let holiday :=
    Holiday.mk (next_id Holiday.id (holidays db))
      (hd_date data) (hd_name data) (hd_description data)
      (dict_get (hd_holiday_type data) "GENERAL")
      (dict_get (hd_is_recurring data) false)
      true (Some created_by) in
  if uq_date holiday (holidays db)
  then Ok (holiday, with_holidays (holidays db ++ [holiday]) db)
  else Raise (IntegrityError "holidays.date").

Definition get_by_id (db : Db) (holiday_id : Z) : result (option Holiday.t) :=
  scalar_one_or_none
    (filter (fun h => Holiday.id h =? holiday_id) (holidays db)).

Definition get_by_date (db : Db) (target_date : date)
  : result (option Holiday.t) :=
  scalar_one_or_none
    (filter
       (fun h => (Holiday.date_ h =? target_date)
                 && Bool.eqb (Holiday.is_active h) true)
       (holidays db)).

Definition get_holidays_in_range (db : Db) (start_date end_date : date)
  : list Holiday.t :=
  order_by (fun a b => Holiday.date_ a <=? Holiday.date_ b)
    (filter
       (fun h => (start_date <=? Holiday.date_ h)
                 && (Holiday.date_ h <=? end_date)
                 && Bool.eqb (Holiday.is_active h) true)
       (holidays db)).

(** The set [{h.date for h in holidays}]. *)
Definition get_holiday_dates_in_range (db : Db) (start_date end_date : date)
  : list date :=
  nodup Z.eq_dec
    (map Holiday.date_ (get_holidays_in_range db start_date end_date)).

Definition get_all_active (db : Db) (skip limit : nat) : list Holiday.t :=
  offset_limit skip limit
    (order_by (fun a b => Holiday.date_ b <=? Holiday.date_ a)
       (filter (fun h => Bool.eqb (Holiday.is_active h) true) (holidays db))).

(** Soft delete by setting [is_active = False]. *)
Definition delete (db : Db) (holiday_id : Z) : result (bool * Db) :=
  holiday <- scalar_one_or_none
               (filter (fun h => Holiday.id h =? holiday_id) (holidays db)) ;;
  match holiday with
  | None => Ok (false, db)
  | Some holiday =>
      let holiday := Holiday.set_is_active false holiday in
      Ok (true,
          with_holidays (replace_row Holiday.id holiday (holidays db)) db)
  end.

Definition hard_delete (db : Db) (holiday_id : Z) : result (bool * Db) :=
  holiday <- scalar_one_or_none
               (filter (fun h => Holiday.id h =? holiday_id) (holidays db)) ;;
  match holiday with
  | None => Ok (false, db)
  | Some holiday =>
      Ok (true,
          with_holidays
            (filter (fun h => negb (Holiday.id h =? Holiday.id holiday))
                    (holidays db)) db)
  end.

End HolidayRepository.

(** [x in s] for a set of dates. *)
Definition date_in (x : date) (s : list date) : bool := existsb (Z.eqb x) s.

Module SettingsRepository.

Definition ACADEMIC_YEAR_START : string := "academic_year_start".
Definition ACADEMIC_YEAR_END : string := "academic_year_end".

Definition get_setting (db : Db) (key : string) : result (option date) :=
  setting <- scalar_one_or_none
               (filter (fun kv => String.eqb (fst kv) key)
                       (attendance_settings db)) ;;
  Ok (option_map snd setting).

Definition get_academic_year_dates (db : Db) (today : date)
  : result (date * date) :=
  start_str <- get_setting db ACADEMIC_YEAR_START ;;
  end_str <- get_setting db ACADEMIC_YEAR_END ;;
  (* Default to July 1 to June 30 if not configured *)
  ' (default_start, default_end) <-
      (if 7 <=? date_month today then
         s <- date_new (date_year today) 7 1 ;;
         e <- date_new (date_year today + 1) 6 30 ;;
         Ok (s, e)
       else
         s <- date_new (date_year today - 1) 7 1 ;;
         e <- date_new (date_year today) 6 30 ;;
         Ok (s, e)) ;;
  Ok (dict_get start_str default_start, dict_get end_str default_end).

End SettingsRepository.

(** A dict keyed by dates, in insertion order; a later value for a key
    replaces the earlier one. *)
Fixpoint dict_set {A : Type} (k : date) (v : A) (d : list (date * A))
  : list (date * A) :=
  match d with
  | [] => [(k, v)]
  | (k', v') :: t =>
      if k =? k' then (k, v) :: t else (k', v') :: dict_set k v t
  end.

Fixpoint dict_find {A : Type} (k : date) (d : list (date * A)) : option A :=
  match d with
  | [] => None
  | (k', v') :: t => if k =? k' then Some v' else dict_find k t
  end.

(** The virtual absent record of the history,
    [{'student_id', 'attendance_date', 'status', 'marked_at', 'id'}]. *)
Record virtual_record : Type := mk_virtual {
  vr_student_id : Z;
  vr_attendance_date : date;
  vr_status : AttendanceStatus.t;
  vr_marked_at : option datetime;
  vr_id : option Z
}.

Inductive history_entry : Type :=
| RealRecord (r : AttendanceRecord.t)
| VirtualRecord (v : virtual_record).

Record attendance_stats : Type := mk_stats {
  st_start_date : date;
  st_end_date : date;
  st_total_working_days : Z;
  st_holidays_count : Z;
  st_present_days : Z;
  st_absent_days : Z;
  st_attendance_percentage : float;
  st_records : list history_entry;
  st_holidays : list Holiday.t
}.

(** One entry of the detailed list,
    [{'student_id', 'student_name', 'register_number', 'department',
      'status', 'marked_at', 'face_match_confidence'}]. *)
Record detailed_row : Type := mk_detailed {
  dr_student_id : Z;
  dr_student_name : string;
  dr_register_number : option string;
  dr_department : option string;
  dr_status : AttendanceStatus.t;
  dr_marked_at : option datetime;
  dr_face_match_confidence : option float
}.

Module DetailedAttendanceRepository.

(** [while current <= end_date: ...; current += timedelta(days=1)] *)
Fixpoint count_working_days (fuel : nat) (current end_date : date)
    (holiday_dates : list date) (total_working_days : Z) : result Z :=
  match fuel with
  | O => Raise RecursionFuel
  | S fuel =>
      if current <=? end_date then
        let total_working_days :=
          if negb (weekday current =? 6)
             && negb (date_in current holiday_dates)
          then total_working_days + 1 else total_working_days in
        current <- date_add_days current 1 ;;
        count_working_days fuel current end_date holiday_dates
                           total_working_days
      else Ok total_working_days
  end.

(** [while current >= start_date: ...; current -= timedelta(days=1)] *)
Fixpoint synthesize_history (fuel : nat) (current start_date today : date)
    (student_id : Z) (holiday_dates : list date)
    (records_by_date : list (date * AttendanceRecord.t))
    (full_history : list history_entry) : result (list history_entry) :=
  match fuel with
  | O => Raise RecursionFuel
  | S fuel =>
      if start_date <=? current then
        let full_history :=
          if negb (weekday current =? 6)
             && negb (date_in current holiday_dates)
          then
            match dict_find current records_by_date with
            | Some r => full_history ++ [RealRecord r]
            | None =>
                if current <=? today then
                  full_history ++
                  [VirtualRecord
                     (mk_virtual student_id current AttendanceStatus.ABSENT
                                 None None)]
                else full_history
            end
          else full_history in
        current <- date_add_days current (-1) ;;
        synthesize_history fuel current start_date today student_id
                           holiday_dates records_by_date full_history
      else Ok full_history
  end.

(** Enough iterations for either loop over [start_date .. end_date]. *)
Definition loop_fuel (start_date end_date : date) : nat :=
  S (Z.to_nat (end_date - start_date + 1)).

Definition get_student_attendance_stats (db : Db) (today : date)
    (student_id : Z) (start_date end_date : option date)
  : result attendance_stats :=
  let end_date := dict_get end_date today in
  ' (start_date, end_date) <-
      match start_date with
      | None =>
          ' (configured_start, configured_end) <-
              SettingsRepository.get_academic_year_dates db today ;;
          Ok (configured_start,
              if configured_end <? end_date then configured_end
              else end_date)
      | Some start_date => Ok (start_date, end_date)
      end ;;
  let records :=
    order_by
      (fun a b => AttendanceRecord.attendance_date b
                  <=? AttendanceRecord.attendance_date a)
      (filter
         (fun r =>
            (AttendanceRecord.student_id r =? student_id)
            && (start_date <=? AttendanceRecord.attendance_date r)
            && (AttendanceRecord.attendance_date r <=? end_date))
         (attendance_records db)) in
  let present_count :=
    len (filter
           (fun r => AttendanceStatus.eqb (AttendanceRecord.status r)
                                          AttendanceStatus.PRESENT)
           records) in
  let holiday_dates :=
    HolidayRepository.get_holiday_dates_in_range db start_date end_date in
  total_working_days <-
    count_working_days (loop_fuel start_date end_date) start_date end_date
                       holiday_dates 0 ;;
  let absent_count := total_working_days - present_count in
  let absent_count := if absent_count <? 0 then 0 else absent_count in
  let percentage :=
    if 0 <? total_working_days
    then PrimFloat.mul (int_truediv present_count total_working_days)
                       100%float
    else 0%float in
  let holidays :=
    HolidayRepository.get_holidays_in_range db start_date end_date in
  let records_by_date :=
    fold_left
      (fun d r => dict_set (AttendanceRecord.attendance_date r) r d)
      records [] in
  full_history <-
    synthesize_history (loop_fuel start_date end_date) end_date start_date
                       today student_id holiday_dates records_by_date [] ;;
  Ok (mk_stats start_date end_date total_working_days (len holiday_dates)
               present_count absent_count (py_round2 percentage)
               full_history holidays).

(** [for window in windows: if current_day in days: if current_time <=
    window.end_time: is_window_open = True; break] *)
Fixpoint any_window_still_open (windows : list AttendanceWindow.t)
    (current_time : time) (current_day : Z) : bool :=
  match windows with
  | [] => false
  | window :: windows =>
      let days := AttendanceWindow.days_of_week window in
      if existsb (Z.eqb current_day) days then
        if time_le current_time (AttendanceWindow.end_time window) then true
        else any_window_still_open windows current_time current_day
      else any_window_still_open windows current_time current_day
  end.

(** [ORDER BY first_name, last_name], strings compared by code points. *)
Definition name_le (a b : UserRow.t) : bool :=
  match String.compare (UserRow.first_name a) (UserRow.first_name b) with
  | Lt => true
  | Gt => false
  | Eq => String.leb (UserRow.last_name a) (UserRow.last_name b)
  end.

Definition get_all_students_with_attendance_for_date
    (users : list UserRow.t) (db : Db) (now : datetime)
    (attendance_date : date) : list detailed_row :=
  (* Get all students (including HOSTELLER and DAY_SCHOLAR roles) *)
  let student_roles :=
    [UserRole.STUDENT; UserRole.HOSTELLER; UserRole.DAY_SCHOLAR] in
  (* Query all active students *)
  let students :=
    order_by name_le
      (filter
         (fun u =>
            existsb (UserRole.eqb (UserRow.role u)) student_roles
            && Bool.eqb (UserRow.is_active u) true)
         users) in
  (* Query attendance records for the date *)
  let records :=
    filter (fun r => AttendanceRecord.attendance_date r =? attendance_date)
           (attendance_records db) in
  (* Create a lookup dict for records *)
  let records_by_student :=
    fold_left (fun d r => dict_set (AttendanceRecord.student_id r) r d)
              records [] in
  (* Check if any attendance window is still open for today *)
  let is_window_open :=
    if attendance_date =? dt_date now then
      let windows :=
        filter (fun w => Bool.eqb (AttendanceWindow.is_active w) true)
               (attendance_windows db) in
      any_window_still_open windows (dt_time now) (weekday (dt_date now))
    else false in
  (* Build detailed list *)
  map
    (fun student =>
       let record := dict_find (UserRow.id student) records_by_student in
       let status :=
         match record with
         | Some record => AttendanceRecord.status record
         | None =>
             if is_window_open then AttendanceStatus.PENDING
             else AttendanceStatus.ABSENT
         end in
       mk_detailed (UserRow.id student)
         (UserRow.first_name student ++ " " ++ UserRow.last_name student)
         (UserRow.register_number student) (UserRow.department student)
         status
         (match record with
          | Some record => AttendanceRecord.marked_at record
          | None => None
          end)
         (match record with
          | Some record => AttendanceRecord.face_match_confidence record
          | None => None
          end))
    students.

End DetailedAttendanceRepository.

(* ================================================================== *)
(** * app/schemas/attendance.py *)
(* ================================================================== *)

Record ProfilePhotoApproval : Type := mk_approval {
  approved : bool;
  approval_rejection_reason : option string
}.

Record GeofenceCreate : Type := mk_geofence_create {
  gc_name : string;
  gc_description : option string;
  gc_latitude : float;
  gc_longitude : float;
  gc_radius_meters : float;
  gc_accuracy_threshold : float;
  gc_is_primary : bool
}.

(** [GeofenceUpdate]: every field is optional.  A field that the request
    leaves unset is [None]; one that it sets is [Some v], where [v] is
    [None] for an explicit null ([model_dump(exclude_unset=True)] keeps
    such a field, with the value [None]). *)
Record GeofenceUpdate : Type := mk_geofence_update {
  gu_name : option (option string);
  gu_description : option (option string);
  gu_latitude : option (option float);
  gu_longitude : option (option float);
  gu_radius_meters : option (option float);
  gu_accuracy_threshold : option (option float);
  gu_is_active : option (option bool);
  gu_is_primary : option (option bool)
}.

Record AttendanceWindowCreate : Type := mk_window_create {
  wc_name : string;
  wc_start_time : time;
  wc_end_time : time;
  wc_days_of_week : list Z;
  wc_student_category : option string;
  wc_is_active : bool
}.

(** The validator [validate_days] of [AttendanceWindowCreate]. *)
Definition validate_days (v : list Z) : result (list Z) :=
  if negb (forallb (fun d => (0 <=? d) && (d <=? 6)) v) then
    Raise (ValueError "Days must be between 0 (Monday) and 6 (Sunday)")
  else Ok v.

(** Building an [AttendanceWindowCreate] from the fields of a request: the
    constraint of [name] and the validator of [days_of_week], whose
    ValueError the model reports as a validation error of the field. *)
Definition AttendanceWindowCreate_validate (name : string)
    (start_time end_time : time) (days_of_week : list Z)
    (student_category : option string) (is_active : bool)
  : result AttendanceWindowCreate :=
  if negb ((1 <=? String.length name)%nat && (String.length name <=? 100)%nat)
  then Raise (ValidationError "name")
  else
    match validate_days days_of_week with
    | Ok days =>
        Ok (mk_window_create name start_time end_time days student_category
                             is_active)
    | Raise _ => Raise (ValidationError "days_of_week")
    end.

Record AttendanceDashboardStats : Type := mk_dashboard {
  ds_date : date;
  ds_total_students : Z;
  ds_present_count : Z;
  ds_absent_count : Z;
  ds_failed_attempts_count : Z;
  ds_attendance_percentage : float
}.

Record DetailedAttendanceListOut : Type := mk_detailed_list {
  dl_date : date;
  dl_students : list detailed_row;
  dl_present_count : Z;
  dl_absent_count : Z;
  dl_pending_count : Z;
  dl_total_students : Z
}.

Record LocationData : Type := mk_location {
  latitude : float;
  longitude : float;
  accuracy : float
}.

(** The field constraints of [LocationData]
    ([ge=-90, le=90], [ge=-180, le=180], [ge=0]). *)
Definition LocationData_validate (lat lon acc : float) : result LocationData :=
  if negb (float_ge lat (-90)%float && float_le lat 90%float)
  then Raise (ValidationError "latitude")
  else if negb (float_ge lon (-180)%float && float_le lon 180%float)
  then Raise (ValidationError "longitude")
  else if negb (float_ge acc 0%float)
  then Raise (ValidationError "accuracy")
  else Ok (mk_location lat lon acc).

Record AttendancePreCheckOut : Type := mk_precheck {
  can_mark : bool;
  blockers : list string;
  profile_approved : bool;
  within_time_window : bool;
  already_marked_today : bool
}.

Record AttendanceMarkResult : Type := mk_mark_result {
  mr_success : bool;
  mr_message : string;
  mr_attendance_status : option AttendanceStatus.t;
  mr_failure_reason : option FailureReason.t;
  mr_face_match_score : option float
}.

Record UploadFile : Type := mk_upload {
  uf_filename : string;
  uf_content_type : option string;
  uf_content : string
}.

(* ================================================================== *)
(** * External capabilities *)
(* ================================================================== *)

(** [FaceRecognitionService]: the DeepFace-backed methods, reading the
    stored files. *)
Record FaceRecognitionService : Type := mk_face_service {
  detect_faces : list (string * string) -> string -> nat;
  extract_face_encoding : list (string * string) -> string -> option (list float);
  verify_face : list (string * string) -> string -> string
                -> bool * float * string
}.

(** The [math] functions that are not float primitives. *)
Record Libm : Type := mk_libm {
  math_sin : float -> float;
  math_cos : float -> float;
  math_atan2 : float -> float -> float;
  math_pow : float -> float -> float
}.

(** [math.radians(x)] *)
Definition math_radians (x : float) : float :=
  PrimFloat.mul x (PrimFloat.div 0x1.921fb54442d18p+1%float 180%float).

(** [math.sqrt(x)] *)
Definition math_sqrt (x : float) : result float :=
  if float_gt 0%float x then Raise (ValueError "math domain error")
  else Ok (PrimFloat.sqrt x).

(** [os.path.exists(path)] *)
Definition os_path_exists (fs : list (string * string)) (path : string) : bool :=
  existsb (fun f => String.eqb (fst f) path) fs.

(** Writing [content] to [path] ([open(path, 'wb')]). *)
Definition fs_write (fs : list (string * string)) (path content : string)
  : list (string * string) :=
  (path, content) :: filter (fun f => negb (String.eqb (fst f) path)) fs.

(** [FaceRecognitionService.validate_face_image] *)
Definition validate_face_image (face_service : FaceRecognitionService)
    (fs : list (string * string)) (image_path : string) : bool * string :=
  if negb (os_path_exists fs image_path) then (false, "Image file not found")
  else
    let face_count := detect_faces face_service fs image_path in
    if (face_count =? 0)%nat then (false, "No face detected in image")
    else if (1 <? face_count)%nat then
      (false,
       "Multiple faces detected (" ++ str_of_Z (Z.of_nat face_count) ++ ")")%string
    else (true, "Valid face image").

Definition UPLOAD_DIR : string := "uploads".

(* ================================================================== *)
(** * app/services/attendance_service.py *)
(* ================================================================== *)

(** One entry of the [created] list of the bulk import. *)
Record created_holiday : Type := mk_created {
  ch_date : string;
  ch_name : string
}.

Record bulk_result : Type := mk_bulk_result {
  created : list created_holiday;
  created_count : Z;
  errors : list string;
  error_count : Z
}.

(** [str(e)] of a caught exception. *)
Definition exn_str (e : exn) : string :=
  match e with
  | ValueError msg => msg
  | OverflowError msg => msg
  | ValidationError field => field
  | MultipleResultsFound => "Multiple rows were found when one or none was required"
  | IntegrityError c => c
  | HTTPException _ detail => detail
  | RecursionFuel => ""
  end.

Module AttendanceService.

Definition MAX_DAILY_ATTEMPTS : Z := 5.
Definition PROFILE_PHOTOS_DIR : string := "profile_photos".
Definition ATTENDANCE_CAPTURES_DIR : string := "attendance_captures".

Definition _get_upload_dir (subdir : string) : string :=
  os_path_join UPLOAD_DIR subdir.

Definition _haversine_distance (math : Libm) (lat1 lon1 lat2 lon2 : float)
  : result float :=
  let R := float_of_Z 6371000 in
  let phi1 := math_radians lat1 in
  let phi2 := math_radians lat2 in
  let delta_phi := math_radians (lat2 - lat1)%float in
  let delta_lambda := math_radians (lon2 - lon1)%float in
  let a :=
    (math_pow math (math_sin math (delta_phi / 2)) 2
     + math_cos math phi1 * math_cos math phi2
       * math_pow math (math_sin math (delta_lambda / 2)) 2)%float in
  sqrt_a <- math_sqrt a ;;
  sqrt_1a <- math_sqrt (1 - a)%float ;;
  let c := (2 * math_atan2 math sqrt_a sqrt_1a)%float in
  Ok (R * c)%float.

Definition _is_within_geofence (math : Libm) (location : LocationData)
    (geofence : CampusGeofence.t) : result (bool * float) :=
  distance <- _haversine_distance math
                (latitude location) (longitude location)
                (CampusGeofence.latitude geofence)
                (CampusGeofence.longitude geofence) ;;
  let is_within := float_le distance (CampusGeofence.radius_meters geofence) in
  Ok (is_within, distance).

Fixpoint _is_within_time_window (windows : list AttendanceWindow.t)
    (current_time : time) (current_day : Z) : bool :=
  match windows with
  | [] => false
  | window :: windows =>
      let days := AttendanceWindow.days_of_week window in
      if negb (existsb (Z.eqb current_day) days) then
        _is_within_time_window windows current_time current_day
      else if time_le (AttendanceWindow.start_time window) current_time
              && time_le current_time (AttendanceWindow.end_time window)
      then true
      else _is_within_time_window windows current_time current_day
  end.

(* ---------------- Profile photo management ---------------- *)

Definition upload_profile_photo (face_service : FaceRecognitionService)
    (db : Db) (now : datetime) (student : User.t) (file : UploadFile)
  : result (ProfilePhoto.t * Db) :=
  let upload_dir := _get_upload_dir PROFILE_PHOTOS_DIR in
  let timestamp := strftime_compact now in
  let safe_filename :=
    (str_of_Z (User.id student) ++ "_" ++ timestamp ++ "_"
     ++ uf_filename file)%string in
  let file_path := os_path_join upload_dir safe_filename in
  let db := with_files (fs_write (files db) file_path (uf_content file)) db in
  let '(is_valid, error_msg) :=
    validate_face_image face_service (files db) file_path in
  if negb is_valid then
    Raise (ValueError ("Invalid profile photo: " ++ error_msg)%string)
  else
    match extract_face_encoding face_service (files db) file_path with
    | None => Raise (ValueError "Could not extract face encoding from image")
    | Some encoding =>
        let photo :=
          ProfilePhoto.mk 0 (User.id student) file_path safe_filename
            (Some encoding) ProfilePhotoStatus.PENDING None None None now in
        ProfilePhotoRepository.create db now photo
    end.

Definition review_profile_photo (db : Db) (now : datetime) (photo_id : Z)
    (reviewer : User.t) (approval : ProfilePhotoApproval)
  : result (ProfilePhoto.t * Db) :=
  photo <- ProfilePhotoRepository.get_by_id db photo_id ;;
  match photo with
  | None => Raise (ValueError "Profile photo not found")
  | Some photo =>
      if negb (ProfilePhotoStatus.eqb (ProfilePhoto.status photo)
                                      ProfilePhotoStatus.PENDING)
      then Raise (ValueError "Photo has already been reviewed")
      else
        ' (photo, db) <-
            (if approved approval then
               (* Before approving, reject any existing approved photo *)
               existing_approved <-
                 ProfilePhotoRepository.get_approved_photo_for_student
                   db (ProfilePhoto.student_id photo) ;;
               db <-
                 match existing_approved with
                 | Some existing_approved =>
                     if negb (ProfilePhoto.id existing_approved
                              =? ProfilePhoto.id photo)
                     then
                       let existing_approved :=
                         ProfilePhoto.set_rejection_reason
                           (Some "Replaced by new approved photo")
                           (ProfilePhoto.set_status
                              ProfilePhotoStatus.REJECTED existing_approved) in
                       ' (_, db) <-
                           ProfilePhotoRepository.update db existing_approved ;;
                       Ok db
                     else Ok db
                 | None => Ok db
                 end ;;
               Ok (ProfilePhoto.set_status ProfilePhotoStatus.APPROVED photo,
                   db)
             else
               let reason :=
                 match approval_rejection_reason approval with
                 | Some EmptyString | None => "Photo rejected by admin"
                 | Some s => s
                 end in
               Ok (ProfilePhoto.set_rejection_reason (Some reason)
                     (ProfilePhoto.set_status
                        ProfilePhotoStatus.REJECTED photo),
                   db)) ;;
        let photo :=
          ProfilePhoto.set_reviewed (Some (User.id reviewer)) (Some now)
                                    photo in
        ProfilePhotoRepository.update db photo
  end.

(* ---------------- Geofence management ---------------- *)

Definition create_geofence (db : Db) (data : GeofenceCreate) (admin : User.t)
  : result (CampusGeofence.t * Db) :=
  let geofence :=
    CampusGeofence.mk 0 (gc_name data) (gc_description data)
      (gc_latitude data) (gc_longitude data) (gc_radius_meters data)
      (gc_accuracy_threshold data) true (gc_is_primary data)
      (Some (User.id admin)) in
  (* If this is primary, unset other primary geofences *)
  db <-
    (if gc_is_primary data then
       existing_primary <- GeofenceRepository.get_primary_active_geofence db ;;
       match existing_primary with
       | Some existing_primary =>
           ' (_, db) <-
               GeofenceRepository.update db
                 (CampusGeofence.set_is_primary false existing_primary) ;;
           Ok db
       | None => Ok db
       end
     else Ok db) ;;
  GeofenceRepository.create db geofence.

(** [setattr(geofence, field, value)] for a field of the dump: the
    attribute keeps its value when the dump has no such field. *)
Definition setattr {A : Type} (field : option (option A)) (old : option A)
  : option A :=
  match field with
  | Some value => value
  | None => old
  end.

(** The flush of an attribute into a column that is not nullable. *)
Definition not_null {A : Type} (column : string) (value : option A)
  : result A :=
  match value with
  | Some v => Ok v
  | None =>
      Raise (IntegrityError
               ("NOT NULL constraint failed: campus_geofences." ++ column))
  end.

(** [for field, value in data.model_dump(exclude_unset=True).items():
    setattr(geofence, field, value)], and the row that the flush of
    [geofence_repo.update] writes: every column but [description] is
    declared not nullable. *)
Definition apply_geofence_update (data : GeofenceUpdate)
    (g : CampusGeofence.t) : result CampusGeofence.t :=
  name <- not_null "name"
            (setattr (gu_name data) (Some (CampusGeofence.name g))) ;;
  let description :=
    setattr (gu_description data) (CampusGeofence.description g) in
  latitude <- not_null "latitude"
                (setattr (gu_latitude data)
                         (Some (CampusGeofence.latitude g))) ;;
  longitude <- not_null "longitude"
                 (setattr (gu_longitude data)
                          (Some (CampusGeofence.longitude g))) ;;
  radius_meters <- not_null "radius_meters"
                     (setattr (gu_radius_meters data)
                              (Some (CampusGeofence.radius_meters g))) ;;
  accuracy_threshold <-
    not_null "accuracy_threshold"
      (setattr (gu_accuracy_threshold data)
               (Some (CampusGeofence.accuracy_threshold g))) ;;
  is_active <- not_null "is_active"
                 (setattr (gu_is_active data)
                          (Some (CampusGeofence.is_active g))) ;;
  is_primary <- not_null "is_primary"
                  (setattr (gu_is_primary data)
                           (Some (CampusGeofence.is_primary g))) ;;
  Ok (CampusGeofence.mk (CampusGeofence.id g) name description latitude
        longitude radius_meters accuracy_threshold is_active is_primary
        (CampusGeofence.created_by g)).

Definition update_geofence (db : Db) (geofence_id : Z) (data : GeofenceUpdate)
  : result (CampusGeofence.t * Db) :=
  geofence <- GeofenceRepository.get_by_id db geofence_id ;;
  match geofence with
  | None => Raise (ValueError "Geofence not found")
  | Some geofence =>
      geofence <- apply_geofence_update data geofence ;;
      GeofenceRepository.update db geofence
  end.

Definition delete_geofence (db : Db) (geofence_id : Z) : result Db :=
  geofence <- GeofenceRepository.get_by_id db geofence_id ;;
  match geofence with
  | None => Raise (ValueError "Geofence not found")
  | Some geofence => GeofenceRepository.delete db geofence
  end.

(* ---------------- Attendance pre-check ---------------- *)

Definition check_attendance_prerequisites (db : Db) (now : datetime)
    (student : User.t) : result AttendancePreCheckOut :=
  let blockers : list string := [] in
  let today := dt_date now in
  (* Check 0: Not Sunday *)
  let is_sunday := weekday today =? 6 in
  let blockers :=
    if is_sunday
    then blockers ++ ["Attendance is not required on Sundays"]
    else blockers in
  (* Check 0.5: Not a Holiday *)
  holiday <- HolidayRepository.get_by_date db today ;;
  let blockers :=
    match holiday with
    | Some holiday =>
        blockers ++ [("Today is a holiday: " ++ Holiday.name holiday)%string]
    | None => blockers
    end in
  (* Check 1: Profile photo approved *)
  approved_photo <-
    ProfilePhotoRepository.get_approved_photo_for_student db (User.id student) ;;
  let profile_approved :=
    match approved_photo with Some _ => true | None => false end in
  let blockers :=
    if negb profile_approved
    then blockers ++ ["Profile photo not approved"] else blockers in
  (* Check 2: Within time window *)
  let current_time := dt_time now in
  let current_day := weekday (dt_date now) in
  let windows :=
    AttendanceWindowRepository.get_active_windows
      db (User.student_category student) in
  let within_time_window :=
    _is_within_time_window windows current_time current_day in
  let blockers :=
    if negb within_time_window
    then blockers ++ ["Outside attendance time window"] else blockers in
  (* Check 3: Not already marked today *)
  existing_record <-
    AttendanceRecordRepository.get_student_record_for_date
      db (User.id student) today ;;
  let already_marked_today :=
    match existing_record with
    | Some existing_record =>
        AttendanceStatus.eqb (AttendanceRecord.status existing_record)
                             AttendanceStatus.PRESENT
    | None => false
    end in
  let blockers :=
    if already_marked_today
    then blockers ++ ["Attendance already marked today"] else blockers in
  (* Check 4: Attempt limit *)
  let attempt_count :=
    AttendanceAttemptRepository.count_today_attempts
      db now (User.id student) in
  let blockers :=
    if MAX_DAILY_ATTEMPTS <=? attempt_count
    then blockers ++
         [("Maximum attempts (" ++ str_of_Z MAX_DAILY_ATTEMPTS
           ++ ") reached for today")%string]
    else blockers in
  (* Check 5: Geofence exists *)
  primary_geofence <- GeofenceRepository.get_primary_active_geofence db ;;
  let blockers :=
    match primary_geofence with
    | None => blockers ++ ["Campus geofence not configured"]
    | Some _ => blockers
    end in
  let can_mark := (List.length blockers =? 0)%nat in
  Ok (mk_precheck can_mark blockers profile_approved within_time_window
                  already_marked_today).

(* ---------------- Attendance marking ---------------- *)

Definition mark_attendance (face_service : FaceRecognitionService)
    (math : Libm) (db : Db) (now : datetime) (student : User.t)
    (location : LocationData) (image_file : UploadFile)
  : result (AttendanceMarkResult * Db) :=
  let today := dt_date now in
  (* Initialize attempt log *)
  let attempt :=
    AttendanceAttempt.mk 0 (User.id student) now false None None
      (Some (latitude location)) (Some (longitude location))
      (Some (accuracy location)) None None None in
  (* GATE 1: Location Verification *)
  geofence <- GeofenceRepository.get_primary_active_geofence db ;;
  match geofence with
  | None =>
      let attempt :=
        AttendanceAttempt.set_geofence_id None
          (AttendanceAttempt.set_failure FailureReason.OUTSIDE_CAMPUS
             (Some [Lit "Campus geofence not configured"]) attempt) in
      ' (_, db) <- AttendanceAttemptRepository.create db now attempt ;;
      Ok (mk_mark_result false "Campus geofence not configured" None
            (Some FailureReason.OUTSIDE_CAMPUS) None, db)
  | Some geofence =>
      let attempt :=
        AttendanceAttempt.set_geofence_id
          (Some (CampusGeofence.id geofence)) attempt in
      (* Check GPS accuracy *)
      if float_gt (accuracy location)
                  (CampusGeofence.accuracy_threshold geofence) then
        let attempt :=
          AttendanceAttempt.set_failure FailureReason.LOW_GPS_ACCURACY
            (Some [Lit "GPS accuracy "; FloatStr (accuracy location);
                   Lit "m exceeds threshold ";
                   FloatStr (CampusGeofence.accuracy_threshold geofence);
                   Lit "m"]) attempt in
        ' (_, db) <- AttendanceAttemptRepository.create db now attempt ;;
        Ok (mk_mark_result false
              "GPS accuracy too low. Please move to an open area." None
              (Some FailureReason.LOW_GPS_ACCURACY) None, db)
      else
        (* Check if within campus *)
        ' (is_within, distance) <- _is_within_geofence math location geofence ;;
        if negb is_within then
          let attempt :=
            AttendanceAttempt.set_failure FailureReason.OUTSIDE_CAMPUS
              (Some [Lit "Distance from campus center: ";
                     FloatFixed0 distance; Lit "m (radius: ";
                     FloatStr (CampusGeofence.radius_meters geofence);
                     Lit "m)"]) attempt in
          ' (_, db) <- AttendanceAttemptRepository.create db now attempt ;;
          Ok (mk_mark_result false "You are outside the campus boundary" None
                (Some FailureReason.OUTSIDE_CAMPUS) None, db)
        else
          (* GATE 2: Save and validate captured image *)
          let upload_dir := _get_upload_dir ATTENDANCE_CAPTURES_DIR in
          let timestamp := strftime_compact now in
          let capture_filename :=
            (str_of_Z (User.id student) ++ "_" ++ timestamp ++ "_"
             ++ uf_filename image_file)%string in
          let capture_path := os_path_join upload_dir capture_filename in
          let db :=
            with_files
              (fs_write (files db) capture_path (uf_content image_file)) db in
          let attempt :=
            AttendanceAttempt.set_captured_image_path (Some capture_path)
                                                      attempt in
          (* Validate face in captured image *)
          let face_count := detect_faces face_service (files db) capture_path in
          if (face_count =? 0)%nat then
            let attempt :=
              AttendanceAttempt.set_failure FailureReason.NO_FACE_DETECTED
                (Some [Lit "No face detected in captured image"]) attempt in
            ' (_, db) <- AttendanceAttemptRepository.create db now attempt ;;
            Ok (mk_mark_result false
                  "No face detected. Please ensure your face is clearly visible."
                  None (Some FailureReason.NO_FACE_DETECTED) None, db)
          else if (1 <? face_count)%nat then
            let attempt :=
              AttendanceAttempt.set_failure FailureReason.MULTIPLE_FACES
                (Some [IntStr (Z.of_nat face_count); Lit " faces detected"])
                attempt in
            ' (_, db) <- AttendanceAttemptRepository.create db now attempt ;;
            Ok (mk_mark_result false
                  "Multiple faces detected. Only you should be in the frame."
                  None (Some FailureReason.MULTIPLE_FACES) None, db)
          else
            (* GATE 3: Face Matching *)
            approved_photo <-
              ProfilePhotoRepository.get_approved_photo_for_student
                db (User.id student) ;;
            match approved_photo with
            | None =>
                let attempt :=
                  AttendanceAttempt.set_failure
                    FailureReason.PROFILE_NOT_APPROVED None attempt in
                ' (_, db) <- AttendanceAttemptRepository.create db now attempt ;;
                Ok (mk_mark_result false "Profile photo not approved" None
                      (Some FailureReason.PROFILE_NOT_APPROVED) None, db)
            | Some approved_photo =>
                (* Compare faces *)
                let '(is_match, similarity_score, message) :=
                  verify_face face_service (files db)
                    (ProfilePhoto.file_path approved_photo) capture_path in
                let attempt :=
                  AttendanceAttempt.set_face_match_score
                    (Some similarity_score) attempt in
                if negb is_match then
                  let attempt :=
                    AttendanceAttempt.set_failure FailureReason.FACE_MISMATCH
                      (Some [Lit "Face match score: ";
                             FloatStr similarity_score]) attempt in
                  ' (_, db) <-
                      AttendanceAttemptRepository.create db now attempt ;;
                  Ok (mk_mark_result false
                        "Face verification failed. Please try again." None
                        (Some FailureReason.FACE_MISMATCH)
                        (Some similarity_score), db)
                else
                  (* SUCCESS: All gates passed *)
                  let attempt := AttendanceAttempt.set_success true attempt in
                  ' (_, db) <-
                      AttendanceAttemptRepository.create db now attempt ;;
                  (* Create or update attendance record *)
                  existing_record <-
                    AttendanceRecordRepository.get_student_record_for_date
                      db (User.id student) today ;;
                  db <-
                    match existing_record with
                    | Some existing_record =>
                        let existing_record :=
                          AttendanceRecord.mk
                            (AttendanceRecord.id existing_record)
                            (AttendanceRecord.student_id existing_record)
                            (AttendanceRecord.attendance_date existing_record)
                            AttendanceStatus.PRESENT
                            (Some (latitude location))
                            (Some (longitude location))
                            (Some (accuracy location))
                            (Some similarity_score)
                            (Some now) in
                        ' (_, db) <-
                            AttendanceRecordRepository.update
                              db existing_record ;;
                        Ok db
                    | None =>
                        let record :=
                          AttendanceRecord.mk 0 (User.id student) today
                            AttendanceStatus.PRESENT
                            (Some (latitude location))
                            (Some (longitude location))
                            (Some (accuracy location))
                            (Some similarity_score)
                            (Some now) in
                        ' (_, db) <-
                            AttendanceRecordRepository.create db record ;;
                        Ok db
                    end ;;
                  Ok (mk_mark_result true "Attendance marked successfully!"
                        (Some AttendanceStatus.PRESENT) None
                        (Some similarity_score), db)
            end
  end.

(* ---------------- Holiday calendar ---------------- *)

Definition create_holiday (db : Db) (admin_id : Z) (data : holiday_data)
  : result (Holiday.t * Db) :=
  existing <- HolidayRepository.get_by_date db (hd_date data) ;;
  match existing with
  | Some _ =>
      Raise (ValueError ("Holiday already exists for "
                         ++ date_isoformat (hd_date data))%string)
  | None => HolidayRepository.create db data admin_id
  end.

Definition delete_holiday (db : Db) (holiday_id : Z) : result (bool * Db) :=
  HolidayRepository.delete db holiday_id.

(** Month name to number mapping *)
Definition month_map : list (string * Z) :=
  [("jan", 1); ("january", 1);
   ("feb", 2); ("february", 2);
   ("mar", 3); ("march", 3);
   ("apr", 4); ("april", 4);
   ("may", 5);
   ("jun", 6); ("june", 6);
   ("jul", 7); ("july", 7);
   ("aug", 8); ("august", 8);
   ("sep", 9); ("sept", 9); ("september", 9);
   ("oct", 10); ("october", 10);
   ("nov", 11); ("november", 11);
   ("dec", 12); ("december", 12)].

Fixpoint month_map_get (k : string) (m : list (string * Z)) : option Z :=
  match m with
  | [] => None
  | (k', v) :: t => if String.eqb k k' then Some v else month_map_get k t
  end.

(** The state the loop of the bulk import carries. *)
Record bulk_state : Type := mk_bulk_state {
  bs_db : Db;
  bs_created : list created_holiday;
  bs_errors : list string
}.

Definition add_error (s : bulk_state) (line_num : Z) (msg : string)
  : bulk_state :=
  mk_bulk_state (bs_db s) (bs_created s)
    (bs_errors s ++ [("Line " ++ str_of_Z line_num ++ ": " ++ msg)%string]).

(** The body of [for line_num, line in enumerate(lines, 1)]. *)
Definition bulk_line (admin_id year : Z) (s : bulk_state) (line_num : Z)
    (line : string) : result bulk_state :=
  let line := strip line in
  if (String.length line =? 0)%nat then Ok s
  (* Skip header line *)
  else if str_in "date" (lower line) && str_in "holiday" (lower line)
  then Ok s
  else
    (* Split by tab or multiple spaces or comma *)
    let parts := re_split line in
    let parts :=
      map strip
          (filter (fun p => negb (String.length (strip p) =? 0)%nat) parts) in
    if len parts <? 2 then
      Ok (add_error s line_num ("Invalid format - '" ++ line ++ "'")%string)
    else
      let date_str := hd "" parts in
      let holiday_name := last parts "" in
      (* Parse month and day *)
      match re_match_date date_str with
      | None =>
          Ok (add_error s line_num
                ("Could not parse date - '" ++ date_str ++ "'")%string)
      | Some (g1, g2) =>
          let month_str := lower g1 in
          day <- py_int (list_ascii_of_string g2) ;;
          match month_map_get month_str month_map with
          | None =>
              Ok (add_error s line_num
                    ("Unknown month - '" ++ month_str ++ "'")%string)
          | Some month =>
              match date_new year month day with
              | Raise (ValueError e) =>
                  Ok (add_error s line_num ("Invalid date - " ++ e)%string)
              | Raise e => Raise e
              | Ok holiday_date =>
                  (* Check if already exists *)
                  existing <-
                    HolidayRepository.get_by_date (bs_db s) holiday_date ;;
                  match existing with
                  | Some _ =>
                      Ok (add_error s line_num
                            ("Holiday already exists for "
                             ++ date_isoformat holiday_date)%string)
                  | None =>
                      (* Create holiday *)
                      match
                        HolidayRepository.create (bs_db s)
                          (mk_holiday_data holiday_date holiday_name None
                             (Some "GENERAL") (Some true)) admin_id
                      with
                      | Ok (_, db) =>
                          Ok (mk_bulk_state db
                                (bs_created s ++
                                 [mk_created (date_isoformat holiday_date)
                                             holiday_name])
                                (bs_errors s))
                      | Raise e =>
                          Ok (add_error s line_num
                                ("Failed to create - " ++ exn_str e)%string)
                      end
                  end
              end
          end
      end.

Fixpoint bulk_lines (admin_id year : Z) (s : bulk_state) (line_num : Z)
    (lines : list string) : result bulk_state :=
  match lines with
  | [] => Ok s
  | line :: lines =>
      s <- bulk_line admin_id year s line_num line ;;
      bulk_lines admin_id year s (line_num + 1) lines
  end.

Definition bulk_create_holidays (db : Db) (admin_id : Z) (text : string)
    (year : Z) : result (bulk_result * Db) :=
  let lines := split_lines (strip text) in
  s <- bulk_lines admin_id year (mk_bulk_state db [] []) 1 lines ;;
  Ok (mk_bulk_result (bs_created s) (len (bs_created s))
                     (bs_errors s) (len (bs_errors s)),
      bs_db s).

(** [get_holidays]: the listing and its [total]. *)
Definition get_holidays (db : Db) (start_date end_date : option date)
  : list Holiday.t * Z :=
  let holidays :=
    match start_date, end_date with
    | Some start_date, Some end_date =>
        HolidayRepository.get_holidays_in_range db start_date end_date
    | _, _ => HolidayRepository.get_all_active db 0 100
    end in
  (holidays, len holidays).

Definition get_profile_photo_status (db : Db) (student_id : Z)
  : result (option ProfilePhoto.t) :=
  photo <- ProfilePhotoRepository.get_latest_photo_for_student db student_id ;;
  match photo with
  | Some photo => Ok (Some photo)
  | None => Ok None
  end.

Definition get_pending_photos (db : Db) (skip limit : nat)
  : list ProfilePhoto.t * Z :=
  let photos := ProfilePhotoRepository.get_pending_photos db skip limit in
  let total := ProfilePhotoRepository.count_pending db in
  (photos, total).

(* ---------------- Attendance window management ---------------- *)

Definition create_attendance_window (db : Db) (data : AttendanceWindowCreate)
  : result (AttendanceWindow.t * Db) :=
  let window :=
    AttendanceWindow.mk 0 (wc_name data) (wc_start_time data)
      (wc_end_time data) (wc_days_of_week data) (wc_student_category data)
      (wc_is_active data) in
  AttendanceWindowRepository.create db window.

Definition get_attendance_windows (db : Db) : list AttendanceWindow.t :=
  AttendanceWindowRepository.get_all db 0 50.

Definition delete_attendance_window (db : Db) (window_id : Z) : result Db :=
  window <- AttendanceWindowRepository.get_by_id db window_id ;;
  match window with
  | None => Raise (ValueError "Attendance window not found")
  | Some window => AttendanceWindowRepository.delete db window
  end.

(* ---------------- Attendance records ---------------- *)

Definition get_student_attempts (db : Db) (student_id : Z)
  : list AttendanceAttempt.t :=
  AttendanceAttemptRepository.get_student_attempts db student_id None None
                                                   0 50.

Definition get_today_status (db : Db) (now : datetime) (student_id : Z)
  : result (option AttendanceRecord.t) :=
  let today := dt_date now in
  record <- AttendanceRecordRepository.get_student_record_for_date
              db student_id today ;;
  match record with
  | Some record => Ok (Some record)
  | None => Ok None
  end.

Definition get_all_records_for_date (db : Db) (target_date : date)
  : list AttendanceRecord.t :=
  AttendanceRecordRepository.get_records_for_date db target_date 0 500.

Definition get_failed_attempts (db : Db)
    (start_date end_date : option datetime) : list AttendanceAttempt.t :=
  AttendanceAttemptRepository.get_failed_attempts db start_date end_date
                                                  0 100.

(* ---------------- Admin dashboard ---------------- *)

Definition get_dashboard_stats (users : list UserRow.t) (db : Db)
    (target_date : date) : AttendanceDashboardStats :=
  let role_counts := UserRepository.count_by_role users in
  (* Sum all student-type roles *)
  let total_students :=
    str_dict_get role_counts "STUDENT" 0
    + str_dict_get role_counts "HOSTELLER" 0
    + str_dict_get role_counts "DAY_SCHOLAR" 0 in
  let present_count :=
    AttendanceRecordRepository.count_by_status_for_date
      db target_date AttendanceStatus.PRESENT in
  let absent_count := total_students - present_count in
  let failed_count :=
    AttendanceAttemptRepository.count_failed_for_date db target_date in
  let percentage :=
    if 0 <? total_students
    then PrimFloat.mul (int_truediv present_count total_students) 100%float
    else 0%float in
  mk_dashboard target_date total_students present_count absent_count
               failed_count (py_round2 percentage).

Definition get_detailed_attendance_for_date (users : list UserRow.t)
    (db : Db) (now : datetime) (target_date : date)
  : DetailedAttendanceListOut :=
  let students :=
    DetailedAttendanceRepository.get_all_students_with_attendance_for_date
      users db now target_date in
  let count (status : AttendanceStatus.t) :=
    len (filter (fun s => AttendanceStatus.eqb (dr_status s) status)
                students) in
  mk_detailed_list target_date students
    (count AttendanceStatus.PRESENT) (count AttendanceStatus.ABSENT)
    (count AttendanceStatus.PENDING) (len students).

(** [get_student_attendance_history]: the [records] of the statistics; a
    real record and a synthesized entry are both passed on as they are. *)
Definition get_student_attendance_history (db : Db) (today : date)
    (student_id : Z) (start_date end_date : option date)
  : result (list history_entry) :=
  stats <- DetailedAttendanceRepository.get_student_attendance_stats
             db today student_id start_date end_date ;;
  Ok (map (fun r => r) (st_records stats)).

End AttendanceService.

(* ================================================================== *)
(** * app/routers/attendance.py *)
(* ================================================================== *)

(** [try: ... except ValueError as e:
         raise HTTPException(status_code=..., detail=str(e))] *)
Definition except_ValueError {A : Type} (status_code : Z) (m : result A)
  : result A :=
  match m with
  | Raise (ValueError msg) => Raise (HTTPException status_code msg)
  | _ => m
  end.

Module AttendanceRouter.

(** [POST /attendance/mark] *)
Definition mark_attendance (face_service : FaceRecognitionService)
    (math : Libm) (db : Db) (now : datetime) (file : UploadFile)
    (lat lon acc : float) (current_user : User.t)
  : result (AttendanceMarkResult * Db) :=
  (* Validate file type *)
  if match uf_content_type file with
     | None => true
     | Some ct =>
         (String.length ct =? 0)%nat
         || negb (starts_with (list_ascii_of_string "image/")
                              (list_ascii_of_string ct))
     end
  then Raise (HTTPException 400 "File must be an image")
  else
    location <- LocationData_validate lat lon acc ;;
    (* First do pre-check *)
    pre_check <-
      AttendanceService.check_attendance_prerequisites db now current_user ;;
    if negb (can_mark pre_check) then
      let blockers_text := join ", " (blockers pre_check) in
      Raise (HTTPException 400
               ("Cannot mark attendance: " ++ blockers_text)%string)
    else
      (* Mark attendance *)
      AttendanceService.mark_attendance face_service math db now
        current_user location file.

(** [POST /attendance/profile-photo] *)
Definition upload_profile_photo (face_service : FaceRecognitionService)
    (db : Db) (now : datetime) (file : UploadFile) (current_user : User.t)
  : result (ProfilePhoto.t * Db) :=
  (* Validate file type *)
  if match uf_content_type file with
     | None => true
     | Some ct =>
         (String.length ct =? 0)%nat
         || negb (starts_with (list_ascii_of_string "image/")
                              (list_ascii_of_string ct))
     end
  then Raise (HTTPException 400 "File must be an image")
  else
    except_ValueError 400
      (AttendanceService.upload_profile_photo face_service db now
                                              current_user file).

(** [GET /attendance/profile-photo/status] *)
Definition get_profile_photo_status (db : Db) (current_user : User.t)
  : result (option ProfilePhoto.t) :=
  AttendanceService.get_profile_photo_status db (User.id current_user).

(** [GET /attendance/today] *)
Definition get_today_attendance (db : Db) (now : datetime)
    (current_user : User.t) : result (option AttendanceRecord.t) :=
  AttendanceService.get_today_status db now (User.id current_user).

(** [GET /attendance/attempts] *)
Definition get_attendance_attempts (db : Db) (current_user : User.t)
  : list AttendanceAttempt.t * Z :=
  let attempts :=
    AttendanceService.get_student_attempts db (User.id current_user) in
  (attempts, len attempts).

(** [GET /attendance/history] *)
Definition get_attendance_history (db : Db) (today : date)
    (current_user : User.t) (start_date end_date : option date)
  : result (list history_entry * Z) :=
  records <- AttendanceService.get_student_attendance_history
               db today (User.id current_user) start_date end_date ;;
  Ok (records, len records).

End AttendanceRouter.

(* ================================================================== *)
(** * app/routers/admin_attendance.py *)
(* ================================================================== *)

(** The body of a [HolidayCreate] request. *)
Record HolidayCreate : Type := mk_holiday_create {
  hc_date : date;
  hc_name : string;
  hc_description : option string;
  hc_holiday_type : string;
  hc_is_recurring : bool
}.

(** [holiday_data.model_dump()] *)
Definition HolidayCreate_model_dump (data : HolidayCreate) : holiday_data :=
  mk_holiday_data (hc_date data) (hc_name data) (hc_description data)
                  (Some (hc_holiday_type data)) (Some (hc_is_recurring data)).

Module AdminAttendanceRouter.

(** [POST /admin/attendance/holidays] *)
Definition create_holiday (db : Db) (holiday_data : HolidayCreate)
    (current_user : User.t) : result (Holiday.t * Db) :=
  except_ValueError 400
    (AttendanceService.create_holiday db (User.id current_user)
       (HolidayCreate_model_dump holiday_data)).

(** [GET /admin/attendance/holidays] *)
Definition get_holidays (db : Db) (start_date end_date : option date)
  : list Holiday.t * Z :=
  AttendanceService.get_holidays db start_date end_date.

(** [DELETE /admin/attendance/holidays/{holiday_id}] *)
Definition delete_holiday (db : Db) (holiday_id : Z)
  : result (bool * string * Db) :=
  ' (success, db) <- AttendanceService.delete_holiday db holiday_id ;;
  if negb success then Raise (HTTPException 404 "Holiday not found")
  else Ok (true, "Holiday deleted", db).

(** [POST /admin/attendance/profile-photos/{photo_id}/review] *)
Definition review_profile_photo (db : Db) (now : datetime) (photo_id : Z)
    (approval : ProfilePhotoApproval) (current_user : User.t)
  : result (ProfilePhoto.t * Db) :=
  except_ValueError 404
    (AttendanceService.review_profile_photo db now photo_id current_user
                                            approval).

(** [POST /admin/attendance/geofences] *)
Definition create_geofence (db : Db) (data : GeofenceCreate)
    (current_user : User.t) : result (CampusGeofence.t * Db) :=
  AttendanceService.create_geofence db data current_user.

(** [PUT /admin/attendance/geofences/{geofence_id}] *)
Definition update_geofence (db : Db) (geofence_id : Z) (data : GeofenceUpdate)
  : result (CampusGeofence.t * Db) :=
  except_ValueError 404 (AttendanceService.update_geofence db geofence_id data).

(** [DELETE /admin/attendance/geofences/{geofence_id}] *)
Definition delete_geofence (db : Db) (geofence_id : Z)
  : result (string * Db) :=
  except_ValueError 404
    (db <- AttendanceService.delete_geofence db geofence_id ;;
     Ok ("Geofence deleted successfully", db)).

(** [GET /admin/attendance/profile-photos/pending] *)
Definition get_pending_photos (db : Db) (skip limit : nat)
  : list ProfilePhoto.t * Z :=
  AttendanceService.get_pending_photos db skip limit.

(** [POST /admin/attendance/windows] *)
Definition create_attendance_window (db : Db) (data : AttendanceWindowCreate)
  : result (AttendanceWindow.t * Db) :=
  AttendanceService.create_attendance_window db data.

(** [GET /admin/attendance/windows] *)
Definition get_attendance_windows (db : Db) : list AttendanceWindow.t * Z :=
  let windows := AttendanceService.get_attendance_windows db in
  (windows, len windows).

(** [DELETE /admin/attendance/windows/{window_id}] *)
Definition delete_attendance_window (db : Db) (window_id : Z)
  : result (string * Db) :=
  except_ValueError 404
    (db <- AttendanceService.delete_attendance_window db window_id ;;
     Ok ("Attendance window deleted successfully", db)).

(** [GET /admin/attendance/records] *)
Definition get_attendance_records (db : Db) (now : datetime)
    (target_date : option date) : list AttendanceRecord.t * Z :=
  let target_date := dict_get target_date (dt_date now) in
  let records := AttendanceService.get_all_records_for_date db target_date in
  (records, len records).

(** [GET /admin/attendance/failed-attempts] *)
Definition get_failed_attempts (db : Db)
    (start_date end_date : option datetime)
  : list AttendanceAttempt.t * Z :=
  let attempts := AttendanceService.get_failed_attempts db start_date end_date in
  (attempts, len attempts).

(** [GET /admin/attendance/dashboard] *)
Definition get_dashboard_stats (users : list UserRow.t) (db : Db)
    (now : datetime) (target_date : option date) : AttendanceDashboardStats :=
  let target_date := dict_get target_date (dt_date now) in
  AttendanceService.get_dashboard_stats users db target_date.

(** [GET /admin/attendance/detailed] *)
Definition get_detailed_attendance (users : list UserRow.t) (db : Db)
    (now : datetime) (target_date : option date) : DetailedAttendanceListOut :=
  let target_date := dict_get target_date (dt_date now) in
  AttendanceService.get_detailed_attendance_for_date users db now target_date.

End AdminAttendanceRouter.

(* ================================================================== *)
(** * Statements of the specification *)
(* ================================================================== *)

(** The time-window check of the pre-check: the active windows selected for
    the student's category, scanned for the current time and weekday. *)
Definition time_window_check (db : Db) (category : option StudentCategory.t)
    (now_time : time) (now_weekday : Z) : bool :=
  AttendanceService._is_within_time_window
    (AttendanceWindowRepository.get_active_windows db category)
    now_time now_weekday.

(** A window is open in the words of the specification: active, on the
    weekday, its category unset or equal to the student's, and
    [start_time <= now <= end_time]. *)
Definition window_open_spec (category : option StudentCategory.t)
    (now_time : time) (now_weekday : Z) (w : AttendanceWindow.t) : Prop :=
  AttendanceWindow.is_active w = true
  /\ In now_weekday (AttendanceWindow.days_of_week w)
  /\ (AttendanceWindow.student_category w = None
      \/ AttendanceWindow.student_category w
         = option_map StudentCategory.value category)
  /\ time_le (AttendanceWindow.start_time w) now_time = true
  /\ time_le now_time (AttendanceWindow.end_time w) = true.

(** The same, with the case the code adds: a student without a category is
    offered every active window. *)
Definition window_open (category : option StudentCategory.t)
    (now_time : time) (now_weekday : Z) (w : AttendanceWindow.t) : Prop :=
  AttendanceWindow.is_active w = true
  /\ In now_weekday (AttendanceWindow.days_of_week w)
  /\ (category = None
      \/ AttendanceWindow.student_category w = None
      \/ AttendanceWindow.student_category w
         = option_map StudentCategory.value category)
  /\ time_le (AttendanceWindow.start_time w) now_time = true
  /\ time_le now_time (AttendanceWindow.end_time w) = true.

(** The window of the specification's example: 09:00 to 09:30, Monday to
    Saturday, for every category. *)
Definition morning_window (id : Z) (name : string) : AttendanceWindow.t :=
  AttendanceWindow.mk id name (mk_time 9 0 0 0) (mk_time 9 30 0 0)
    [0; 1; 2; 3; 4; 5] None true.

(** The constraints of the holidays table: primary key and [date] unique. *)
Definition holidays_wf (db : Db) : Prop :=
  NoDup (map Holiday.id (holidays db))
  /\ NoDup (map Holiday.date_ (holidays db)).

(** A working day: neither a Sunday nor a date of the holiday set. *)
Definition is_working_day (holiday_dates : list date) (d : date) : bool :=
  negb (weekday d =? 6) && negb (date_in d holiday_dates).

(** A geofence that is both active and primary. *)
Definition primary_active (g : CampusGeofence.t) : bool :=
  Bool.eqb (CampusGeofence.is_active g) true
  && Bool.eqb (CampusGeofence.is_primary g) true.

(** At most one geofence has primary=true and active=true. *)
Definition single_primary_active (db : Db) : Prop :=
  (List.length (filter primary_active (campus_geofences db)) <= 1)%nat.

(** A [GeofenceUpdate] that sets [is_primary] only. *)
Definition set_primary_only (v : bool) : GeofenceUpdate :=
  mk_geofence_update None None None None None None None (Some (Some v)).

(** A request that sets a column that is not nullable to null. *)
Definition nulls_a_required_field (data : GeofenceUpdate) : Prop :=
  gu_name data = Some None \/ gu_latitude data = Some None
  \/ gu_longitude data = Some None \/ gu_radius_meters data = Some None
  \/ gu_accuracy_threshold data = Some None
  \/ gu_is_active data = Some None \/ gu_is_primary data = Some None.

(** What a field of the request does to a column that is not nullable:
    unset, the column keeps its value; set to [v], it holds [v]. *)
Definition field_written {A : Type} (field : option (option A))
    (old new : A) : Prop :=
  match field with
  | None => new = old
  | Some (Some v) => new = v
  | Some None => False
  end.

(** The APPROVED photos of a student. *)
Definition approved_photo_of (student_id : Z) (p : ProfilePhoto.t) : bool :=
  (ProfilePhoto.student_id p =? student_id)
  && ProfilePhotoStatus.eqb (ProfilePhoto.status p) ProfilePhotoStatus.APPROVED.

(** At most one ProfilePhoto per student has status APPROVED. *)
Definition single_approved (db : Db) : Prop :=
  forall student_id,
    (List.length (filter (approved_photo_of student_id) (profile_photos db))
     <= 1)%nat.

(** The primary key of the photo table. *)
Definition photos_pk (db : Db) : Prop :=
  NoDup (map ProfilePhoto.id (profile_photos db)).

(** The row of a demoted photo. *)
Definition demoted (q : ProfilePhoto.t) : ProfilePhoto.t :=
  ProfilePhoto.set_rejection_reason (Some "Replaced by new approved photo")
    (ProfilePhoto.set_status ProfilePhotoStatus.REJECTED q).



(** Where the pipeline stores the captured image. *)
Definition capture_path (now : datetime) (student : User.t)
    (image_file : UploadFile) : string :=
  os_path_join
    (AttendanceService._get_upload_dir AttendanceService.ATTENDANCE_CAPTURES_DIR)
    (str_of_Z (User.id student) ++ "_" ++ strftime_compact now ++ "_"
     ++ uf_filename image_file)%string.


(** The haversine great-circle formula of the specification, with the
    Earth radius of 6,371,000 m: [a] is the haversine of the central angle
    and the distance is [R * 2 * atan2(sqrt a, sqrt (1 - a))], the square
    roots being those of IEEE arithmetic. *)
Definition haversine_formula (math : Libm) (lat1 lon1 lat2 lon2 : float)
  : float :=
  let sin2_half (x : float) := math_pow math (math_sin math (x / 2)) 2 in
  let a :=
    (sin2_half (math_radians (lat2 - lat1))
     + math_cos math (math_radians lat1) * math_cos math (math_radians lat2)
       * sin2_half (math_radians (lon2 - lon1)))%float in
  (6371000 * (2 * math_atan2 math (PrimFloat.sqrt a)
                                  (PrimFloat.sqrt (1 - a))))%float.

(** [contains(location, geofence) -> (within, distance_m)] of the
    specification: the distance from the centre and whether it is within
    the radius. *)
Definition contains (math : Libm) (location : LocationData)
    (g : CampusGeofence.t) : bool * float :=
  let distance_m :=
    haversine_formula math (latitude location) (longitude location)
                      (CampusGeofence.latitude g)
                      (CampusGeofence.longitude g) in
  (float_le distance_m (CampusGeofence.radius_meters g), distance_m).


(** The attendance record of a student for a date. *)
Definition record_of (student_id : Z) (d : date) (r : AttendanceRecord.t)
  : bool :=
  (AttendanceRecord.student_id r =? student_id)
  && (AttendanceRecord.attendance_date r =? d).




(** The six failure reasons of the gates. *)
Definition gate_failure_reasons : list FailureReason.t :=
  [FailureReason.OUTSIDE_CAMPUS; FailureReason.LOW_GPS_ACCURACY;
   FailureReason.NO_FACE_DETECTED; FailureReason.MULTIPLE_FACES;
   FailureReason.PROFILE_NOT_APPROVED; FailureReason.FACE_MISMATCH].

(** A time of day as [datetime.time] keeps it. *)
Definition time_valid (t : time) : Prop :=
  0 <= hour t < 24 /\ 0 <= minute t < 60 /\ 0 <= second t < 60
  /\ 0 <= microsecond t < 1000000.

(** A face service and a [math] module to run the pipeline on: one face in
    every image, every pair of faces matching with score 0.9; the constant
    functions make every haversine distance 0. *)
Definition one_face_service : FaceRecognitionService :=
  mk_face_service (fun _ _ => 1%nat) (fun _ _ => Some [])
                  (fun _ _ _ => (true, 0x1.ccccccccccccdp-1%float, "Face verified successfully")).

Definition flat_math : Libm :=
  mk_libm (fun _ => 0%float) (fun _ => 1%float) (fun _ _ => 0%float)
          (fun x _ => PrimFloat.mul x x).

(** The values that the C library gives [sin] and [cos] at the arguments
    that the distance from (8, 0) to (-8, 180) needs:
    [sin(-0.13962634015954636) = -0.13917310096006544], [sin(pi/2) = 1] and
    [cos(0.13962634015954636) = cos(-0.13962634015954636)
    = 0.9902680687415704]; the square of a float is its product with
    itself.  No other value is used there. *)
Definition antipode_math : Libm :=
  mk_libm
    (fun x =>
       if PrimFloat.eqb x (-0x1.1df46a2529d39p-3)%float
       then (-0x1.1d06c968d9e19p-3)%float
       else if PrimFloat.eqb x 0x1.921fb54442d18p+0%float then 1%float
       else 0%float)
    (fun x =>
       if PrimFloat.eqb (PrimFloat.abs x) 0x1.1df46a2529d39p-3%float
       then 0x1.fb046a930947ap-1%float
       else 1%float)
    (fun _ _ => 0%float)
    (fun x _ => PrimFloat.mul x x).

(** A campus on the other side of the Earth from (8, 0). *)
Definition antipode_geofence : CampusGeofence.t :=
  CampusGeofence.mk 1 "Main campus" None (-8) 180 500 50 true true None.

(** A campus with one primary geofence, one window and one student (id 7)
    whose photo is approved, on Wednesday 2025-01-01 at 09:15. *)
Definition campus_geofence : CampusGeofence.t :=
  CampusGeofence.mk 1 "Main campus" None 13 80 500 50 true true None.

Definition student7 : User.t := User.mk 7 None.

Definition student7_photo : ProfilePhoto.t :=
  ProfilePhoto.mk 1 7 "uploads/profile_photos/7_ref.jpg" "7_ref.jpg" None
    ProfilePhotoStatus.APPROVED None (Some 1)
    (Some (mk_datetime 739000 (mk_time 8 0 0 0)))
    (mk_datetime 739000 (mk_time 8 0 0 0)).

Definition campus_db : Db :=
  mk_db [student7_photo] [campus_geofence] [morning_window 1 "Morning"]
        [] [] [] [] [].

Definition antipode_db : Db :=
  mk_db [student7_photo] [antipode_geofence] [morning_window 1 "Morning"]
        [] [] [] [] [].

Definition wednesday_0915 : datetime := mk_datetime 739252 (mk_time 9 15 0 0).

Definition selfie : UploadFile := mk_upload "selfie.jpg" (Some "image/jpeg") "JFIF".

Definition on_campus : LocationData := mk_location 13 80 5.



(** The dates [start, start+1, ...], [n] of them, and the dates
    [last, last-1, ...], [n] of them. *)
Fixpoint dates_from (start : date) (n : nat) : list date :=
  match n with
  | O => []
  | S n => start :: dates_from (start + 1) n
  end.

Fixpoint dates_down (last : date) (n : nat) : list date :=
  match n with
  | O => []
  | S n => last :: dates_down (last - 1) n
  end.

(** The dates of [[start, end]]. *)
Definition date_range (start_date end_date : date) : list date :=
  dates_from start_date (Z.to_nat (end_date - start_date + 1)).

(** A date of the active-holiday set. *)
Definition is_active_holiday (db : Db) (d : date) : bool :=
  existsb (fun h => (Holiday.date_ h =? d) && Holiday.is_active h)
          (holidays db).

(** A working day of the calendar: not a Sunday, not an active holiday. *)
Definition working_day (db : Db) (d : date) : bool :=
  negb (weekday d =? 6) && negb (is_active_holiday db d).

(** The records of a student in a range, as the statistics query selects
    them, and those among them that are PRESENT. *)
Definition student_record_in (student_id : Z) (start_date end_date : date)
    (r : AttendanceRecord.t) : bool :=
  (AttendanceRecord.student_id r =? student_id)
  && (start_date <=? AttendanceRecord.attendance_date r)
  && (AttendanceRecord.attendance_date r <=? end_date).

Definition is_present (r : AttendanceRecord.t) : bool :=
  AttendanceStatus.eqb (AttendanceRecord.status r) AttendanceStatus.PRESENT.

Definition present_days (db : Db) (student_id : Z)
    (start_date end_date : date) : Z :=
  len (filter is_present
         (filter (student_record_in student_id start_date end_date)
                 (attendance_records db))).

(** The date of an entry of the history. *)
Definition entry_date (e : history_entry) : date :=
  match e with
  | RealRecord r => AttendanceRecord.attendance_date r
  | VirtualRecord v => vr_attendance_date v
  end.

Definition is_virtual (e : history_entry) : bool :=
  match e with
  | RealRecord _ => false
  | VirtualRecord _ => true
  end.

(** What one date contributes to the history. *)
Definition history_entries (today : date) (student_id : Z)
    (holiday_dates : list date)
    (records_by_date : list (date * AttendanceRecord.t)) (d : date)
  : list history_entry :=
  if is_working_day holiday_dates d then
    match dict_find d records_by_date with
    | Some r => [RealRecord r]
    | None =>
        if d <=? today then
          [VirtualRecord
             (mk_virtual student_id d AttendanceStatus.ABSENT None None)]
        else []
    end
  else [].

(** The dict [{r.attendance_date: r for r in records}], from [acc]. *)
Definition records_by_date_from (acc : list (date * AttendanceRecord.t))
    (records : list AttendanceRecord.t) : list (date * AttendanceRecord.t) :=
  fold_left (fun d r => dict_set (AttendanceRecord.attendance_date r) r d)
            records acc.


Definition new_year_2025 : Holiday.t :=
  Holiday.mk 1 739252 "New Year" None "GENERAL" true true (Some 1).


(** A line that the bulk import skips: blank, or the header. *)
Definition is_skipped_line (line : string) : bool :=
  let line := strip line in
  (String.length line =? 0)%nat
  || (str_in "date" (lower line) && str_in "holiday" (lower line)).


(** The text of the specification's example:
    "Jan 1\tWednesday\tNew Year\nFeb 30\tFriday\tBad". *)
Definition example_text : string :=
  ("Jan 1" ++ String TAB "Wednesday" ++ String TAB "New Year"
   ++ String LF "Feb 30" ++ String TAB "Friday" ++ String TAB "Bad")%string.

(** ** Further statements about the service *)

(** The lookups of the pre-check select at most one row each: the date of a
    holiday is unique, a student has at most one APPROVED photo and one
    record a day, and at most one geofence is primary and active. *)
Definition lookups_unique (db : Db) (now : datetime) (student : User.t)
  : Prop :=
  NoDup (map Holiday.date_ (holidays db))
  /\ (List.length (filter (approved_photo_of (User.id student))
                          (profile_photos db)) <= 1)%nat
  /\ (List.length (filter (record_of (User.id student) (dt_date now))
                          (attendance_records db)) <= 1)%nat
  /\ single_primary_active db.

(** The student is PRESENT on [d]. *)
Definition present_on_date (db : Db) (student_id : Z) (d : date) : Prop :=
  exists r, In r (attendance_records db)
            /\ record_of student_id d r = true
            /\ AttendanceRecord.status r = AttendanceStatus.PRESENT.

(** The holidays a range query selects. *)
Definition holiday_in_range (s e : date) (h : Holiday.t) : bool :=
  (s <=? Holiday.date_ h) && (Holiday.date_ h <=? e)
  && Bool.eqb (Holiday.is_active h) true.



(** A photo row with status PENDING. *)
Definition is_pending (p : ProfilePhoto.t) : bool :=
  ProfilePhotoStatus.eqb (ProfilePhoto.status p) ProfilePhotoStatus.PENDING.

(** A window that is offered to a student of the category (a student
    without a category is offered every active window), and a window that
    covers a time of a weekday. *)
Definition window_offered (category : option StudentCategory.t)
    (w : AttendanceWindow.t) : bool :=
  AttendanceWindow.is_active w
  && match category with
     | None => true
     | Some c =>
         match AttendanceWindow.student_category w with
         | None => true
         | Some s => String.eqb s (StudentCategory.value c)
         end
     end.

Definition window_covers (w : AttendanceWindow.t) (t : time) (d : Z) : bool :=
  existsb (Z.eqb d) (AttendanceWindow.days_of_week w)
  && time_le (AttendanceWindow.start_time w) t
  && time_le t (AttendanceWindow.end_time w).

(** The users that the attendance reports count as students, and those
    among them that are active. *)
Definition is_student_role (r : UserRole.t) : bool :=
  match r with
  | UserRole.STUDENT | UserRole.HOSTELLER | UserRole.DAY_SCHOLAR => true
  | _ => false
  end.

Definition active_student (u : UserRow.t) : bool :=
  is_student_role (UserRow.role u) && UserRow.is_active u.

(** The status that the detailed list shows for a student without a record
    on [d]. *)
Definition unmarked_status (db : Db) (now : datetime) (d : date)
  : AttendanceStatus.t :=
  if (d =? dt_date now)
     && DetailedAttendanceRepository.any_window_still_open
          (filter (fun w => AttendanceWindow.is_active w)
                  (attendance_windows db))
          (dt_time now) (weekday (dt_date now))
  then AttendanceStatus.PENDING else AttendanceStatus.ABSENT.

(** The last steps of [_ord2ymd]: month and day from the day [n] of the
    year, counted from 0. *)
Definition month_and_day (year : Z) (leapyear : bool) (n : Z) : Z * Z * Z :=
  let month := Z.shiftr (n + 50) 5 in
  let preceding :=
    _DAYS_BEFORE_MONTH month + (if (2 <? month) && leapyear then 1 else 0) in
  if n <? preceding then
    let month := month - 1 in
    let preceding :=
      preceding -
      (_DAYS_IN_MONTH month + (if (month =? 2) && leapyear then 1 else 0)) in
    (year, month, n - preceding + 1)
  else (year, month, n - preceding + 1).

(** [p] holds of [d], [d + 1], ..., [d + n - 1]. *)
Fixpoint all_from (p : Z -> bool) (n : nat) (d : Z) : bool :=
  match n with
  | O => true
  | S n => p d && all_from p n (d + 1)
  end.

(** The year in which the academic year of [today] starts by default. *)
Definition default_start_year (today : date) : Z :=
  if 7 <=? date_month today then date_year today else date_year today - 1.


(** A text whose second line has a day number beyond a C int. *)
Definition overflow_text : string :=
  ("Jan 1" ++ String TAB "Wednesday" ++ String TAB "New Year"
   ++ String LF "Jan 99999999999" ++ String TAB "Friday" ++ String TAB "Bad")%string.



(* ================================================================== *)
(** * Properties *)
(* ================================================================== *)

(** ** Rows, keys and queries *)

Lemma NoDup_map_eq {A : Type} (key : A -> Z) (l : list A) (x y : A) :
  NoDup (map key l) -> In x l -> In y l -> key x = key y -> x = y.
Proof.
  induction l as [|a l IH]; simpl; intros Hnd Hx Hy Hk; [contradiction|].
  inversion Hnd as [|? ? Hnotin Hnd']; subst.
  destruct Hx as [<-|Hx], Hy as [<-|Hy]; auto.
  - exfalso. apply Hnotin. rewrite Hk. now apply in_map.
  - exfalso. apply Hnotin. rewrite <- Hk. now apply in_map.
Qed.

Lemma filter_nil_iff {A : Type} (p : A -> bool) (l : list A) :
  filter p l = [] <-> (forall x, In x l -> p x = false).
Proof.
  induction l as [|a l IH]; simpl.
  - split; [intros _ x []|reflexivity].
  - destruct (p a) eqn:Ha; split.
    + discriminate.
    + intros H. specialize (H a (or_introl eq_refl)). congruence.
    + intros H x [<-|Hx]; [exact Ha|]. now apply IH.
    + intros H. apply IH. intros x Hx. apply H. now right.
Qed.

Lemma filter_key_unique {A : Type} (key : A -> Z) (l : list A) (h : A) :
  NoDup (map key l) -> In h l ->
  filter (fun x => key x =? key h) l = [h].
Proof.
  induction l as [|a l IH]; simpl; intros Hnd Hin; [contradiction|].
  inversion Hnd as [|? ? Hnotin Hnd']; subst.
  destruct Hin as [->|Hin].
  - rewrite Z.eqb_refl. f_equal. apply filter_nil_iff.
    intros x Hx. apply Z.eqb_neq. intros E. apply Hnotin.
    rewrite <- E. now apply in_map.
  - destruct (key a =? key h) eqn:E.
    + apply Z.eqb_eq in E. exfalso. apply Hnotin. rewrite E. now apply in_map.
    + now apply IH.
Qed.

Lemma filter_key_absent {A : Type} (key : A -> Z) (l : list A) (k : Z) :
  ~ In k (map key l) -> filter (fun x => key x =? k) l = [].
Proof.
  intros H. apply filter_nil_iff. intros x Hx. apply Z.eqb_neq.
  intros E. apply H. rewrite <- E. now apply in_map.
Qed.

Lemma in_replace_row {A : Type} (id : A -> Z) (r : A) (l : list A) (x : A) :
  In x (replace_row id r l) <->
  (x = r /\ In (id r) (map id l)) \/ (In x l /\ id x <> id r).
Proof.
  unfold replace_row. rewrite in_map_iff. split.
  - intros [y [Hy Hin]]. destruct (id y =? id r) eqn:E.
    + left. split; [congruence|]. apply Z.eqb_eq in E. rewrite <- E.
      now apply in_map.
    + right. subst y. split; [assumption|]. now apply Z.eqb_neq.
  - intros [[-> Hin]|[Hin Hne]].
    + apply in_map_iff in Hin. destruct Hin as [y [Hy Hin]].
      exists y. split; [|assumption].
      apply Z.eqb_eq in Hy. now rewrite Hy.
    + exists x. split; [|assumption].
      apply Z.eqb_neq in Hne. now rewrite Hne.
Qed.

Lemma length_replace_row {A : Type} (id : A -> Z) (r : A) (l : list A) :
  List.length (replace_row id r l) = List.length l.
Proof. unfold replace_row. apply length_map. Qed.

Lemma map_id_replace_row {A : Type} (id : A -> Z) (r : A) (l : list A) :
  map id (replace_row id r l) = map id l.
Proof.
  unfold replace_row. rewrite map_map. apply map_ext_in.
  intros a _. destruct (id a =? id r) eqn:E; [|reflexivity].
  apply Z.eqb_eq in E. congruence.
Qed.

Lemma in_insert_by {A : Type} (le : A -> A -> bool) (x y : A) (l : list A) :
  In y (insert_by le x l) <-> y = x \/ In y l.
Proof.
  induction l as [|a l IH]; simpl.
  - intuition.
  - destruct (le x a); simpl; rewrite ?IH; intuition.
Qed.

Lemma in_order_by {A : Type} (le : A -> A -> bool) (y : A) (l : list A) :
  In y (order_by le l) <-> In y l.
Proof.
  induction l as [|a l IH]; simpl; [reflexivity|].
  rewrite in_insert_by, IH. intuition.
Qed.

Lemma length_insert_by {A : Type} (le : A -> A -> bool) (x : A) (l : list A) :
  List.length (insert_by le x l) = S (List.length l).
Proof.
  induction l as [|a l IH]; simpl; [reflexivity|].
  destruct (le x a); simpl; congruence.
Qed.

Lemma length_order_by {A : Type} (le : A -> A -> bool) (l : list A) :
  List.length (order_by le l) = List.length l.
Proof.
  induction l as [|a l IH]; simpl; [reflexivity|].
  rewrite length_insert_by. congruence.
Qed.

Lemma filter_insert_by {A : Type} (le : A -> A -> bool) (p : A -> bool)
    (x : A) (l : list A) :
  List.length (filter p (insert_by le x l))
  = List.length (filter p (x :: l)).
Proof.
  induction l as [|a l IH]; [reflexivity|].
  simpl insert_by. destruct (le x a); [reflexivity|].
  simpl in *. destruct (p a), (p x); simpl in *; lia.
Qed.

Lemma length_filter_order_by {A : Type} (le : A -> A -> bool) (p : A -> bool)
    (l : list A) :
  List.length (filter p (order_by le l)) = List.length (filter p l).
Proof.
  induction l as [|a l IH]; [reflexivity|].
  simpl order_by. rewrite filter_insert_by. simpl.
  destruct (p a); simpl; congruence.
Qed.

Lemma in_firstn {A : Type} (n : nat) (l : list A) (x : A) :
  In x (firstn n l) -> In x l.
Proof.
  revert l. induction n as [|n IH]; intros [|a l]; simpl; try tauto.
  intros [->|H]; [now left|right; now apply IH].
Qed.

Lemma in_skipn {A : Type} (n : nat) (l : list A) (x : A) :
  In x (skipn n l) -> In x l.
Proof.
  revert l. induction n as [|n IH]; intros [|a l]; simpl; try tauto.
  intros H. right. now apply IH.
Qed.

Lemma in_offset_limit {A : Type} (skip limit : nat) (l : list A) (x : A) :
  In x (offset_limit skip limit l) -> In x l.
Proof.
  unfold offset_limit. intros H.
  eapply in_skipn. eapply in_firstn. exact H.
Qed.

Lemma scalar_one_or_none_nil {A : Type} :
  scalar_one_or_none (@nil A) = Ok None.
Proof. reflexivity. Qed.

Lemma date_in_iff (x : date) (s : list date) :
  date_in x s = true <-> In x s.
Proof.
  unfold date_in. rewrite existsb_exists. split.
  - intros [y [Hy E]]. apply Z.eqb_eq in E. now subst.
  - intros H. exists x. split; [assumption|apply Z.eqb_refl].
Qed.

(** ** Window scheduler *)

Lemma is_within_time_window_iff (windows : list AttendanceWindow.t)
    (t : time) (d : Z) :
  AttendanceService._is_within_time_window windows t d = true <->
  exists w, In w windows
            /\ In d (AttendanceWindow.days_of_week w)
            /\ time_le (AttendanceWindow.start_time w) t = true
            /\ time_le t (AttendanceWindow.end_time w) = true.
Proof.
  induction windows as [|w ws IH]; simpl.
  - split; [discriminate|intros [w [[] _]]].
  - destruct (existsb (Z.eqb d) (AttendanceWindow.days_of_week w)) eqn:Hd;
      simpl.
    + assert (Hin : In d (AttendanceWindow.days_of_week w)).
      { apply existsb_exists in Hd. destruct Hd as [y [Hy E]].
        apply Z.eqb_eq in E. now subst. }
      destruct (time_le (AttendanceWindow.start_time w) t
                && time_le t (AttendanceWindow.end_time w)) eqn:Ht.
      * apply andb_true_iff in Ht. split; [intros _|reflexivity].
        exists w. intuition.
      * rewrite IH. split.
        -- intros [w' [Hw' H]]. exists w'. intuition.
        -- intros [w' [[<-|Hw'] [H1 [H2 H3]]]].
           ++ rewrite H2, H3 in Ht. discriminate.
           ++ exists w'. intuition.
    + rewrite IH. split.
      * intros [w' [Hw' H]]. exists w'. intuition.
      * intros [w' [[<-|Hw'] [H1 H2]]].
        -- assert (existsb (Z.eqb d) (AttendanceWindow.days_of_week w) = true).
           { apply existsb_exists. exists d. split; [assumption|apply Z.eqb_refl]. }
           congruence.
        -- exists w'. intuition.
Qed.

Lemma in_get_active_windows (db : Db) (category : option StudentCategory.t)
    (w : AttendanceWindow.t) :
  In w (AttendanceWindowRepository.get_active_windows db category) <->
  In w (attendance_windows db)
  /\ AttendanceWindow.is_active w = true
  /\ (category = None
      \/ AttendanceWindow.student_category w = None
      \/ AttendanceWindow.student_category w
         = option_map StudentCategory.value category).
Proof.
  unfold AttendanceWindowRepository.get_active_windows.
  destruct category as [c|]; rewrite !filter_In; simpl.
  - destruct (AttendanceWindow.is_active w); simpl;
      destruct (AttendanceWindow.student_category w) as [s|] eqn:Hc.
    + split.
      * intros [[H _] E]. apply String.eqb_eq in E. subst. intuition.
      * intros [H [_ [E|[E|E]]]]; try discriminate.
        injection E as ->. rewrite String.eqb_refl. intuition.
    + intuition.
    + intuition discriminate.
    + intuition discriminate.
  - destruct (AttendanceWindow.is_active w); simpl; intuition discriminate.
Qed.

(** C8, as stated, fails for a student without a category: the HOSTELLER
    window is open for that student on Wednesday 09:15, although the window's
    category is neither unset nor the student's. *)
Lemma time_window_check_no_category_counterexample :
  let w := AttendanceWindow.mk 1 "hostel roll call" (mk_time 9 0 0 0)
             (mk_time 9 30 0 0) [0; 1; 2; 3; 4; 5] (Some "HOSTELLER") true in
  let db := mk_db [] [] [w] [] [] [] [] [] in
  time_window_check db None (mk_time 9 15 0 0) 2 = true
  /\ ~ (exists w', In w' (attendance_windows db)
                   /\ window_open_spec None (mk_time 9 15 0 0) 2 w').
Proof.
  simpl. split; [reflexivity|].
  intros [w' [[<-|[]] [_ [_ [[H|H] _]]]]]; simpl in H; discriminate.
Qed.

(** C8 (amended): the time-window check is true exactly when some active
    window has the weekday among its days, is offered to the student (the
    student has no category, or the window's category is unset or equal to
    the student's) and has [start_time <= now <= end_time], both ends
    included; the 09:00-09:30 Monday-to-Saturday window is open on Wednesday
    at 09:15 and at both ends, closed on Wednesday at 09:31 and closed on
    Sunday at any time. *)
Theorem time_window_check_iff :
  (forall db category now_time now_weekday,
      time_window_check db category now_time now_weekday = true <->
      exists w, In w (attendance_windows db)
                /\ window_open category now_time now_weekday w)
  /\ (forall id name category ps gs rs ats hs ss fs,
         let db := mk_db ps gs [morning_window id name] rs ats hs ss fs in
         time_window_check db category (mk_time 9 15 0 0) 2 = true
         /\ time_window_check db category (mk_time 9 0 0 0) 2 = true
         /\ time_window_check db category (mk_time 9 30 0 0) 2 = true
         /\ time_window_check db category (mk_time 9 31 0 0) 2 = false
         /\ forall t, time_window_check db category t 6 = false).
Proof.
  split.
  - intros db category t d. unfold time_window_check, window_open.
    rewrite is_within_time_window_iff. split.
    + intros [w [Hw [Hd [Hs He]]]]. apply in_get_active_windows in Hw.
      exists w. intuition.
    + intros [w [Hw [Ha [Hd [Hc [Hs He]]]]]]. exists w.
      rewrite in_get_active_windows. intuition.
  - intros id name category ps gs rs ats hs ss fs db.
    unfold time_window_check, db.
    destruct category as [[|]|]; repeat split; try reflexivity.
Qed.

(** ** Holiday calendar: soft delete *)

Lemma in_get_holidays_in_range (db : Db) (s e : date) (x : Holiday.t) :
  In x (HolidayRepository.get_holidays_in_range db s e) <->
  In x (holidays db)
  /\ s <= Holiday.date_ x <= e
  /\ Holiday.is_active x = true.
Proof.
  unfold HolidayRepository.get_holidays_in_range.
  rewrite in_order_by, filter_In.
  rewrite !andb_true_iff, !Z.leb_le.
  destruct (Holiday.is_active x); simpl; intuition discriminate.
Qed.

Lemma in_get_holiday_dates_in_range (db : Db) (s e d : date) :
  In d (HolidayRepository.get_holiday_dates_in_range db s e) <->
  exists x, In x (holidays db) /\ Holiday.date_ x = d
            /\ s <= d <= e /\ Holiday.is_active x = true.
Proof.
  unfold HolidayRepository.get_holiday_dates_in_range.
  rewrite nodup_In, in_map_iff. split.
  - intros [x [E Hx]]. apply in_get_holidays_in_range in Hx.
    exists x. subst d. intuition.
  - intros [x [Hx [E [Hr Ha]]]]. exists x. split; [assumption|].
    apply in_get_holidays_in_range. subst d. intuition.
Qed.

Lemma in_get_all_active (db : Db) (skip limit : nat) (x : Holiday.t) :
  In x (HolidayRepository.get_all_active db skip limit) ->
  In x (holidays db) /\ Holiday.is_active x = true.
Proof.
  unfold HolidayRepository.get_all_active. intros H.
  apply in_offset_limit in H. apply in_order_by in H.
  apply filter_In in H. destruct H as [H Ha].
  destruct (Holiday.is_active x); [auto|discriminate].
Qed.

(** After the soft delete, every row on the date of the deleted holiday is
    inactive. *)
Lemma soft_deleted_rows (hs : list Holiday.t) (h x : Holiday.t) :
  NoDup (map Holiday.date_ hs) -> In h hs ->
  In x (replace_row Holiday.id (Holiday.set_is_active false h) hs) ->
  Holiday.date_ x = Holiday.date_ h -> Holiday.is_active x = false.
Proof.
  intros Hd Hh Hx E. apply in_replace_row in Hx.
  destruct Hx as [[-> _]|[Hx Hne]]; [reflexivity|].
  exfalso. apply Hne. simpl.
  f_equal. eapply NoDup_map_eq; eauto.
Qed.

(** C10: deleting an existing holiday returns true, keeps the row and only
    clears [is_active]; [get_by_date], [get_holidays_in_range] and
    [get_all_active] return active holidays only, so none of them reports the
    deleted holiday's date any more, and a date that is not a Sunday is a
    working day again. *)
Theorem delete_holiday_is_soft_delete (db : Db) (h : Holiday.t) :
  holidays_wf db -> In h (holidays db) ->
  exists db',
    AttendanceService.delete_holiday db (Holiday.id h) = Ok (true, db')
    /\ In (Holiday.set_is_active false h) (holidays db')
    /\ map Holiday.id (holidays db') = map Holiday.id (holidays db)
    /\ HolidayRepository.get_by_date db' (Holiday.date_ h) = Ok None
    /\ (forall s e x,
           In x (HolidayRepository.get_holidays_in_range db' s e) ->
           Holiday.is_active x = true
           /\ Holiday.date_ x <> Holiday.date_ h)
    /\ (forall skip limit x,
           In x (HolidayRepository.get_all_active db' skip limit) ->
           Holiday.is_active x = true
           /\ Holiday.date_ x <> Holiday.date_ h)
    /\ (forall s e,
           weekday (Holiday.date_ h) <> 6 ->
           is_working_day
             (HolidayRepository.get_holiday_dates_in_range db' s e)
             (Holiday.date_ h) = true).
Proof.
  intros [Hid Hdate] Hin.
  unfold AttendanceService.delete_holiday, HolidayRepository.delete.
  rewrite (filter_key_unique Holiday.id _ h Hid Hin). simpl.
  eexists. split; [reflexivity|].
  set (hs' := replace_row Holiday.id (Holiday.set_is_active false h)
                          (holidays db)).
  assert (Hoff : forall x, In x hs' ->
                           Holiday.date_ x = Holiday.date_ h ->
                           Holiday.is_active x = false).
  { intros x Hx. now apply (soft_deleted_rows (holidays db) h x). }
  repeat split.
  - simpl. apply in_replace_row. left. split; [reflexivity|].
    simpl. now apply in_map.
  - simpl. apply map_id_replace_row.
  - unfold HolidayRepository.get_by_date. simpl. fold hs'.
    replace (filter _ hs') with (@nil Holiday.t); [reflexivity|].
    symmetry. apply filter_nil_iff. intros x Hx.
    destruct (Holiday.date_ x =? Holiday.date_ h) eqn:E; [|reflexivity].
    apply Z.eqb_eq in E. rewrite (Hoff x Hx E). reflexivity.
  - apply in_get_holidays_in_range in H. tauto.
  - apply in_get_holidays_in_range in H. destruct H as [Hx [_ Ha]].
    intros E. simpl in Hx. rewrite (Hoff x Hx E) in Ha. discriminate.
  - apply in_get_all_active in H. tauto.
  - apply in_get_all_active in H. destruct H as [Hx Ha].
    intros E. simpl in Hx. rewrite (Hoff x Hx E) in Ha. discriminate.
  - intros s e Hwd. unfold is_working_day.
    apply Z.eqb_neq in Hwd. rewrite Hwd. simpl.
    destruct (date_in _ _) eqn:E; [|reflexivity].
    apply date_in_iff in E. apply in_get_holiday_dates_in_range in E.
    destruct E as [x [Hx [E [_ Ha]]]]. simpl in Hx.
    rewrite (Hoff x Hx E) in Ha. discriminate.
Qed.

Lemma delete_holiday_is_soft_delete_witness :
  let h := Holiday.mk 1 739252 "New Year" None "GENERAL" true true (Some 1) in
  let db := mk_db [] [] [] [] [] [h] [] [] in
  exists db',
    AttendanceService.delete_holiday db (Holiday.id h) = Ok (true, db')
    /\ In (Holiday.set_is_active false h) (holidays db')
    /\ map Holiday.id (holidays db') = map Holiday.id (holidays db)
    /\ HolidayRepository.get_by_date db' (Holiday.date_ h) = Ok None
    /\ (forall s e x,
           In x (HolidayRepository.get_holidays_in_range db' s e) ->
           Holiday.is_active x = true
           /\ Holiday.date_ x <> Holiday.date_ h)
    /\ (forall skip limit x,
           In x (HolidayRepository.get_all_active db' skip limit) ->
           Holiday.is_active x = true
           /\ Holiday.date_ x <> Holiday.date_ h)
    /\ (forall s e,
           weekday (Holiday.date_ h) <> 6 ->
           is_working_day
             (HolidayRepository.get_holiday_dates_in_range db' s e)
             (Holiday.date_ h) = true).
Proof.
  intros h db. apply (delete_holiday_is_soft_delete db h).
  - split; simpl; repeat constructor; simpl; tauto.
  - simpl. now left.
Defined.

(** ** Rows replaced and rows added *)

Lemma scalar_one_or_none_some {A : Type} (l : list A) (x : A) :
  scalar_one_or_none l = Ok (Some x) -> l = [x].
Proof. destruct l as [|a [|b l]]; simpl; congruence. Qed.

Lemma scalar_one_or_none_none {A : Type} (l : list A) :
  scalar_one_or_none l = Ok None -> l = [].
Proof. destruct l as [|a [|b l]]; simpl; congruence. Qed.

Lemma scalar_one_or_none_ok {A : Type} (l : list A) :
  (List.length l <= 1)%nat -> scalar_one_or_none l = Ok (List.hd_error l).
Proof. destruct l as [|a [|b l]]; simpl; intros; try reflexivity; lia. Qed.

Lemma length_filter_replace_row_off {A : Type} (id : A -> Z) (p : A -> bool)
    (r : A) (l : list A) :
  p r = false ->
  (List.length (filter p (replace_row id r l)) <= List.length (filter p l))%nat.
Proof.
  intros Hr. induction l as [|a l IH]; simpl; [lia|].
  destruct (id a =? id r); [rewrite Hr|]; destruct (p a); simpl; lia.
Qed.

Lemma length_filter_replace_row {A : Type} (id : A -> Z) (p : A -> bool)
    (r : A) (l : list A) :
  (List.length (filter p (replace_row id r l))
   <= List.length (filter p l)
      + List.length (filter (fun x => (id x =? id r)%Z) l))%nat.
Proof.
  induction l as [|a l IH]; simpl; [lia|].
  destruct (id a =? id r); destruct (p a), (p r); simpl; lia.
Qed.

Lemma length_filter_key {A : Type} (id : A -> Z) (k : Z) (l : list A) :
  NoDup (map id l) ->
  (List.length (filter (fun x => (id x =? k)%Z) l) <= 1)%nat.
Proof.
  induction l as [|a l IH]; simpl; intros Hnd; [lia|].
  inversion Hnd as [|? ? Hnotin Hnd']; subst.
  destruct (id a =? k) eqn:E; [|now apply IH].
  apply Z.eqb_eq in E. subst k.
  rewrite (filter_key_absent id l (id a) Hnotin). simpl. lia.
Qed.

Lemma next_id_above {A : Type} (id : A -> Z) (l : list A) (x : A) :
  In x l -> id x < next_id id l.
Proof.
  unfold next_id. induction l as [|a l IH]; cbn [fold_right In];
    [contradiction|].
  intros [->|H]; [lia|]. specialize (IH H). lia.
Qed.

Lemma next_id_fresh {A : Type} (id : A -> Z) (l : list A) :
  ~ In (next_id id l) (map id l).
Proof.
  intros H. apply in_map_iff in H. destruct H as [x [E Hx]].
  apply (next_id_above id) in Hx. lia.
Qed.

Lemma NoDup_app_fresh (l : list Z) (k : Z) :
  NoDup l -> ~ In k l -> NoDup (l ++ [k]).
Proof.
  induction l as [|a l IH]; simpl; intros Hnd Hk.
  - constructor; [tauto|constructor].
  - inversion Hnd as [|? ? Hnotin Hnd']; subst. constructor.
    + rewrite in_app_iff. simpl. intuition.
    + apply IH; intuition.
Qed.

(** ** Geofence registry *)

Lemma get_primary_active_geofence_eq (db : Db) :
  GeofenceRepository.get_primary_active_geofence db
  = scalar_one_or_none (filter primary_active (campus_geofences db)).
Proof. reflexivity. Qed.

(** The path that C5 describes: [create_geofence] leaves at most one primary
    active geofence. *)
Lemma create_geofence_single_primary (db : Db) (data : GeofenceCreate)
    (admin : User.t) (g : CampusGeofence.t) (db' : Db) :
  single_primary_active db ->
  AttendanceService.create_geofence db data admin = Ok (g, db') ->
  single_primary_active db'.
Proof.
  unfold single_primary_active, AttendanceService.create_geofence.
  intros Hinv. destruct (gc_is_primary data) eqn:Hp.
  - rewrite get_primary_active_geofence_eq.
    destruct (scalar_one_or_none _) as [[e|]|] eqn:Hs; simpl; try discriminate.
    + apply scalar_one_or_none_some in Hs.
      assert (Hnil : filter primary_active
                       (replace_row CampusGeofence.id
                          (CampusGeofence.set_is_primary false e)
                          (campus_geofences db)) = []).
      { apply filter_nil_iff. intros x Hx.
        apply in_replace_row in Hx. destruct Hx as [[-> _]|[Hx Hne]].
        - unfold primary_active. simpl. apply andb_false_r.
        - destruct (primary_active x) eqn:Hx'; [|reflexivity].
          exfalso. apply Hne. simpl.
          assert (H : In x (filter primary_active (campus_geofences db)))
            by (apply filter_In; auto).
          rewrite Hs in H. destruct H as [<-|[]]. reflexivity. }
      intros H. injection H as _ <-. simpl campus_geofences.
      rewrite filter_app, length_app, Hnil.
      cbn [filter]. destruct (primary_active _); simpl; lia.
    + apply scalar_one_or_none_none in Hs.
      intros H. injection H as _ <-. simpl campus_geofences.
      rewrite filter_app, length_app, Hs.
      cbn [filter]. destruct (primary_active _); simpl; lia.
  - simpl. intros H. injection H as _ <-. simpl campus_geofences.
    rewrite filter_app, length_app.
    cbn [filter]. unfold primary_active at 2. simpl. lia.
Qed.

(** C5 fails on [update_geofence]: with geofence 1 primary and active and
    geofence 2 active, setting [is_primary] on geofence 2 leaves both primary
    and active, and the lookup of the primary geofence raises. *)
Theorem update_geofence_keeps_previous_primary :
  let g1 := CampusGeofence.mk 1 "Main campus" None 13 80 500 50 true true None in
  let g2 := CampusGeofence.mk 2 "Annex" None 13 80 300 50 true false None in
  let db := mk_db [] [g1; g2] [] [] [] [] [] [] in
  single_primary_active db
  /\ exists db',
       AttendanceService.update_geofence db 2 (set_primary_only true)
       = Ok (CampusGeofence.set_is_primary true g2, db')
       /\ filter primary_active (campus_geofences db')
          = [g1; CampusGeofence.set_is_primary true g2]
       /\ ~ single_primary_active db'
       /\ GeofenceRepository.get_primary_active_geofence db'
          = Raise MultipleResultsFound.
Proof.
  simpl. split.
  - unfold single_primary_active. simpl. lia.
  - eexists. split; [reflexivity|]. split; [reflexivity|]. split.
    + unfold single_primary_active. simpl. lia.
    + reflexivity.
Qed.

(** ** Profile photo approval *)

Lemma in_scalar_filter {A : Type} (p : A -> bool) (l : list A) (x : A) :
  scalar_one_or_none (filter p l) = Ok (Some x) ->
  In x l /\ p x = true /\ filter p l = [x].
Proof.
  intros H. apply scalar_one_or_none_some in H.
  assert (Hin : In x (filter p l)) by (rewrite H; now left).
  apply filter_In in Hin. tauto.
Qed.

Lemma replace_row_not_approved (rows : list ProfilePhoto.t)
    (r : ProfilePhoto.t) (s : Z) :
  approved_photo_of s r = false ->
  (List.length (filter (approved_photo_of s) rows) <= 1)%nat ->
  (List.length (filter (approved_photo_of s)
                       (replace_row ProfilePhoto.id r rows)) <= 1)%nat.
Proof.
  intros Hr H.
  pose proof (length_filter_replace_row_off ProfilePhoto.id
                (approved_photo_of s) r rows Hr).
  lia.
Qed.

Lemma replace_row_approved (rows : list ProfilePhoto.t) (r : ProfilePhoto.t) :
  NoDup (map ProfilePhoto.id rows) ->
  (forall s, (List.length (filter (approved_photo_of s) rows) <= 1)%nat) ->
  filter (approved_photo_of (ProfilePhoto.student_id r)) rows = [] ->
  forall s,
    (List.length (filter (approved_photo_of s)
                         (replace_row ProfilePhoto.id r rows)) <= 1)%nat.
Proof.
  intros Hpk Hinv Hnone s.
  destruct (approved_photo_of s r) eqn:Hr.
  - assert (s = ProfilePhoto.student_id r).
    { unfold approved_photo_of in Hr. apply andb_true_iff in Hr.
      destruct Hr as [E _]. apply Z.eqb_eq in E. congruence. }
    subst s.
    pose proof (length_filter_replace_row ProfilePhoto.id
                  (approved_photo_of (ProfilePhoto.student_id r)) r rows).
    pose proof (length_filter_key ProfilePhoto.id (ProfilePhoto.id r) rows Hpk).
    rewrite Hnone in H. simpl in H. lia.
  - now apply replace_row_not_approved.
Qed.

Lemma approved_photo_of_demoted (s : Z) (q : ProfilePhoto.t) :
  approved_photo_of s (demoted q) = false.
Proof. unfold approved_photo_of. simpl. apply andb_false_r. Qed.

(** Demoting the approved photo of a student leaves that student without an
    approved photo. *)
Lemma demote_leaves_none (rows : list ProfilePhoto.t) (e : ProfilePhoto.t)
    (s : Z) :
  filter (approved_photo_of s) rows = [e] ->
  filter (approved_photo_of s) (replace_row ProfilePhoto.id (demoted e) rows)
  = [].
Proof.
  intros He. apply filter_nil_iff. intros x Hx.
  apply in_replace_row in Hx. destruct Hx as [[-> _]|[Hx Hne]].
  - apply approved_photo_of_demoted.
  - destruct (approved_photo_of s x) eqn:Hx'; [|reflexivity].
    exfalso. apply Hne.
    assert (H : In x (filter (approved_photo_of s) rows))
      by (apply filter_In; auto).
    rewrite He in H. destruct H as [<-|[]]. reflexivity.
Qed.

Lemma upload_profile_photo_pending (face_service : FaceRecognitionService)
    (db : Db) (now : datetime) (student : User.t) (file : UploadFile)
    (p : ProfilePhoto.t) (db' : Db) :
  photos_pk db -> single_approved db ->
  AttendanceService.upload_profile_photo face_service db now student file
  = Ok (p, db') ->
  ProfilePhoto.status p = ProfilePhotoStatus.PENDING
  /\ profile_photos db' = profile_photos db ++ [p]
  /\ photos_pk db' /\ single_approved db'.
Proof.
  intros Hpk Hinv. unfold AttendanceService.upload_profile_photo.
  destruct (validate_face_image _ _ _) as [is_valid error_msg].
  destruct is_valid; simpl; [|discriminate].
  destruct (extract_face_encoding _ _ _) as [encoding|]; [|discriminate].
  unfold ProfilePhotoRepository.create. simpl profile_photos.
  destruct (ProfilePhotoRepository.uq_student_approved_photo _ _);
    [|discriminate].
  intros H. injection H as <- <-. simpl.
  split; [reflexivity|]. split; [reflexivity|]. split.
  - unfold photos_pk. simpl. rewrite map_app. simpl.
    apply NoDup_app_fresh; [exact Hpk|apply next_id_fresh].
  - intros s. simpl. rewrite filter_app, length_app. simpl.
    unfold approved_photo_of at 2. simpl. rewrite andb_false_r. simpl.
    specialize (Hinv s). lia.
Qed.

Lemma get_approved_photo_for_student_eq (db : Db) (s : Z) :
  ProfilePhotoRepository.get_approved_photo_for_student db s
  = scalar_one_or_none (filter (approved_photo_of s) (profile_photos db)).
Proof. reflexivity. Qed.

Lemma photo_update_ok (db : Db) (r p : ProfilePhoto.t) (db' : Db) :
  ProfilePhotoRepository.update db r = Ok (p, db') ->
  p = r
  /\ profile_photos db'
     = replace_row ProfilePhoto.id r (profile_photos db).
Proof.
  unfold ProfilePhotoRepository.update.
  destruct (ProfilePhotoRepository.uq_student_approved_photo _ _);
    [|discriminate].
  intros H. injection H as <- <-. auto.
Qed.

Lemma review_profile_photo_invariant (db : Db) (now : datetime) (photo_id : Z)
    (reviewer : User.t) (approval : ProfilePhotoApproval)
    (p : ProfilePhoto.t) (db' : Db) :
  photos_pk db -> single_approved db ->
  AttendanceService.review_profile_photo db now photo_id reviewer approval
  = Ok (p, db') ->
  photos_pk db' /\ single_approved db'
  /\ In p (profile_photos db')
  /\ ProfilePhoto.id p = photo_id
  /\ ProfilePhoto.status p
     = (if approved approval then ProfilePhotoStatus.APPROVED
        else ProfilePhotoStatus.REJECTED)
  /\ (approved approval = true ->
      forall q, In q (profile_photos db) ->
                ProfilePhoto.student_id q = ProfilePhoto.student_id p ->
                ProfilePhoto.status q = ProfilePhotoStatus.APPROVED ->
                In (demoted q) (profile_photos db')).
Proof.
  intros Hpk Hinv. unfold AttendanceService.review_profile_photo.
  unfold ProfilePhotoRepository.get_by_id.
  destruct (scalar_one_or_none _) as [[photo|]|] eqn:Hget; simpl;
    try discriminate.
  apply in_scalar_filter in Hget. destruct Hget as [Hphoto [Hid _]].
  apply Z.eqb_eq in Hid.
  destruct (ProfilePhotoStatus.eqb (ProfilePhoto.status photo)
                                   ProfilePhotoStatus.PENDING) eqn:Hpend;
    simpl; [|discriminate].
  assert (Hstatus : ProfilePhoto.status photo = ProfilePhotoStatus.PENDING)
    by (destruct (ProfilePhoto.status photo); simpl in Hpend; congruence).
  destruct (approved approval) eqn:Happ.
  - rewrite get_approved_photo_for_student_eq.
    destruct (scalar_one_or_none _) as [[e|]|] eqn:He; simpl;
      try discriminate.
    + apply in_scalar_filter in He. destruct He as [Hein [Hea He]].
      assert (Hne : ProfilePhoto.id e <> ProfilePhoto.id photo).
      { intros E. assert (e = photo) by (eapply NoDup_map_eq; eauto).
        subst e. unfold approved_photo_of in Hea. rewrite Hstatus in Hea.
        simpl in Hea. rewrite andb_false_r in Hea. discriminate. }
      apply Z.eqb_neq in Hne. rewrite Hne. simpl.
      fold (demoted e).
      destruct (ProfilePhotoRepository.update db (demoted e))
        as [[e' db1]|] eqn:Hu1; simpl; [|discriminate].
      apply photo_update_ok in Hu1. destruct Hu1 as [-> Hrows1].
      intros Hu2. apply photo_update_ok in Hu2. destruct Hu2 as [-> Hrows2].
      assert (Hpk1 : NoDup (map ProfilePhoto.id (profile_photos db1))).
      { rewrite Hrows1, map_id_replace_row. exact Hpk. }
      assert (Hinv1 : forall s,
                 (List.length (filter (approved_photo_of s)
                                      (profile_photos db1)) <= 1)%nat).
      { intros s. rewrite Hrows1. apply replace_row_not_approved;
          [apply approved_photo_of_demoted|apply Hinv]. }
      repeat split.
      * unfold photos_pk. rewrite Hrows2, map_id_replace_row. exact Hpk1.
      * intros s. rewrite Hrows2. apply replace_row_approved; auto.
        simpl. rewrite Hrows1. now apply demote_leaves_none.
      * rewrite Hrows2. apply in_replace_row. left. split; [reflexivity|].
        simpl. rewrite Hrows1, map_id_replace_row. now apply in_map.
      * simpl. exact Hid.
      * intros _ q Hq Hs Hqa. simpl in Hs.
        assert (Hqe : In q (filter (approved_photo_of
                                      (ProfilePhoto.student_id photo))
                                   (profile_photos db))).
        { apply filter_In. split; [assumption|]. unfold approved_photo_of.
          rewrite Hs, Z.eqb_refl, Hqa. reflexivity. }
        rewrite He in Hqe. destruct Hqe as [<-|[]].
        rewrite Hrows2. apply in_replace_row. right. split.
        -- rewrite Hrows1. apply in_replace_row. left.
           split; [reflexivity|]. simpl. now apply in_map.
        -- simpl. now apply Z.eqb_neq.
    + apply scalar_one_or_none_none in He.
      intros Hu2. apply photo_update_ok in Hu2. destruct Hu2 as [-> Hrows2].
      repeat split.
      * unfold photos_pk. rewrite Hrows2, map_id_replace_row. exact Hpk.
      * intros s. rewrite Hrows2. apply replace_row_approved; auto.
      * rewrite Hrows2. apply in_replace_row. left. split; [reflexivity|].
        simpl. now apply in_map.
      * simpl. exact Hid.
      * intros _ q Hq Hs Hqa. simpl in Hs. exfalso.
        assert (Hqe : In q (filter (approved_photo_of
                                      (ProfilePhoto.student_id photo))
                                   (profile_photos db))).
        { apply filter_In. split; [assumption|]. unfold approved_photo_of.
          rewrite Hs, Z.eqb_refl, Hqa. reflexivity. }
        rewrite He in Hqe. destruct Hqe.
  - simpl. intros Hu2. apply photo_update_ok in Hu2.
    destruct Hu2 as [-> Hrows2].
    repeat split.
    + unfold photos_pk. rewrite Hrows2, map_id_replace_row. exact Hpk.
    + intros s. rewrite Hrows2. apply replace_row_not_approved;
        [|apply Hinv].
      unfold approved_photo_of. simpl. apply andb_false_r.
    + rewrite Hrows2. apply in_replace_row. left. split; [reflexivity|].
      simpl. now apply in_map.
    + simpl. exact Hid.
    + discriminate.
Qed.

(** C4: with at most one APPROVED photo per student before, there is at most
    one after an upload, which creates the photo PENDING, and after a review;
    an approval demotes the other APPROVED photo of the same student to
    REJECTED with the reason "Replaced by new approved photo". *)
Theorem single_approved_photo_invariant (db : Db) :
  photos_pk db -> single_approved db ->
  (forall face_service now student file p db',
      AttendanceService.upload_profile_photo face_service db now student file
      = Ok (p, db') ->
      ProfilePhoto.status p = ProfilePhotoStatus.PENDING
      /\ profile_photos db' = profile_photos db ++ [p]
      /\ photos_pk db' /\ single_approved db')
  /\ (forall now photo_id reviewer approval p db',
         AttendanceService.review_profile_photo db now photo_id reviewer
                                                approval
         = Ok (p, db') ->
         photos_pk db' /\ single_approved db'
         /\ In p (profile_photos db')
         /\ ProfilePhoto.id p = photo_id
         /\ ProfilePhoto.status p
            = (if approved approval then ProfilePhotoStatus.APPROVED
               else ProfilePhotoStatus.REJECTED)
         /\ (approved approval = true ->
             forall q, In q (profile_photos db) ->
                       ProfilePhoto.student_id q = ProfilePhoto.student_id p ->
                       ProfilePhoto.status q = ProfilePhotoStatus.APPROVED ->
                       In (demoted q) (profile_photos db')
                       /\ ProfilePhoto.status (demoted q)
                          = ProfilePhotoStatus.REJECTED
                       /\ ProfilePhoto.rejection_reason (demoted q)
                          = Some "Replaced by new approved photo")).
Proof.
  intros Hpk Hinv. split.
  - intros face_service now student file p db' H.
    eapply upload_profile_photo_pending; eauto.
  - intros now photo_id reviewer approval p db' H.
    destruct (review_profile_photo_invariant db now photo_id reviewer
                approval p db' Hpk Hinv H) as (H1 & H2 & H3 & H4 & H5 & H6).
    repeat split; auto.
Qed.

Lemma single_approved_photo_invariant_witness :
  let t0 := mk_datetime 739000 (mk_time 8 0 0 0) in
  let now := mk_datetime 739252 (mk_time 10 0 0 0) in
  let old := ProfilePhoto.mk 1 7 "uploads/profile_photos/7_a.jpg" "7_a.jpg"
               None ProfilePhotoStatus.APPROVED None (Some 1) (Some t0) t0 in
  let new := ProfilePhoto.mk 2 7 "uploads/profile_photos/7_b.jpg" "7_b.jpg"
               None ProfilePhotoStatus.PENDING None None None t0 in
  let db := mk_db [old; new] [] [] [] [] [] [] [] in
  photos_pk db /\ single_approved db
  /\ exists p db',
       AttendanceService.review_profile_photo db now 2 (User.mk 1 None)
         (mk_approval true None) = Ok (p, db')
       /\ single_approved db'
       /\ ProfilePhoto.status p = ProfilePhotoStatus.APPROVED
       /\ In (demoted old) (profile_photos db').
Proof.
  intros t0 now old new db.
  assert (Hpk : photos_pk db).
  { unfold photos_pk. simpl. repeat constructor; simpl; intuition lia. }
  assert (Hinv : single_approved db).
  { intros s. unfold approved_photo_of. cbn -[Z.eqb].
    destruct (7 =? s); simpl; lia. }
  split; [exact Hpk|]. split; [exact Hinv|].
  destruct (single_approved_photo_invariant db Hpk Hinv) as [_ Hreview].
  eexists. eexists. split; [reflexivity|].
  match goal with
  | |- context [profile_photos ?d] =>
      destruct (Hreview now 2 (User.mk 1 None) (mk_approval true None)
                  _ d eq_refl) as (_ & H2 & _ & _ & H5 & H6)
  end.
  split; [exact H2|]. split; [exact H5|].
  apply (H6 eq_refl old); simpl; auto.
Defined.


(** ** Marking pipeline *)


Lemma hd_error_in {A : Type} (l : list A) (x : A) :
  List.hd_error l = Some x -> In x l.
Proof. destruct l; simpl; intros H; [discriminate|]. injection H as ->. now left. Qed.

Lemma hd_error_single {A : Type} (l : list A) (x : A) :
  (List.length l <= 1)%nat -> List.hd_error l = Some x -> l = [x].
Proof.
  destruct l as [|a [|b l]]; simpl; intros Hl H; try discriminate; try lia.
  now injection H as ->.
Qed.

Lemma hd_error_nil {A : Type} (l : list A) :
  List.hd_error l = None -> l = [].
Proof. destruct l; simpl; [reflexivity|discriminate]. Qed.

Lemma filter_replace_row_unique {A : Type} (id : A -> Z) (p : A -> bool)
    (r e : A) (l : list A) :
  NoDup (map id l) -> filter p l = [e] -> id r = id e -> p r = true ->
  filter p (replace_row id r l) = [r].
Proof.
  intros Hnd Hf Hid Hr. induction l as [|a l IH]; simpl in *; [discriminate|].
  inversion Hnd as [|? ? Hnotin Hnd']; subst.
  destruct (p a) eqn:Ha.
  - injection Hf as -> Hf. rewrite Hid, Z.eqb_refl. simpl. rewrite Hr.
    f_equal. apply filter_nil_iff. intros x Hx.
    apply in_replace_row in Hx. destruct Hx as [[_ Hin]|[Hx _]].
    + exfalso. apply Hnotin. now rewrite <- Hid.
    + now apply (proj1 (filter_nil_iff p l) Hf).
  - assert (He : In e l).
    { assert (H : In e (filter p l)) by (rewrite Hf; now left).
      apply filter_In in H. tauto. }
    destruct (id a =? id r) eqn:E.
    + apply Z.eqb_eq in E. exfalso. apply Hnotin. rewrite E, Hid.
      now apply in_map.
    + simpl. rewrite Ha. now apply IH.
Qed.




Lemma get_student_record_for_date_eq (db : Db) (s : Z) (d : date) :
  AttendanceRecordRepository.get_student_record_for_date db s d
  = scalar_one_or_none (filter (record_of s d) (attendance_records db)).
Proof. reflexivity. Qed.

(** The record of the day after the upsert. *)
Lemma upsert_record (rows : list AttendanceRecord.t)
    (e r : AttendanceRecord.t) (s : Z) (d : date) :
  NoDup (map AttendanceRecord.id rows) ->
  filter (record_of s d) rows = [e] ->
  AttendanceRecord.id r = AttendanceRecord.id e ->
  record_of s d r = true ->
  filter (record_of s d) (replace_row AttendanceRecord.id r rows) = [r]
  /\ forall x, record_of s d x = false ->
               (In x (replace_row AttendanceRecord.id r rows) <-> In x rows).
Proof.
  intros Hpk Hf Hid Hr. split.
  - eapply filter_replace_row_unique; eauto.
  - intros x Hx. rewrite in_replace_row.
    assert (He : In e rows /\ record_of s d e = true).
    { assert (H : In e (filter (record_of s d) rows)) by (rewrite Hf; now left).
      now apply filter_In in H. }
    split.
    + intros [[-> _]|[H _]]; [congruence|assumption].
    + intros H. right. split; [assumption|]. intros E. rewrite Hid in E.
      assert (x = e) by (eapply NoDup_map_eq; eauto; tauto).
      subst x. destruct He. congruence.
Qed.

(** Where the code computes a distance, it is the one of the formula. *)
Lemma haversine_distance_formula (math : Libm) (lat1 lon1 lat2 lon2 d : float) :
  AttendanceService._haversine_distance math lat1 lon1 lat2 lon2 = Ok d ->
  d = haversine_formula math lat1 lon1 lat2 lon2.
Proof.
  unfold AttendanceService._haversine_distance, haversine_formula, math_sqrt.
  cbv zeta.
  repeat match goal with
         | |- context [if ?c then _ else _] => destruct c; cbn [bind]
         end; intros H; try discriminate H.
  injection H as <-. reflexivity.
Qed.

(** The code's containment test refines [contains] wherever it returns. *)
Lemma is_within_geofence_contains (math : Libm) (location : LocationData)
    (g : CampusGeofence.t) (r : bool * float) :
  AttendanceService._is_within_geofence math location g = Ok r ->
  r = contains math location g.
Proof.
  unfold AttendanceService._is_within_geofence, contains.
  destruct (AttendanceService._haversine_distance _ _ _ _ _) as [d|e] eqn:Hd;
    cbn [bind]; [|discriminate].
  apply haversine_distance_formula in Hd. intros H. injection H as <-.
  now rewrite Hd.
Qed.



(** C1 fails at the containment gate for a location about half the globe
    away from the campus.  For the student at (8, 0) and the geofence at
    (-8, 180) the haversine term [a] is rounded to 1.0000000000000002, so
    that [math.sqrt(1 - a)] raises "math domain error": the pipeline and the
    endpoint raise ValueError where the claim has the failure OUTSIDE_CAMPUS
    returned and logged.  The request passes the validation of the location
    and the pre-check. *)
Theorem containment_gate_raises_domain_error :
  LocationData_validate 8 0 5 = Ok (mk_location 8 0 5)
  /\ (exists pre,
         AttendanceService.check_attendance_prerequisites
           antipode_db wednesday_0915 student7 = Ok pre
         /\ can_mark pre = true)
  /\ AttendanceService._haversine_distance antipode_math 8 0 (-8) 180
     = Raise (ValueError "math domain error")
  /\ AttendanceService.mark_attendance one_face_service antipode_math
       antipode_db wednesday_0915 student7 (mk_location 8 0 5) selfie
     = Raise (ValueError "math domain error")
  /\ AttendanceRouter.mark_attendance one_face_service antipode_math
       antipode_db wednesday_0915 selfie 8 0 5 student7
     = Raise (ValueError "math domain error").
Proof.
  split; [vm_compute; reflexivity|].
  split; [eexists; split; vm_compute; reflexivity|].
  split; [vm_compute; reflexivity|].
  split; vm_compute; reflexivity.
Qed.





(** ** One attempt row per call, and the daily cap *)

Ltac pipeline_step :=
  match goal with
  | |- context [bind (if ?c then _ else _) _] => destruct c eqn:?
  | |- context [bind (match ?x with _ => _ end) _] => destruct x eqn:?
  | |- context [bind ?m _] => destruct m as [?|?] eqn:?
  | |- context [if ?c then _ else _] => destruct c eqn:?
  | |- context [match ?x with _ => _ end] => destruct x eqn:?
  end; cbn [bind].

Lemma mark_attendance_logs_once (face_service : FaceRecognitionService)
    (math : Libm) (db : Db) (now : datetime) (student : User.t)
    (location : LocationData) (image_file : UploadFile)
    (res : AttendanceMarkResult) (db' : Db) :
  AttendanceService.mark_attendance face_service math db now student
                                    location image_file = Ok (res, db') ->
  exists a,
    attendance_attempts db' = attendance_attempts db ++ [a]
    /\ AttendanceAttempt.student_id a = User.id student
    /\ AttendanceAttempt.attempted_at a = now
    /\ AttendanceAttempt.success a = mr_success res
    /\ AttendanceAttempt.failure_reason a = mr_failure_reason res
    /\ (mr_success res = false ->
        attendance_records db' = attendance_records db
        /\ exists reason, mr_failure_reason res = Some reason
                          /\ In reason gate_failure_reasons).
Proof.
  unfold AttendanceService.mark_attendance,
    AttendanceAttemptRepository.create,
    AttendanceRecordRepository.update, AttendanceRecordRepository.create.
  cbn [bind].
  repeat pipeline_step; intros H; try discriminate;
    injection H as <- <-; eexists;
    do 5 (split; [reflexivity|]);
    cbn [mr_success mr_failure_reason]; intros Hs; try discriminate;
    (split; [reflexivity|]); eexists; (split; [reflexivity|]);
    unfold gate_failure_reasons; simpl; tauto.
Qed.

Lemma datetime_ge_today_start (now : datetime) :
  time_valid (dt_time now) ->
  datetime_ge now (mk_datetime (dt_date now) (mk_time 0 0 0 0)) = true.
Proof.
  intros (Hh & Hm & Hs & Hu).
  unfold datetime_ge, datetime_compare, time_compare. cbn.
  rewrite Z.compare_refl.
  destruct (Z.compare_spec (hour (dt_time now)) 0); try reflexivity; try lia.
  destruct (Z.compare_spec (minute (dt_time now)) 0); try reflexivity; try lia.
  destruct (Z.compare_spec (second (dt_time now)) 0); try reflexivity; try lia.
  destruct (Z.compare_spec (microsecond (dt_time now)) 0);
    try reflexivity; lia.
Qed.

Lemma count_today_attempts_succ (db db' : Db) (now : datetime)
    (a : AttendanceAttempt.t) :
  time_valid (dt_time now) ->
  attendance_attempts db' = attendance_attempts db ++ [a] ->
  AttendanceAttempt.attempted_at a = now ->
  AttendanceAttemptRepository.count_today_attempts
    db' now (AttendanceAttempt.student_id a)
  = AttendanceAttemptRepository.count_today_attempts
      db now (AttendanceAttempt.student_id a) + 1.
Proof.
  intros Hv Hrows Hat. unfold AttendanceAttemptRepository.count_today_attempts.
  rewrite Hrows, filter_app. cbn [filter].
  rewrite Z.eqb_refl, Hat, (datetime_ge_today_start now Hv). cbn [andb].
  unfold len. rewrite length_app. simpl. lia.
Qed.







(** ** Verification outcomes *)


Lemma precheck_blocks_already_marked (db : Db) (now : datetime)
    (student : User.t) (r : AttendanceRecord.t) (pre : AttendancePreCheckOut) :
  AttendanceRecordRepository.get_student_record_for_date
    db (User.id student) (dt_date now) = Ok (Some r) ->
  AttendanceRecord.status r = AttendanceStatus.PRESENT ->
  AttendanceService.check_attendance_prerequisites db now student = Ok pre ->
  can_mark pre = false
  /\ already_marked_today pre = true
  /\ In "Attendance already marked today" (blockers pre).
Proof.
  intros Hrec Hst H.
  unfold AttendanceService.check_attendance_prerequisites in H.
  cbv zeta in H. rewrite Hrec in H. cbn [bind] in H.
  rewrite Hst in H. cbn [AttendanceStatus.eqb] in H. revert H.
  repeat pipeline_step; intros H; try discriminate; injection H as <-;
    cbn [can_mark blockers already_marked_today];
    (split; [reflexivity|]); (split; [reflexivity|]); simpl; tauto.
Qed.

Lemma router_blocks_already_marked (face_service : FaceRecognitionService)
    (math : Libm) (db : Db) (now : datetime) (file : UploadFile)
    (lat lon acc : float) (student : User.t) (r : AttendanceRecord.t) :
  AttendanceRecordRepository.get_student_record_for_date
    db (User.id student) (dt_date now) = Ok (Some r) ->
  AttendanceRecord.status r = AttendanceStatus.PRESENT ->
  exists e,
    AttendanceRouter.mark_attendance face_service math db now file lat lon acc
                                     student = Raise e.
Proof.
  intros Hrec Hst. unfold AttendanceRouter.mark_attendance.
  match goal with
  | |- context [if ?c then Raise _ else _] => destruct c
  end; [eexists; reflexivity|].
  destruct (LocationData_validate lat lon acc); cbn [bind];
    [|eexists; reflexivity].
  destruct (AttendanceService.check_attendance_prerequisites db now student)
    as [pre|] eqn:Hpre; cbn [bind]; [|eexists; reflexivity].
  destruct (precheck_blocks_already_marked db now student r pre Hrec Hst Hpre)
    as [-> _].
  cbn [negb]. eexists. reflexivity.
Qed.




(** ** Statistics engine: the two loops *)

Lemma in_dates_from (start : date) (n : nat) (d : date) :
  In d (dates_from start n) <-> start <= d < start + Z.of_nat n.
Proof.
  revert start. induction n as [|n IH]; intros start; cbn [dates_from In].
  - lia.
  - rewrite IH. lia.
Qed.

Lemma in_dates_down (last : date) (n : nat) (d : date) :
  In d (dates_down last n) <-> last - Z.of_nat n < d <= last.
Proof.
  revert last. induction n as [|n IH]; intros last; cbn [dates_down In].
  - lia.
  - rewrite IH. lia.
Qed.

Lemma NoDup_dates_down (last : date) (n : nat) : NoDup (dates_down last n).
Proof.
  revert last. induction n as [|n IH]; intros last; cbn [dates_down];
    constructor; [|apply IH].
  rewrite in_dates_down. lia.
Qed.

Lemma in_date_range (s e d : date) :
  In d (date_range s e) <-> s <= d <= e.
Proof. unfold date_range. rewrite in_dates_from. lia. Qed.

Lemma date_range_cons (s e : date) :
  s <= e -> date_range s e = s :: date_range (s + 1) e.
Proof.
  intros H. unfold date_range.
  replace (Z.to_nat (e - s + 1)) with (S (Z.to_nat (e - (s + 1) + 1))) by lia.
  reflexivity.
Qed.

Lemma date_range_nil (s e : date) : e < s -> date_range s e = [].
Proof.
  intros H. unfold date_range.
  replace (Z.to_nat (e - s + 1)) with O by lia. reflexivity.
Qed.

Lemma date_add_days_ok (d n r : date) :
  date_add_days d n = Ok r -> r = d + n.
Proof.
  unfold date_add_days. destruct (_ && _); congruence.
Qed.

Lemma date_add_days_in_range (d n : date) :
  date_min <= d + n <= date_max -> date_add_days d n = Ok (d + n).
Proof.
  intros [H1 H2]. unfold date_add_days.
  apply Z.leb_le in H1. apply Z.leb_le in H2. rewrite H1, H2. reflexivity.
Qed.

(** What the first loop returns, when it returns. *)
Lemma count_working_days_partial (fuel : nat) (current end_date : date)
    (holiday_dates : list date) (total w : Z) :
  DetailedAttendanceRepository.count_working_days
    fuel current end_date holiday_dates total = Ok w ->
  w = total + len (filter (is_working_day holiday_dates)
                          (date_range current end_date)).
Proof.
  revert current total.
  induction fuel as [|fuel IH]; intros current total;
    cbn [DetailedAttendanceRepository.count_working_days]; [discriminate|].
  destruct (current <=? end_date) eqn:Hle.
  - apply Z.leb_le in Hle.
    destruct (date_add_days current 1) as [next|] eqn:Hnext; cbn [bind];
      [|discriminate].
    apply date_add_days_ok in Hnext. subst next.
    intros H. apply IH in H. rewrite H, (date_range_cons _ _ Hle).
    cbn [filter]. fold (is_working_day holiday_dates current).
    unfold len. destruct (is_working_day holiday_dates current);
      cbn [List.length]; lia.
  - apply Z.leb_gt in Hle. intros H. injection H as <-.
    rewrite (date_range_nil _ _ Hle). unfold len. simpl. lia.
Qed.

(** The first loop returns, away from the last date of the calendar. *)
Lemma count_working_days_total (fuel : nat) (current end_date : date)
    (holiday_dates : list date) (total : Z) :
  date_min <= current -> end_date < date_max ->
  (Z.to_nat (end_date - current + 1) < fuel)%nat ->
  is_ok (DetailedAttendanceRepository.count_working_days
           fuel current end_date holiday_dates total) = true.
Proof.
  revert current total.
  induction fuel as [|fuel IH]; intros current total Hmin Hmax Hfuel;
    cbn [DetailedAttendanceRepository.count_working_days]; [lia|].
  destruct (current <=? end_date) eqn:Hle; [|reflexivity].
  apply Z.leb_le in Hle.
  rewrite date_add_days_in_range by (unfold date_min in *; lia).
  cbn [bind]. apply IH; lia.
Qed.

(** What the second loop returns, when it returns. *)
Lemma synthesize_history_partial (fuel : nat) (current start_date today : date)
    (student_id : Z) (holiday_dates : list date)
    (records_by_date : list (date * AttendanceRecord.t))
    (acc h : list history_entry) :
  DetailedAttendanceRepository.synthesize_history
    fuel current start_date today student_id holiday_dates records_by_date acc
  = Ok h ->
  h = acc ++ flat_map (history_entries today student_id holiday_dates
                                       records_by_date)
                      (dates_down current
                                  (Z.to_nat (current - start_date + 1))).
Proof.
  revert current acc.
  induction fuel as [|fuel IH]; intros current acc;
    cbn [DetailedAttendanceRepository.synthesize_history]; [discriminate|].
  destruct (start_date <=? current) eqn:Hle.
  - apply Z.leb_le in Hle.
    destruct (date_add_days current (-1)) as [prev|] eqn:Hprev; cbn [bind];
      [|discriminate].
    apply date_add_days_ok in Hprev. subst prev.
    intros H. apply IH in H. rewrite H.
    replace (Z.to_nat (current - start_date + 1))
      with (S (Z.to_nat (current + -1 - start_date + 1))) by lia.
    cbn [dates_down flat_map].
    replace (current - 1) with (current + -1) by lia.
    rewrite app_assoc. f_equal.
    unfold history_entries, is_working_day.
    destruct (negb (weekday current =? 6)
              && negb (date_in current holiday_dates));
      [|now rewrite app_nil_r].
    destruct (dict_find current records_by_date); [reflexivity|].
    destruct (current <=? today); [reflexivity|now rewrite app_nil_r].
  - apply Z.leb_gt in Hle. intros H. injection H as <-.
    replace (Z.to_nat (current - start_date + 1)) with O by lia.
    cbn. now rewrite app_nil_r.
Qed.

(** The second loop returns, away from the first date of the calendar. *)
Lemma synthesize_history_total (fuel : nat) (current start_date today : date)
    (student_id : Z) (holiday_dates : list date)
    (records_by_date : list (date * AttendanceRecord.t))
    (acc : list history_entry) :
  date_min < start_date -> current <= date_max ->
  (Z.to_nat (current - start_date + 1) < fuel)%nat ->
  is_ok (DetailedAttendanceRepository.synthesize_history
           fuel current start_date today student_id holiday_dates
           records_by_date acc) = true.
Proof.
  revert current acc.
  induction fuel as [|fuel IH]; intros current acc Hmin Hmax Hfuel;
    cbn [DetailedAttendanceRepository.synthesize_history]; [lia|].
  destruct (start_date <=? current) eqn:Hle; [|reflexivity].
  apply Z.leb_le in Hle.
  rewrite date_add_days_in_range by (unfold date_min, date_max in *; lia).
  cbn [bind]. apply IH; lia.
Qed.


(** ** Statistics engine: the dict of records and the holiday set *)

Lemma dict_find_set_same {A : Type} (k : date) (v : A) (d : list (date * A)) :
  dict_find k (dict_set k v d) = Some v.
Proof.
  induction d as [|[k' v'] d IH]; cbn [dict_set dict_find].
  - now rewrite Z.eqb_refl.
  - destruct (k =? k') eqn:E; cbn [dict_find]; rewrite ?Z.eqb_refl, ?E; auto.
Qed.

Lemma dict_find_set_other {A : Type} (k k' : date) (v : A)
    (d : list (date * A)) :
  k <> k' -> dict_find k' (dict_set k v d) = dict_find k' d.
Proof.
  intros Hne. induction d as [|[k0 v0] d IH]; cbn [dict_set dict_find].
  - apply Z.eqb_neq in Hne. rewrite Z.eqb_sym in Hne. now rewrite Hne.
  - destruct (k =? k0) eqn:E; cbn [dict_find].
    + apply Z.eqb_eq in E. subst k0.
      apply Z.eqb_neq in Hne. rewrite Z.eqb_sym in Hne. now rewrite Hne.
    + destruct (k' =? k0); auto.
Qed.

Lemma records_by_date_find (acc : list (date * AttendanceRecord.t))
    (records : list AttendanceRecord.t) (k : date) (r : AttendanceRecord.t) :
  dict_find k (records_by_date_from acc records) = Some r ->
  (In r records /\ AttendanceRecord.attendance_date r = k)
  \/ dict_find k acc = Some r.
Proof.
  unfold records_by_date_from. revert acc.
  induction records as [|x records IH]; intros acc; cbn [fold_left].
  - auto.
  - intros H. apply IH in H. destruct H as [[Hin Hk]|H].
    + left. split; [now right|assumption].
    + destruct (Z.eq_dec (AttendanceRecord.attendance_date x) k) as [E|E].
      * subst k. rewrite dict_find_set_same in H. injection H as <-.
        left. split; [now left|reflexivity].
      * rewrite dict_find_set_other in H by assumption. now right.
Qed.



Lemma is_active_holiday_iff (db : Db) (d : date) :
  is_active_holiday db d = true <->
  exists h, In h (holidays db) /\ Holiday.date_ h = d
            /\ Holiday.is_active h = true.
Proof.
  unfold is_active_holiday. rewrite existsb_exists. split.
  - intros [h [Hin Hc]]. apply andb_true_iff in Hc. destruct Hc as [E Ha].
    apply Z.eqb_eq in E. eauto.
  - intros [h [Hin [E Ha]]]. exists h. split; [assumption|].
    apply Z.eqb_eq in E. now rewrite E, Ha.
Qed.

(** In the range, the holiday set of the statistics is the set of active
    holidays. *)
Lemma holiday_dates_in_range (db : Db) (s e d : date) :
  s <= d <= e ->
  date_in d (HolidayRepository.get_holiday_dates_in_range db s e)
  = is_active_holiday db d.
Proof.
  intros Hr. apply eq_true_iff_eq.
  rewrite date_in_iff, in_get_holiday_dates_in_range, is_active_holiday_iff.
  split.
  - intros [h (H1 & H2 & _ & H4)]. eauto.
  - intros [h (H1 & H2 & H3)]. exists h. auto.
Qed.

Lemma is_working_day_in_range (db : Db) (s e d : date) :
  s <= d <= e ->
  is_working_day (HolidayRepository.get_holiday_dates_in_range db s e) d
  = working_day db d.
Proof.
  intros Hr. unfold is_working_day, working_day.
  now rewrite (holiday_dates_in_range db s e d Hr).
Qed.

Lemma filter_working_days (db : Db) (s e : date) :
  filter (is_working_day (HolidayRepository.get_holiday_dates_in_range db s e))
         (date_range s e)
  = filter (working_day db) (date_range s e).
Proof.
  apply filter_ext_in. intros d Hd. apply in_date_range in Hd.
  now apply is_working_day_in_range.
Qed.

(** ** Statistics engine: the result *)

(** The result for an explicit range, when there is one. *)
Lemma stats_explicit (db : Db) (today : date) (student_id : Z)
    (s e : date) (stats : attendance_stats) :
  DetailedAttendanceRepository.get_student_attendance_stats
    db today student_id (Some s) (Some e) = Ok stats ->
  let hdates := HolidayRepository.get_holiday_dates_in_range db s e in
  let records :=
    order_by (fun a b => AttendanceRecord.attendance_date b
                         <=? AttendanceRecord.attendance_date a)
             (filter (student_record_in student_id s e)
                     (attendance_records db)) in
  let w := len (filter (working_day db) (date_range s e)) in
  let p := present_days db student_id s e in
  st_start_date stats = s
  /\ st_end_date stats = e
  /\ st_total_working_days stats = w
  /\ st_present_days stats = p
  /\ st_absent_days stats = Z.max 0 (w - p)
  /\ st_attendance_percentage stats
     = py_round2 (if 0 <? w
                  then PrimFloat.mul (int_truediv p w) 100%float
                  else 0%float)
  /\ st_records stats
     = flat_map (history_entries today student_id hdates
                                 (records_by_date_from [] records))
                (dates_down e (Z.to_nat (e - s + 1))).
Proof.
  unfold DetailedAttendanceRepository.get_student_attendance_stats.
  cbn [dict_get bind].
  destruct (DetailedAttendanceRepository.count_working_days _ _ _ _ _)
    as [w|] eqn:Hw; cbn [bind]; [|discriminate].
  destruct (DetailedAttendanceRepository.synthesize_history _ _ _ _ _ _ _ _)
    as [h|] eqn:Hh; cbn [bind]; [|discriminate].
  intros H. injection H as <-.
  apply count_working_days_partial in Hw.
  apply synthesize_history_partial in Hh.
  rewrite filter_working_days in Hw. rewrite Z.add_0_l in Hw.
  cbn [st_start_date st_end_date st_total_working_days st_present_days
       st_absent_days st_attendance_percentage st_records].
  assert (Hp : len (filter
                      (fun r => AttendanceStatus.eqb (AttendanceRecord.status r)
                                                     AttendanceStatus.PRESENT)
                      (order_by
                         (fun a b => AttendanceRecord.attendance_date b
                                     <=? AttendanceRecord.attendance_date a)
                         (filter
                            (fun r =>
                               (AttendanceRecord.student_id r =? student_id)
                               && (s <=? AttendanceRecord.attendance_date r)
                               && (AttendanceRecord.attendance_date r <=? e))
                            (attendance_records db))))
                = present_days db student_id s e).
  { unfold present_days, len. now rewrite length_filter_order_by. }
  rewrite Hp. subst w.
  repeat split.
  - destruct (_ <? 0) eqn:E; [apply Z.ltb_lt in E|apply Z.ltb_ge in E]; lia.
  - exact Hh.
Qed.

(** A result is the result for its own range. *)
Lemma stats_resolved (db : Db) (today : date) (student_id : Z)
    (so eo : option date) (stats : attendance_stats) :
  DetailedAttendanceRepository.get_student_attendance_stats
    db today student_id so eo = Ok stats ->
  DetailedAttendanceRepository.get_student_attendance_stats
    db today student_id (Some (st_start_date stats)) (Some (st_end_date stats))
  = Ok stats.
Proof.
  unfold DetailedAttendanceRepository.get_student_attendance_stats.
  destruct so as [s|].
  - cbn [dict_get bind].
    destruct (DetailedAttendanceRepository.count_working_days _ _ _ _ _)
      as [w|] eqn:Hw; cbn [bind]; [|discriminate].
    destruct (DetailedAttendanceRepository.synthesize_history _ _ _ _ _ _ _ _)
      as [h|] eqn:Hh; cbn [bind]; [|discriminate].
    intros H. injection H as <-.
    cbn [st_start_date st_end_date]. rewrite Hw. cbn [bind]. rewrite Hh.
    reflexivity.
  - destruct (SettingsRepository.get_academic_year_dates db today)
      as [[cs ce]|]; cbn [dict_get bind]; [|discriminate].
    destruct (DetailedAttendanceRepository.count_working_days _ _ _ _ _)
      as [w|] eqn:Hw; cbn [bind]; [|discriminate].
    destruct (DetailedAttendanceRepository.synthesize_history _ _ _ _ _ _ _ _)
      as [h|] eqn:Hh; cbn [bind]; [|discriminate].
    intros H. injection H as <-.
    cbn [st_start_date st_end_date]. rewrite Hw. cbn [bind]. rewrite Hh.
    reflexivity.
Qed.

(** For an explicit range away from the ends of the calendar there is a
    result. *)
Lemma stats_total (db : Db) (today : date) (student_id : Z) (s e : date) :
  date_min < s -> e < date_max ->
  is_ok (DetailedAttendanceRepository.get_student_attendance_stats
           db today student_id (Some s) (Some e)) = true.
Proof.
  intros Hs He.
  unfold DetailedAttendanceRepository.get_student_attendance_stats.
  cbn [dict_get bind].
  match goal with
  | |- context [DetailedAttendanceRepository.count_working_days ?f ?c ?e' ?h ?t] =>
      pose proof (count_working_days_total f c e' h t) as Hw;
      destruct (DetailedAttendanceRepository.count_working_days f c e' h t)
        as [w|]
  end.
  2:{ apply Hw; unfold DetailedAttendanceRepository.loop_fuel, date_min in *;
      lia. }
  cbn [bind].
  match goal with
  | |- context [DetailedAttendanceRepository.synthesize_history
                  ?f ?c ?s' ?t ?i ?h ?r ?a] =>
      pose proof (synthesize_history_total f c s' t i h r a) as Hh;
      destruct (DetailedAttendanceRepository.synthesize_history
                  f c s' t i h r a) as [hist|]
  end.
  2:{ apply Hh; unfold DetailedAttendanceRepository.loop_fuel, date_max in *;
      lia. }
  reflexivity.
Qed.


(** ** Statistics engine: a week with one holiday *)










(** ** Statistics engine: the history *)

Lemma in_history_entries (today : date) (student_id : Z)
    (holiday_dates : list date)
    (records_by_date : list (date * AttendanceRecord.t)) (d : date)
    (x : history_entry) :
  In x (history_entries today student_id holiday_dates records_by_date d) <->
  is_working_day holiday_dates d = true
  /\ ((exists r, dict_find d records_by_date = Some r /\ x = RealRecord r)
      \/ (dict_find d records_by_date = None /\ d <= today
          /\ x = VirtualRecord
                   (mk_virtual student_id d AttendanceStatus.ABSENT
                               None None))).
Proof.
  unfold history_entries.
  destruct (is_working_day holiday_dates d); cbn [In].
  2:{ split; [tauto|]. intros [H _]. discriminate. }
  destruct (dict_find d records_by_date) as [r|].
  - cbn [In]. split.
    + intros [<-|[]]. split; [reflexivity|]. left. eauto.
    + intros [_ [[r' [E ->]]|[E _]]]; [|discriminate].
      injection E as ->. now left.
  - destruct (d <=? today) eqn:Hle; cbn [In].
    + apply Z.leb_le in Hle. split.
      * intros [<-|[]]. split; [reflexivity|]. right. auto.
      * intros [_ [[r' [E _]]|[_ [_ ->]]]]; [discriminate|now left].
    + apply Z.leb_gt in Hle. split; [tauto|].
      intros [_ [[r' [E _]]|[_ [H _]]]]; [discriminate|lia].
Qed.



Lemma in_stats_range (s e d : date) :
  In d (dates_down e (Z.to_nat (e - s + 1))) <-> s <= d <= e.
Proof. rewrite in_dates_down. lia. Qed.






(** ** Holiday calendar: bulk import *)


Lemma c_int_small (n : Z) :
  -2147483648 <= n <= 2147483647 -> c_int n = Ok n.
Proof.
  intros H. unfold c_int.
  replace ((n <? -9223372036854775808) || (9223372036854775807 <? n))
    with false
    by (symmetry; apply orb_false_iff; rewrite !Z.ltb_ge; lia).
  replace (2147483647 <? n) with false by (symmetry; apply Z.ltb_ge; lia).
  replace (n <? -2147483648) with false by (symmetry; apply Z.ltb_ge; lia).
  reflexivity.
Qed.

Lemma c_int_raises (n : Z) (e : exn) :
  c_int n = Raise e -> exists msg, e = OverflowError msg.
Proof.
  unfold c_int.
  repeat match goal with
         | |- context [if ?c then _ else _] => destruct c
         end; intros H; try discriminate; injection H as <-; eauto.
Qed.



Lemma length_filter_andb {A : Type} (p q : A -> bool) (l : list A) :
  (List.length (filter (fun x => p x && q x) l)
   <= List.length (filter p l))%nat.
Proof.
  induction l as [|a l IH]; cbn [filter]; [lia|].
  destruct (p a), (q a); cbn [andb List.length]; lia.
Qed.

Lemma get_by_date_defined (db : Db) (d : date) :
  NoDup (map Holiday.date_ (holidays db)) ->
  exists o, HolidayRepository.get_by_date db d = Ok o.
Proof.
  intros Hnd. unfold HolidayRepository.get_by_date.
  rewrite scalar_one_or_none_ok; [eauto|].
  pose proof (length_filter_andb (fun h => Holiday.date_ h =? d)
                (fun h => Bool.eqb (Holiday.is_active h) true) (holidays db)).
  pose proof (length_filter_key Holiday.date_ d (holidays db) Hnd). lia.
Qed.

Lemma holiday_create_wf (db : Db) (data : holiday_data) (admin_id : Z)
    (h : Holiday.t) (db' : Db) :
  holidays_wf db ->
  HolidayRepository.create db data admin_id = Ok (h, db') ->
  holidays_wf db' /\ holidays db' = holidays db ++ [h]
  /\ Holiday.date_ h = hd_date data /\ Holiday.name h = hd_name data
  /\ Holiday.is_active h = true.
Proof.
  intros [Hid Hdate]. unfold HolidayRepository.create.
  destruct (HolidayRepository.uq_date _ _) eqn:Huq; [|discriminate].
  intros H. injection H as <- <-. unfold holidays_wf.
  cbn [holidays with_holidays Holiday.date_ Holiday.name Holiday.is_active].
  split; [|auto]. split.
  - rewrite map_app. cbn [map Holiday.id].
    apply NoDup_app_fresh; [exact Hid|]. apply next_id_fresh.
  - rewrite map_app. cbn [map Holiday.date_].
    apply NoDup_app_fresh; [exact Hdate|].
    intros Hin. apply in_map_iff in Hin. destruct Hin as [x [Hx Hin]].
    unfold HolidayRepository.uq_date in Huq. apply negb_true_iff in Huq.
    assert (Hex : existsb
              (fun h0 =>
                 negb (Holiday.id h0
                       =? next_id Holiday.id (holidays db))
                 && (Holiday.date_ h0 =? hd_date data)) (holidays db) = true).
    { apply existsb_exists. exists x. split; [assumption|].
      rewrite Hx, Z.eqb_refl, andb_true_r. apply negb_true_iff.
      apply Z.eqb_neq. pose proof (next_id_above Holiday.id _ x Hin). lia. }
    apply (eq_true_false_abs _ Hex). exact Huq.
Qed.




Lemma no_holiday_on (db : Db) (d : date) :
  (forall h, In h (holidays db) -> Holiday.date_ h <> d) ->
  HolidayRepository.get_by_date db d = Ok None
  /\ forall h, Holiday.date_ h = d ->
               HolidayRepository.uq_date h (holidays db) = true.
Proof.
  intros Hno. split.
  - unfold HolidayRepository.get_by_date.
    replace (filter _ (holidays db)) with (@nil Holiday.t); [reflexivity|].
    symmetry. apply filter_nil_iff. intros x Hx.
    apply Hno in Hx. apply Z.eqb_neq in Hx. now rewrite Hx.
  - intros h Hd. unfold HolidayRepository.uq_date. apply negb_true_iff.
    destruct (existsb _ _) eqn:Hex; [|reflexivity].
    apply existsb_exists in Hex. destruct Hex as [x [Hx Hc]].
    apply andb_true_iff in Hc. destruct Hc as [_ Hc].
    apply Z.eqb_eq in Hc. apply Hno in Hx. congruence.
Qed.

(** The example of the specification, in a calendar without a holiday on
    2025-01-01. *)
Lemma bulk_example (db : Db) (admin_id : Z) :
  (forall h, In h (holidays db) -> Holiday.date_ h <> 739252) ->
  AttendanceService.bulk_create_holidays db admin_id example_text 2025
  = Ok (mk_bulk_result
          [mk_created "2025-01-01" "New Year"] 1
          ["Line 2: Invalid date - day is out of range for month"] 1,
        with_holidays
          (holidays db ++
           [Holiday.mk (next_id Holiday.id (holidays db)) 739252 "New Year"
              None "GENERAL" true true (Some admin_id)])
          db).
Proof.
  intros Hno. destruct (no_holiday_on db 739252 Hno) as [Hget Huq].
  unfold AttendanceService.bulk_create_holidays.
  replace (split_lines (strip example_text))
    with ["Jan 1" ++ String TAB "Wednesday" ++ String TAB "New Year";
          "Feb 30" ++ String TAB "Friday" ++ String TAB "Bad"]%string
    by (vm_compute; reflexivity).
  cbn [AttendanceService.bulk_lines].
  assert (H1 : AttendanceService.bulk_line admin_id 2025
                 (AttendanceService.mk_bulk_state db [] []) 1
                 ("Jan 1" ++ String TAB "Wednesday" ++ String TAB "New Year")
               = Ok (AttendanceService.mk_bulk_state
                       (with_holidays
                          (holidays db ++
                           [Holiday.mk (next_id Holiday.id (holidays db))
                              739252 "New Year" None "GENERAL" true true
                              (Some admin_id)])
                          db)
                       [mk_created "2025-01-01" "New Year"] [])).
  { cbv beta iota zeta delta -[HolidayRepository.get_by_date
                                 HolidayRepository.create].
    rewrite Hget. cbv beta iota.
    unfold HolidayRepository.create.
    cbn [hd_date hd_name hd_description hd_holiday_type hd_is_recurring
         dict_get].
    rewrite Huq by reflexivity. reflexivity. }
  rewrite H1. cbn [bind].
  assert (H2 : forall s,
             AttendanceService.bulk_line admin_id 2025 s (1 + 1)
               ("Feb 30" ++ String TAB "Friday" ++ String TAB "Bad")
             = Ok (AttendanceService.add_error s 2
                     "Invalid date - day is out of range for month")).
  { intros s. reflexivity. }
  rewrite H2. reflexivity.
Qed.

(** C9 fails on a day number or a year beyond a C int: [date(...)] then
    raises OverflowError, which [except ValueError] does not catch, and the
    whole batch is aborted instead of the line being reported.  In the text
    "Jan 1\tWednesday\tNew Year\nJan 99999999999\tFriday\tBad" with year
    2025 the second line aborts the import, so that no result is returned
    for the first line either; with year 2147483648 the first line of the
    specification's example does. *)
Theorem bulk_import_aborted_by_overflow :
  let db := mk_db [] [] [] [] [] [] [] [] in
  AttendanceService.bulk_create_holidays db 1 overflow_text 2025
  = Raise (OverflowError "signed integer is greater than maximum")
  /\ AttendanceService.bulk_line 1 2025
       (AttendanceService.mk_bulk_state db [] []) 2
       ("Jan 99999999999" ++ String TAB "Friday" ++ String TAB "Bad")
     = Raise (OverflowError "signed integer is greater than maximum")
  /\ AttendanceService.bulk_create_holidays db 1 example_text 2147483648
     = Raise (OverflowError "signed integer is greater than maximum").
Proof.
  intros db. split; [vm_compute; reflexivity|].
  split; vm_compute; reflexivity.
Qed.




(** ** The pre-check *)

Lemma get_by_date_eq (db : Db) (d : date) :
  HolidayRepository.get_by_date db d
  = scalar_one_or_none
      (filter (fun h => (Holiday.date_ h =? d)
                        && Bool.eqb (Holiday.is_active h) true)
              (holidays db)).
Proof. reflexivity. Qed.

Lemma get_by_date_unique (db : Db) (d : date) :
  NoDup (map Holiday.date_ (holidays db)) ->
  HolidayRepository.get_by_date db d
  = Ok (List.hd_error
          (filter (fun h => (Holiday.date_ h =? d)
                            && Bool.eqb (Holiday.is_active h) true)
                  (holidays db))).
Proof.
  intros Hnd. rewrite get_by_date_eq. apply scalar_one_or_none_ok.
  eapply Nat.le_trans; [apply length_filter_andb|].
  now apply length_filter_key.
Qed.

Lemma get_by_date_none_iff (db : Db) (d : date) :
  List.hd_error
    (filter (fun h => (Holiday.date_ h =? d)
                      && Bool.eqb (Holiday.is_active h) true)
            (holidays db)) = None
  <-> is_active_holiday db d = false.
Proof.
  unfold is_active_holiday. split.
  - intros H. apply hd_error_nil in H.
    apply not_true_is_false. intros Hex. apply existsb_exists in Hex.
    destruct Hex as (h & Hin & Hh).
    rewrite filter_nil_iff in H. specialize (H h Hin).
    destruct (Holiday.is_active h); simpl in *; congruence.
  - intros H.
    destruct (filter _ _) as [|h t] eqn:Hf; [reflexivity|exfalso].
    assert (Hin : In h (filter (fun h => (Holiday.date_ h =? d)
                      && Bool.eqb (Holiday.is_active h) true) (holidays db)))
      by (rewrite Hf; now left).
    apply filter_In in Hin. destruct Hin as [Hin Hh].
    assert (existsb (fun h => (Holiday.date_ h =? d) && Holiday.is_active h)
                    (holidays db) = true).
    { apply existsb_exists. exists h. split; [exact Hin|].
      destruct (Holiday.is_active h); simpl in *; congruence. }
    congruence.
Qed.

Lemma hd_error_filter_some {A : Type} (p : A -> bool) (l : list A) (x : A) :
  List.hd_error (filter p l) = Some x -> In x l /\ p x = true.
Proof.
  intros H. apply hd_error_in in H. now apply filter_In in H.
Qed.

Lemma hd_error_filter_none {A : Type} (p : A -> bool) (l : list A) :
  List.hd_error (filter p l) = None -> forall x, In x l -> p x = false.
Proof.
  intros H. apply hd_error_nil in H. now apply filter_nil_iff.
Qed.

Lemma precheck_lookups (db : Db) (now : datetime) (student : User.t) :
  lookups_unique db now student ->
  HolidayRepository.get_by_date db (dt_date now)
  = Ok (List.hd_error
          (filter (fun h => (Holiday.date_ h =? dt_date now)
                            && Bool.eqb (Holiday.is_active h) true)
                  (holidays db)))
  /\ ProfilePhotoRepository.get_approved_photo_for_student db (User.id student)
     = Ok (List.hd_error (filter (approved_photo_of (User.id student))
                                 (profile_photos db)))
  /\ AttendanceRecordRepository.get_student_record_for_date
       db (User.id student) (dt_date now)
     = Ok (List.hd_error (filter (record_of (User.id student) (dt_date now))
                                 (attendance_records db)))
  /\ GeofenceRepository.get_primary_active_geofence db
     = Ok (List.hd_error (filter primary_active (campus_geofences db))).
Proof.
  intros (Hh & Hp & Hr & Hg).
  split; [now apply get_by_date_unique|].
  split; [rewrite get_approved_photo_for_student_eq;
          now apply scalar_one_or_none_ok|].
  split; [rewrite get_student_record_for_date_eq;
          now apply scalar_one_or_none_ok|].
  rewrite get_primary_active_geofence_eq. now apply scalar_one_or_none_ok.
Qed.

Lemma if_app_nil {A : Type} (c : bool) (l : list A) (x : A) :
  (if c then l ++ [x] else l) = [] <-> c = false /\ l = [].
Proof.
  destruct c; split.
  - intros H. now apply app_eq_nil in H.
  - intros [H _]. discriminate.
  - auto.
  - now intros [_ H].
Qed.

Lemma none_app_nil {A B : Type} (o : option B) (l : list A) (x : A) :
  match o with None => l ++ [x] | Some _ => l end = []
  <-> o <> None /\ l = [].
Proof.
  destruct o; split.
  - intros H. split; [discriminate|exact H].
  - now intros [_ H].
  - intros H. now apply app_eq_nil in H.
  - intros [H _]. congruence.
Qed.

Lemma some_app_nil {A B : Type} (o : option B) (l : list A) (f : B -> A) :
  match o with Some h => l ++ [f h] | None => l end = []
  <-> o = None /\ l = [].
Proof.
  destruct o; split.
  - intros H. now apply app_eq_nil in H.
  - intros [H _]. discriminate.
  - auto.
  - now intros [_ H].
Qed.

(** X1: the pre-check returns whenever its lookups are unambiguous, and it
    allows marking exactly when no blocker is listed, that is when today is
    not a Sunday and not an active holiday, the student has an APPROVED
    photo, an attendance window is open, the student is not PRESENT yet,
    fewer than five attempts were made today and a primary active geofence
    exists. *)
Theorem precheck_can_mark_iff (db : Db) (now : datetime) (student : User.t) :
  lookups_unique db now student ->
  exists pre,
    AttendanceService.check_attendance_prerequisites db now student = Ok pre
    /\ (can_mark pre = true <-> blockers pre = [])
    /\ (profile_approved pre = true <->
        exists p, In p (profile_photos db)
                  /\ approved_photo_of (User.id student) p = true)
    /\ within_time_window pre
       = time_window_check db (User.student_category student)
                           (dt_time now) (weekday (dt_date now))
    /\ (already_marked_today pre = true <->
        present_on_date db (User.id student) (dt_date now))
    /\ (can_mark pre = true <->
        weekday (dt_date now) <> 6
        /\ is_active_holiday db (dt_date now) = false
        /\ profile_approved pre = true
        /\ within_time_window pre = true
        /\ already_marked_today pre = false
        /\ AttendanceAttemptRepository.count_today_attempts
             db now (User.id student) < AttendanceService.MAX_DAILY_ATTEMPTS
        /\ exists g, In g (campus_geofences db) /\ primary_active g = true).
Proof.
  intros Hu.
  destruct (precheck_lookups db now student Hu) as (Hh & Hp & Hr & Hg).
  destruct Hu as (_ & _ & Hrec & _).
  unfold AttendanceService.check_attendance_prerequisites.
  rewrite Hh, Hp, Hr, Hg. cbn [bind].
  eexists. split; [reflexivity|].
  cbn [can_mark blockers profile_approved within_time_window
       already_marked_today].
  split; [now rewrite Nat.eqb_eq, length_zero_iff_nil|].
  split.
  { destruct (List.hd_error (filter (approved_photo_of _) _)) as [p|] eqn:E.
    - split; [intros _|reflexivity]. exists p.
      now apply hd_error_filter_some in E.
    - split; [discriminate|]. intros (p & Hin & Hap).
      rewrite (hd_error_filter_none _ _ E p Hin) in Hap. discriminate. }
  split; [reflexivity|].
  assert (Hmarked :
    match List.hd_error (filter (record_of (User.id student) (dt_date now))
                                (attendance_records db)) with
    | Some existing_record =>
        AttendanceStatus.eqb (AttendanceRecord.status existing_record)
                             AttendanceStatus.PRESENT
    | None => false
    end = true <-> present_on_date db (User.id student) (dt_date now)).
  { unfold present_on_date.
    destruct (List.hd_error (filter (record_of _ _) _)) as [r|] eqn:E.
    - pose proof (hd_error_single _ _ Hrec E) as Hone.
      apply hd_error_filter_some in E. destruct E as [Hin Hrec_r].
      split.
      + intros Hs. exists r. repeat split; auto.
        destruct (AttendanceRecord.status r); now try discriminate.
      + intros (r' & Hin' & Hr' & Hs').
        assert (In r' [r]) as [<-|[]]
          by (rewrite <- Hone; apply filter_In; auto).
        now rewrite Hs'.
    - split; [discriminate|]. intros (r' & Hin' & Hr' & _).
      rewrite (hd_error_filter_none _ _ E r' Hin') in Hr'. discriminate. }
  split; [exact Hmarked|].
  rewrite Nat.eqb_eq, length_zero_iff_nil.
  rewrite none_app_nil, !if_app_nil, some_app_nil, if_app_nil.
  rewrite get_by_date_none_iff, Z.leb_gt, !negb_false_iff, Z.eqb_neq.
  assert (Hgeo :
    List.hd_error (filter primary_active (campus_geofences db)) <> None
    <-> exists g, In g (campus_geofences db) /\ primary_active g = true).
  { destruct (List.hd_error (filter primary_active _)) as [g|] eqn:E.
    - split; [intros _|discriminate]. exists g.
      now apply hd_error_filter_some in E.
    - split; [congruence|]. intros (g & Hin & Hpa).
      rewrite (hd_error_filter_none _ _ E g Hin) in Hpa. discriminate. }
  rewrite Hgeo. tauto.
Qed.

Lemma precheck_can_mark_iff_witness :
  exists pre,
    AttendanceService.check_attendance_prerequisites
      campus_db wednesday_0915 student7 = Ok pre
    /\ can_mark pre = true /\ blockers pre = [].
Proof.
  assert (Hu : lookups_unique campus_db wednesday_0915 student7).
  { repeat split; simpl; try lia; constructor. }
  destruct (precheck_can_mark_iff campus_db wednesday_0915 student7 Hu)
    as (pre & Hpre & Hnil & _).
  exists pre. split; [exact Hpre|].
  assert (Hc : can_mark pre = true).
  { vm_compute in Hpre. injection Hpre as <-. reflexivity. }
  split; [exact Hc|]. now apply Hnil.
Defined.


(** ** The marking endpoint *)

Lemma mark_attendance_success_record (face_service : FaceRecognitionService)
    (math : Libm) (db : Db) (now : datetime) (student : User.t)
    (location : LocationData) (image_file : UploadFile)
    (res : AttendanceMarkResult) (db' : Db) :
  AttendanceService.mark_attendance face_service math db now student
                                    location image_file = Ok (res, db') ->
  mr_success res = true ->
  exists r,
    In r (attendance_records db')
    /\ record_of (User.id student) (dt_date now) r = true
    /\ AttendanceRecord.status r = AttendanceStatus.PRESENT
    /\ AttendanceRecord.marked_at r = Some now
    /\ AttendanceRecord.face_match_confidence r = mr_face_match_score res.
Proof.
  unfold AttendanceService.mark_attendance,
    AttendanceAttemptRepository.create,
    AttendanceRecordRepository.update, AttendanceRecordRepository.create.
  cbn [bind].
  repeat pipeline_step; intros H; try discriminate;
    injection H as <- <-; cbn [mr_success mr_face_match_score];
    intros Hs; try discriminate.
  all: match goal with
       | H : AttendanceRecordRepository.get_student_record_for_date _ _ _
             = Ok (Some ?e) |- _ =>
           rewrite get_student_record_for_date_eq in H;
           apply in_scalar_filter in H; destruct H as (Hin & Hrec & _);
           cbn [attendance_records with_attendance_attempts with_files] in Hin
       | _ => idtac
       end.
  all: eexists; cbn [attendance_records with_attendance_records].
  all: first
    [ split;
      [ apply in_replace_row; left; split; [reflexivity|];
        cbn [AttendanceRecord.id]; now apply in_map
      | split; [exact Hrec|]; repeat split ]
    | split;
      [ apply in_or_app; right; left; reflexivity
      | unfold record_of, AttendanceRecord.set_id;
        cbn [AttendanceRecord.student_id AttendanceRecord.attendance_date
             AttendanceRecord.status AttendanceRecord.marked_at
             AttendanceRecord.face_match_confidence];
        rewrite !Z.eqb_refl; repeat split ] ].
Qed.

Lemma if_single_nil {A : Type} (c : bool) (x : A) :
  (if c then [x] else []) = [] <-> c = false.
Proof. destruct c; split; congruence. Qed.

Lemma precheck_allows (db : Db) (now : datetime) (student : User.t)
    (pre : AttendancePreCheckOut) :
  AttendanceService.check_attendance_prerequisites db now student = Ok pre ->
  can_mark pre = true ->
  weekday (dt_date now) <> 6
  /\ is_active_holiday db (dt_date now) = false
  /\ (exists p, In p (profile_photos db)
                /\ approved_photo_of (User.id student) p = true)
  /\ time_window_check db (User.student_category student) (dt_time now)
                       (weekday (dt_date now)) = true
  /\ ~ present_on_date db (User.id student) (dt_date now)
  /\ AttendanceAttemptRepository.count_today_attempts
       db now (User.id student) < AttendanceService.MAX_DAILY_ATTEMPTS
  /\ exists g, In g (campus_geofences db) /\ primary_active g = true.
Proof.
  unfold AttendanceService.check_attendance_prerequisites, time_window_check.
  destruct (HolidayRepository.get_by_date db (dt_date now))
    as [ho|] eqn:Hh; [|discriminate].
  destruct (ProfilePhotoRepository.get_approved_photo_for_student _ _)
    as [po|] eqn:Hp; [|discriminate].
  destruct (AttendanceRecordRepository.get_student_record_for_date _ _ _)
    as [ro|] eqn:Hr; [|discriminate].
  destruct (GeofenceRepository.get_primary_active_geofence db)
    as [go|] eqn:Hg; [|discriminate].
  cbn [bind]. intros H. injection H as <-. cbn [can_mark].
  rewrite Nat.eqb_eq, length_zero_iff_nil.
  rewrite none_app_nil, !if_app_nil, some_app_nil, if_single_nil.
  rewrite Z.leb_gt, !negb_false_iff, Z.eqb_neq.
  intros (Hgo & Hcap & Hro & Hwin & Hpo & Hho & Hsun).
  split; [exact Hsun|].
  split.
  { subst ho. rewrite get_by_date_eq in Hh.
    apply scalar_one_or_none_none in Hh. apply get_by_date_none_iff.
    now rewrite Hh. }
  split.
  { destruct po as [p|]; [|discriminate].
    rewrite get_approved_photo_for_student_eq in Hp.
    apply in_scalar_filter in Hp. exists p. tauto. }
  split; [exact Hwin|].
  split.
  { intros (r & Hin & Hrec & Hst).
    rewrite get_student_record_for_date_eq in Hr.
    assert (Hf : In r (filter (record_of (User.id student) (dt_date now))
                              (attendance_records db)))
      by (apply filter_In; auto).
    destruct ro as [e|].
    - apply in_scalar_filter in Hr. destruct Hr as (_ & _ & Hone).
      rewrite Hone in Hf. destruct Hf as [<-|[]].
      rewrite Hst in Hro. discriminate.
    - apply scalar_one_or_none_none in Hr. now rewrite Hr in Hf. }
  split; [exact Hcap|].
  destruct go as [g|]; [|congruence].
  rewrite get_primary_active_geofence_eq in Hg.
  apply in_scalar_filter in Hg. exists g. tauto.
Qed.

Lemma router_mark_ok (face_service : FaceRecognitionService)
    (math : Libm) (db : Db) (now : datetime) (file : UploadFile)
    (lat lon acc : float) (student : User.t)
    (res : AttendanceMarkResult) (db' : Db) :
  AttendanceRouter.mark_attendance face_service math db now file lat lon acc
                                   student = Ok (res, db') ->
  (exists ct, uf_content_type file = Some ct
              /\ starts_with (list_ascii_of_string "image/")
                             (list_ascii_of_string ct) = true)
  /\ exists location pre,
       LocationData_validate lat lon acc = Ok location
       /\ AttendanceService.check_attendance_prerequisites db now student
          = Ok pre
       /\ can_mark pre = true
       /\ AttendanceService.mark_attendance face_service math db now student
            location file = Ok (res, db').
Proof.
  unfold AttendanceRouter.mark_attendance.
  destruct (uf_content_type file) as [ct|]; [|discriminate].
  destruct ((String.length ct =? 0)%nat
            || negb (starts_with (list_ascii_of_string "image/")
                                 (list_ascii_of_string ct))) eqn:Ect;
    [discriminate|].
  apply orb_false_iff in Ect. destruct Ect as [_ Ect].
  apply negb_false_iff in Ect.
  destruct (LocationData_validate lat lon acc) as [location|] eqn:Hl;
    [|discriminate].
  destruct (AttendanceService.check_attendance_prerequisites db now student)
    as [pre|] eqn:Hpre; [|discriminate].
  cbn [bind]. destruct (can_mark pre) eqn:Hc; [|discriminate].
  cbn [negb]. intros H.
  split; [exists ct; auto|]. exists location, pre. auto.
Qed.

(** X2: whatever the marking endpoint returns as a result was produced on
    a day that is neither a Sunday nor an active holiday, inside an open
    window, for a student with an APPROVED photo who was not PRESENT yet and
    had made fewer than five attempts that day, from a file declared as an
    image; the call logged exactly one attempt, so the day's count stays
    within the limit, and a successful result leaves the student PRESENT for
    the day with [marked_at] the time of the call, while a failed one leaves
    the attendance records untouched. *)
Theorem endpoint_result_means_allowed (face_service : FaceRecognitionService)
    (math : Libm) (db : Db) (now : datetime) (file : UploadFile)
    (lat lon acc : float) (student : User.t)
    (res : AttendanceMarkResult) (db' : Db) :
  time_valid (dt_time now) ->
  AttendanceRouter.mark_attendance face_service math db now file lat lon acc
                                   student = Ok (res, db') ->
  (exists ct, uf_content_type file = Some ct
              /\ starts_with (list_ascii_of_string "image/")
                             (list_ascii_of_string ct) = true)
  /\ weekday (dt_date now) <> 6
  /\ is_active_holiday db (dt_date now) = false
  /\ time_window_check db (User.student_category student) (dt_time now)
                       (weekday (dt_date now)) = true
  /\ (exists p, In p (profile_photos db)
                /\ approved_photo_of (User.id student) p = true)
  /\ ~ present_on_date db (User.id student) (dt_date now)
  /\ (exists a,
         attendance_attempts db' = attendance_attempts db ++ [a]
         /\ AttendanceAttempt.student_id a = User.id student
         /\ AttendanceAttempt.attempted_at a = now
         /\ AttendanceAttempt.success a = mr_success res)
  /\ AttendanceAttemptRepository.count_today_attempts
       db' now (User.id student) <= AttendanceService.MAX_DAILY_ATTEMPTS
  /\ (mr_success res = true ->
      exists r, In r (attendance_records db')
                /\ record_of (User.id student) (dt_date now) r = true
                /\ AttendanceRecord.status r = AttendanceStatus.PRESENT
                /\ AttendanceRecord.marked_at r = Some now)
  /\ (mr_success res = false ->
      attendance_records db' = attendance_records db).
Proof.
  intros Hnow Hcall.
  destruct (router_mark_ok _ _ _ _ _ _ _ _ _ _ _ Hcall)
    as (Hct & location & pre & _ & Hpre & Hcan & Hmark).
  destruct (precheck_allows _ _ _ _ Hpre Hcan)
    as (Hsun & Hhol & Hphoto & Hwin & Hnot & Hcap & _).
  destruct (mark_attendance_logs_once _ _ _ _ _ _ _ _ _ Hmark)
    as (a & Happ & Hsid & Hat & Hsucc & _ & Hfail).
  split; [exact Hct|]. split; [exact Hsun|]. split; [exact Hhol|].
  split; [exact Hwin|]. split; [exact Hphoto|]. split; [exact Hnot|].
  split; [exists a; auto|].
  split.
  { rewrite <- Hsid.
    rewrite (count_today_attempts_succ db db' now a Hnow Happ Hat).
    rewrite Hsid. lia. }
  split.
  - intros Hs.
    destruct (mark_attendance_success_record _ _ _ _ _ _ _ _ _ Hmark Hs)
      as (r & Hin & Hrec & Hst & Hm & _).
    exists r. auto.
  - intros Hs. now apply Hfail.
Qed.

Lemma endpoint_result_means_allowed_witness :
  exists res db',
    AttendanceRouter.mark_attendance one_face_service flat_math campus_db
      wednesday_0915 selfie 13 80 5 student7 = Ok (res, db')
    /\ mr_success res = true
    /\ weekday (dt_date wednesday_0915) <> 6
    /\ exists r, In r (attendance_records db')
                 /\ AttendanceRecord.status r = AttendanceStatus.PRESENT.
Proof.
  destruct (AttendanceRouter.mark_attendance one_face_service flat_math
              campus_db wednesday_0915 selfie 13 80 5 student7)
    as [[res db']|e] eqn:Hcall; [|vm_compute in Hcall; discriminate].
  assert (Hnow : time_valid (dt_time wednesday_0915))
    by (unfold time_valid; simpl; lia).
  destruct (endpoint_result_means_allowed _ _ _ _ _ _ _ _ _ _ _ Hnow Hcall)
    as (_ & Hsun & _ & _ & _ & _ & _ & _ & Hok & _).
  assert (Hs : mr_success res = true).
  { vm_compute in Hcall. injection Hcall as <- _. reflexivity. }
  exists res, db'. split; [reflexivity|]. split; [exact Hs|].
  split; [exact Hsun|].
  destruct (Hok Hs) as (r & Hin & _ & Hst & _). exists r. auto.
Defined.


(** ** The holiday calendar *)

Lemma get_by_date_found (db : Db) (h : Holiday.t) :
  NoDup (map Holiday.date_ (holidays db)) ->
  In h (holidays db) -> Holiday.is_active h = true ->
  HolidayRepository.get_by_date db (Holiday.date_ h) = Ok (Some h).
Proof.
  intros Hnd Hin Hact. rewrite get_by_date_unique by exact Hnd.
  f_equal.
  destruct (List.hd_error _) as [x|] eqn:E.
  - apply hd_error_filter_some in E. destruct E as [Hx Hp].
    apply andb_true_iff in Hp. destruct Hp as [Hd _].
    apply Z.eqb_eq in Hd. f_equal.
    now apply (NoDup_map_eq Holiday.date_ (holidays db)).
  - pose proof (hd_error_filter_none _ _ E h Hin) as Hf.
    cbv beta in Hf. rewrite Z.eqb_refl, Hact in Hf. discriminate.
Qed.

Lemma get_by_id_found (db : Db) (h : Holiday.t) :
  NoDup (map Holiday.id (holidays db)) -> In h (holidays db) ->
  HolidayRepository.get_by_id db (Holiday.id h) = Ok (Some h).
Proof.
  intros Hnd Hin. unfold HolidayRepository.get_by_id.
  now rewrite (filter_key_unique Holiday.id _ _ Hnd Hin).
Qed.

Lemma uq_date_false (rows : list Holiday.t) (h x : Holiday.t) :
  In x rows -> Holiday.id x <> Holiday.id h ->
  Holiday.date_ x = Holiday.date_ h ->
  HolidayRepository.uq_date h rows = false.
Proof.
  intros Hin Hid Hd. unfold HolidayRepository.uq_date.
  apply negb_false_iff. apply existsb_exists. exists x.
  split; [exact Hin|].
  apply andb_true_iff. split.
  - apply negb_true_iff. now apply Z.eqb_neq.
  - now apply Z.eqb_eq.
Qed.

Lemma create_holiday_fresh (db : Db) (admin_id : Z) (data : holiday_data) :
  holidays_wf db ->
  (forall x, In x (holidays db) -> Holiday.date_ x <> hd_date data) ->
  exists h db',
    AttendanceService.create_holiday db admin_id data = Ok (h, db')
    /\ holidays db' = holidays db ++ [h]
    /\ Holiday.date_ h = hd_date data
    /\ Holiday.name h = hd_name data
    /\ Holiday.is_active h = true
    /\ Holiday.created_by h = Some admin_id
    /\ holidays_wf db'
    /\ HolidayRepository.get_by_date db' (hd_date data) = Ok (Some h)
    /\ HolidayRepository.get_by_id db' (Holiday.id h) = Ok (Some h).
Proof.
  intros Hwf Hfresh.
  destruct (no_holiday_on db (hd_date data) Hfresh) as [Hget Huq].
  unfold AttendanceService.create_holiday. rewrite Hget. cbn [bind].
  destruct (HolidayRepository.create db data admin_id)
    as [[h db']|e] eqn:Hc.
  - destruct (holiday_create_wf db data admin_id h db' Hwf Hc)
      as (Hwf' & Hrows & Hd & Hn & Ha).
    exists h, db'. split; [reflexivity|].
    assert (Hin : In h (holidays db'))
      by (rewrite Hrows; apply in_or_app; right; now left).
    split; [exact Hrows|]. split; [exact Hd|]. split; [exact Hn|].
    split; [exact Ha|].
    split.
    { unfold HolidayRepository.create in Hc.
      destruct (HolidayRepository.uq_date _ _); [|discriminate].
      injection Hc as <- _. reflexivity. }
    split; [exact Hwf'|].
    split.
    + rewrite <- Hd. apply get_by_date_found; auto. apply Hwf'.
    + apply get_by_id_found; auto. apply Hwf'.
  - exfalso. unfold HolidayRepository.create in Hc.
    rewrite Huq in Hc by reflexivity. discriminate.
Qed.

(** X3: creating a holiday on a date that has no row yet appends one
    active row carrying the request's date and name, keeps the table's keys
    unique, and makes the lookups by date and by id return that row; on a
    date that already has an active holiday nothing is created and the
    call raises the ValueError that names the date. *)
Theorem create_holiday_round_trip (db : Db) (admin_id : Z)
    (data : holiday_data) :
  holidays_wf db ->
  ((forall x, In x (holidays db) -> Holiday.date_ x <> hd_date data) ->
   exists h db',
     AttendanceService.create_holiday db admin_id data = Ok (h, db')
     /\ holidays db' = holidays db ++ [h]
     /\ Holiday.date_ h = hd_date data
     /\ Holiday.name h = hd_name data
     /\ Holiday.is_active h = true
     /\ Holiday.created_by h = Some admin_id
     /\ holidays_wf db'
     /\ HolidayRepository.get_by_date db' (hd_date data) = Ok (Some h)
     /\ HolidayRepository.get_by_id db' (Holiday.id h) = Ok (Some h))
  /\ (forall x, In x (holidays db) -> Holiday.date_ x = hd_date data ->
                Holiday.is_active x = true ->
                AttendanceService.create_holiday db admin_id data
                = Raise (ValueError
                           ("Holiday already exists for "
                            ++ date_isoformat (hd_date data))%string)).
Proof.
  intros Hwf. split.
  - now apply create_holiday_fresh.
  - intros x Hin Hd Ha.
    unfold AttendanceService.create_holiday. rewrite <- Hd.
    rewrite (get_by_date_found db x (proj2 Hwf) Hin Ha). reflexivity.
Qed.

Lemma create_holiday_round_trip_witness :
  let db := mk_db [] [] [] [] [] [] [] [] in
  let data := mk_holiday_data 739252 "New Year" None None None in
  exists h db',
    AttendanceService.create_holiday db 1 data = Ok (h, db')
    /\ HolidayRepository.get_by_date db' 739252 = Ok (Some h)
    /\ AttendanceService.create_holiday db' 1 data
       = Raise (ValueError "Holiday already exists for 2025-01-01").
Proof.
  intros db data.
  assert (Hwf : holidays_wf db) by (split; constructor).
  destruct (create_holiday_round_trip db 1 data Hwf) as [Hnew _].
  destruct Hnew as (h & db' & Hc & Hrows & Hd & _ & Ha & _ & Hwf' & Hget & _).
  { intros x []. }
  exists h, db'. split; [exact Hc|]. split; [exact Hget|].
  destruct (create_holiday_round_trip db' 1 data Hwf') as [_ Hdup].
  apply (Hdup h); [rewrite Hrows; now left|exact Hd|exact Ha].
Defined.

Lemma replace_row_same {A : Type} (id : A -> Z) (r : A) (l : list A) :
  NoDup (map id l) -> In r l -> replace_row id r l = l.
Proof.
  intros Hnd Hin. unfold replace_row.
  rewrite <- (map_id l) at 2. apply map_ext_in.
  intros x Hx. destruct (id x =? id r) eqn:E; [|reflexivity].
  apply Z.eqb_eq in E. symmetry.
  now apply (NoDup_map_eq id l).
Qed.

Lemma NoDup_map_filter {A : Type} (key : A -> Z) (p : A -> bool)
    (l : list A) :
  NoDup (map key l) -> NoDup (map key (filter p l)).
Proof.
  induction l as [|a l IH]; simpl; intros Hnd; [constructor|].
  inversion Hnd as [|? ? Hnotin Hnd']; subst.
  destruct (p a); simpl; [constructor|]; auto.
  intros Hin. apply Hnotin. apply in_map_iff in Hin.
  destruct Hin as (x & Hk & Hx). apply filter_In in Hx.
  apply in_map_iff. exists x. tauto.
Qed.

Lemma soft_delete_rows (db : Db) (h : Holiday.t) :
  holidays_wf db -> In h (holidays db) ->
  let rows := replace_row Holiday.id (Holiday.set_is_active false h)
                          (holidays db) in
  HolidayRepository.delete db (Holiday.id h)
  = Ok (true, with_holidays rows db)
  /\ In (Holiday.set_is_active false h) rows
  /\ holidays_wf (with_holidays rows db).
Proof.
  intros [Hid Hdate] Hin rows.
  assert (Hin' : In (Holiday.set_is_active false h) rows).
  { apply in_replace_row. left. split; [reflexivity|].
    cbn [Holiday.set_is_active Holiday.id]. now apply in_map. }
  split.
  { unfold HolidayRepository.delete.
    rewrite (filter_key_unique Holiday.id _ _ Hid Hin). reflexivity. }
  split; [exact Hin'|].
  split; cbn [holidays with_holidays]; unfold rows.
  - now rewrite map_id_replace_row.
  - unfold replace_row. rewrite map_map.
    erewrite map_ext_in; [exact Hdate|].
    intros x Hx. cbv beta.
    destruct (Holiday.id x =? Holiday.id (Holiday.set_is_active false h))
      eqn:E; [|reflexivity].
    apply Z.eqb_eq in E. cbn [Holiday.set_is_active Holiday.id] in E.
    rewrite (NoDup_map_eq Holiday.id _ x h Hid Hx Hin E). reflexivity.
Qed.

(** X4: a soft-deleted holiday keeps its date taken.  After
    [delete_holiday] the lookup by date finds nothing, so [create_holiday]
    for the same date goes on to the insert, and the insert violates the
    unique [date] column: the call raises an IntegrityError, which the admin
    endpoint does not turn into its 400 answer. *)
Theorem soft_deleted_date_stays_taken (db : Db) (h : Holiday.t)
    (admin : User.t) (data : HolidayCreate) :
  holidays_wf db -> In h (holidays db) -> hc_date data = Holiday.date_ h ->
  exists db',
    AttendanceService.delete_holiday db (Holiday.id h) = Ok (true, db')
    /\ HolidayRepository.get_by_date db' (Holiday.date_ h) = Ok None
    /\ AttendanceService.create_holiday db' (User.id admin)
         (HolidayCreate_model_dump data)
       = Raise (IntegrityError "holidays.date")
    /\ AdminAttendanceRouter.create_holiday db' data admin
       = Raise (IntegrityError "holidays.date").
Proof.
  intros Hwf Hin Hd.
  destruct (soft_delete_rows db h Hwf Hin) as (Hdel & Hin' & Hwf').
  eexists. split; [exact Hdel|].
  assert (Hget : HolidayRepository.get_by_date
                   (with_holidays
                      (replace_row Holiday.id (Holiday.set_is_active false h)
                                   (holidays db)) db) (Holiday.date_ h)
                 = Ok None).
  { rewrite get_by_date_eq. cbn [holidays with_holidays].
    replace (filter _ _) with (@nil Holiday.t); [reflexivity|].
    symmetry. apply filter_nil_iff. intros x Hx.
    destruct (Holiday.date_ x =? Holiday.date_ h) eqn:E; [|reflexivity].
    apply Z.eqb_eq in E.
    rewrite (soft_deleted_rows _ h x (proj2 Hwf) Hin Hx E). reflexivity. }
  split; [exact Hget|].
  assert (Hcreate :
    AttendanceService.create_holiday
      (with_holidays
         (replace_row Holiday.id (Holiday.set_is_active false h)
                      (holidays db)) db)
      (User.id admin) (HolidayCreate_model_dump data)
    = Raise (IntegrityError "holidays.date")).
  { unfold AttendanceService.create_holiday.
    cbn [HolidayCreate_model_dump hd_date]. rewrite Hd, Hget. cbn [bind].
    unfold HolidayRepository.create.
    rewrite (uq_date_false _ _ (Holiday.set_is_active false h));
      [reflexivity|exact Hin'| |].
    - cbn [Holiday.id holidays with_holidays].
      pose proof (next_id_above Holiday.id _ _ Hin'). lia.
    - cbn [Holiday.set_is_active Holiday.date_ hd_date
           HolidayCreate_model_dump]. now rewrite Hd. }
  split; [exact Hcreate|].
  unfold AdminAttendanceRouter.create_holiday. now rewrite Hcreate.
Qed.

Lemma soft_deleted_date_stays_taken_witness :
  let db := mk_db [] [] [] [] [] [new_year_2025] [] [] in
  exists db',
    AttendanceService.delete_holiday db 1 = Ok (true, db')
    /\ AttendanceService.create_holiday db' 1
         (mk_holiday_data 739252 "New Year" None (Some "GENERAL") (Some false))
       = Raise (IntegrityError "holidays.date").
Proof.
  intros db.
  assert (Hwf : holidays_wf db)
    by (split; repeat constructor; simpl; tauto).
  destruct (soft_deleted_date_stays_taken db new_year_2025 (User.mk 1 None)
              (mk_holiday_create 739252 "New Year" None "GENERAL" false) Hwf)
    as (db' & Hdel & _ & Hcreate & _); [now left|reflexivity|].
  exists db'. split; [exact Hdel|exact Hcreate].
Defined.

(** X5: [hard_delete] removes exactly the row with the given id and keeps
    the table's keys unique; afterwards the id is unknown and, unlike after
    the soft delete, a holiday can be created on the same date again.  For
    an id that no row has it answers [False] and changes nothing. *)
Theorem hard_delete_frees_the_date (db : Db) (h : Holiday.t)
    (admin_id : Z) (data : holiday_data) :
  holidays_wf db -> In h (holidays db) -> hd_date data = Holiday.date_ h ->
  (exists db',
      HolidayRepository.hard_delete db (Holiday.id h) = Ok (true, db')
      /\ (forall x, In x (holidays db') <-> In x (holidays db) /\ x <> h)
      /\ holidays_wf db'
      /\ HolidayRepository.get_by_id db' (Holiday.id h) = Ok None
      /\ exists h' db'',
           AttendanceService.create_holiday db' admin_id data = Ok (h', db'')
           /\ Holiday.date_ h' = Holiday.date_ h
           /\ Holiday.is_active h' = true
           /\ HolidayRepository.get_by_date db'' (Holiday.date_ h)
              = Ok (Some h'))
  /\ (forall k, ~ In k (map Holiday.id (holidays db)) ->
                HolidayRepository.hard_delete db k = Ok (false, db)).
Proof.
  intros Hwf Hin Hd. destruct Hwf as [Hid Hdate]. split.
  - eexists. split.
    { unfold HolidayRepository.hard_delete.
      rewrite (filter_key_unique Holiday.id _ _ Hid Hin). reflexivity. }
    cbn [holidays with_holidays].
    assert (Hrows : forall x,
               In x (filter (fun x => negb (Holiday.id x =? Holiday.id h))
                            (holidays db))
               <-> In x (holidays db) /\ x <> h).
    { intros x. rewrite filter_In, negb_true_iff, Z.eqb_neq. split.
      - intros [Hx Hne]. split; [exact Hx|]. congruence.
      - intros [Hx Hne]. split; [exact Hx|]. intros E. apply Hne.
        now apply (NoDup_map_eq Holiday.id (holidays db)). }
    split; [exact Hrows|].
    assert (Hwf' : holidays_wf
                     (with_holidays
                        (filter (fun x => negb (Holiday.id x =? Holiday.id h))
                                (holidays db)) db)).
    { split; cbn [holidays with_holidays]; now apply NoDup_map_filter. }
    split; [exact Hwf'|].
    split.
    { unfold HolidayRepository.get_by_id. cbn [holidays with_holidays].
      rewrite filter_key_absent; [reflexivity|].
      intros Hk. apply in_map_iff in Hk. destruct Hk as (x & Hk & Hx).
      apply filter_In in Hx. destruct Hx as [_ Hx].
      rewrite Hk, Z.eqb_refl in Hx. discriminate. }
    destruct (create_holiday_fresh _ admin_id data Hwf')
      as (h' & db'' & Hc & _ & Hd' & _ & Ha & _ & _ & Hget & _).
    { cbn [holidays with_holidays]. intros x Hx Hdx.
      apply Hrows in Hx. destruct Hx as [Hx Hne]. apply Hne.
      apply (NoDup_map_eq Holiday.date_ (holidays db)); auto. congruence. }
    exists h', db''. rewrite <- Hd. auto.
  - intros k Hk. unfold HolidayRepository.hard_delete.
    now rewrite (filter_key_absent Holiday.id _ _ Hk).
Qed.

Lemma hard_delete_frees_the_date_witness :
  let db := mk_db [] [] [] [] [] [new_year_2025] [] [] in
  exists db' h' db'',
    HolidayRepository.hard_delete db 1 = Ok (true, db')
    /\ holidays db' = []
    /\ AttendanceService.create_holiday db' 1
         (mk_holiday_data 739252 "New Year" None None None) = Ok (h', db'')
    /\ Holiday.is_active h' = true.
Proof.
  intros db.
  assert (Hwf : holidays_wf db)
    by (split; repeat constructor; simpl; tauto).
  destruct (hard_delete_frees_the_date db new_year_2025 1
              (mk_holiday_data 739252 "New Year" None None None) Hwf)
    as [(db' & Hdel & _ & _ & _ & h' & db'' & Hc & _ & Ha & _) _];
    [now left|reflexivity|].
  exists db', h', db''. split; [exact Hdel|].
  split; [|split; [exact Hc|exact Ha]].
  vm_compute in Hdel. injection Hdel as <-. reflexivity.
Defined.

(** X6: under the table's constraints [delete_holiday] always returns; it
    answers [True] exactly when a row has the id, changes nothing
    otherwise, and is idempotent: deleting again gives the same answer and
    the same table, because the row is still there.  The admin endpoint
    answers 404 exactly for an id that no row has, so never for a holiday
    that was deleted before. *)
Theorem delete_holiday_idempotent (db : Db) (k : Z) :
  holidays_wf db ->
  exists b db',
    AttendanceService.delete_holiday db k = Ok (b, db')
    /\ (b = true <-> In k (map Holiday.id (holidays db)))
    /\ (b = false -> db' = db)
    /\ holidays_wf db'
    /\ map Holiday.id (holidays db') = map Holiday.id (holidays db)
    /\ AttendanceService.delete_holiday db' k = Ok (b, db')
    /\ AdminAttendanceRouter.delete_holiday db k
       = (if b then Ok (true, "Holiday deleted", db')
          else Raise (HTTPException 404 "Holiday not found"))
    /\ AdminAttendanceRouter.delete_holiday db' k
       = AdminAttendanceRouter.delete_holiday db k.
Proof.
  intros Hwf.
  destruct (in_dec Z.eq_dec k (map Holiday.id (holidays db))) as [Hk|Hk].
  - apply in_map_iff in Hk. destruct Hk as (h & <- & Hin).
    destruct (soft_delete_rows db h Hwf Hin) as (Hdel & Hin' & Hwf').
    set (rows := replace_row Holiday.id (Holiday.set_is_active false h)
                             (holidays db)) in *.
    assert (Hagain : AttendanceService.delete_holiday
                       (with_holidays rows db) (Holiday.id h)
                     = Ok (true, with_holidays rows db)).
    { destruct (soft_delete_rows (with_holidays rows db)
                  (Holiday.set_is_active false h) Hwf' Hin')
        as (Hdel' & _ & _).
      unfold AttendanceService.delete_holiday.
      cbn [Holiday.set_is_active Holiday.id] in Hdel'. rewrite Hdel'.
      do 2 f_equal. cbn [holidays with_holidays].
      rewrite replace_row_same; [reflexivity| |exact Hin'].
      apply Hwf'. }
    exists true, (with_holidays rows db).
    split; [exact Hdel|].
    split; [split; [intros _; now apply in_map|reflexivity]|].
    split; [discriminate|]. split; [exact Hwf'|].
    split; [cbn [holidays with_holidays]; apply map_id_replace_row|].
    split; [exact Hagain|].
    unfold AdminAttendanceRouter.delete_holiday.
    rewrite Hagain. unfold AttendanceService.delete_holiday.
    rewrite Hdel. cbn [bind negb]. auto.
  - assert (Hdel : AttendanceService.delete_holiday db k = Ok (false, db)).
    { unfold AttendanceService.delete_holiday, HolidayRepository.delete.
      now rewrite (filter_key_absent Holiday.id _ _ Hk). }
    exists false, db. split; [exact Hdel|].
    split; [split; [discriminate|contradiction]|].
    split; [reflexivity|]. split; [exact Hwf|]. split; [reflexivity|].
    split; [exact Hdel|].
    unfold AdminAttendanceRouter.delete_holiday. rewrite Hdel.
    cbn [bind negb]. auto.
Qed.

Lemma delete_holiday_idempotent_witness :
  let db := mk_db [] [] [] [] [] [new_year_2025] [] [] in
  exists db',
    AttendanceService.delete_holiday db 1 = Ok (true, db')
    /\ AttendanceService.delete_holiday db' 1 = Ok (true, db')
    /\ AdminAttendanceRouter.delete_holiday db 2
       = Raise (HTTPException 404 "Holiday not found").
Proof.
  intros db.
  assert (Hwf : holidays_wf db)
    by (split; repeat constructor; simpl; tauto).
  destruct (delete_holiday_idempotent db 1 Hwf)
    as (b & db' & Hdel & Hb & _ & _ & _ & Hagain & _).
  assert (b = true) as -> by (apply Hb; now left).
  exists db'. split; [exact Hdel|]. split; [exact Hagain|].
  reflexivity.
Defined.


(** ** Ordered and paginated listings *)

Lemma insert_by_Permutation {A : Type} (le : A -> A -> bool) (x : A)
    (l : list A) :
  Permutation (insert_by le x l) (x :: l).
Proof.
  induction l as [|y l IH]; simpl; [reflexivity|].
  destruct (le x y); [reflexivity|].
  rewrite IH. apply perm_swap.
Qed.

Lemma order_by_Permutation {A : Type} (le : A -> A -> bool) (l : list A) :
  Permutation (order_by le l) l.
Proof.
  induction l as [|x l IH]; simpl; [reflexivity|].
  rewrite insert_by_Permutation. now constructor.
Qed.

Lemma insert_by_Sorted {A : Type} (le : A -> A -> bool) (x : A)
    (l : list A) :
  (forall a b, le a b = false -> le b a = true) ->
  Sorted (fun a b => le a b = true) l ->
  Sorted (fun a b => le a b = true) (insert_by le x l).
Proof.
  intros Htot. induction l as [|y l IH]; simpl; intros Hs.
  - repeat constructor.
  - destruct (le x y) eqn:E.
    + constructor; [exact Hs|]. now constructor.
    + inversion Hs as [|? ? Hs' Hhd]; subst.
      constructor; [now apply IH|].
      destruct l as [|z l]; simpl.
      * constructor. now apply Htot.
      * destruct (le x z); constructor; auto.
        now inversion Hhd.
Qed.

Lemma order_by_Sorted {A : Type} (le : A -> A -> bool) (l : list A) :
  (forall a b, le a b = false -> le b a = true) ->
  Sorted (fun a b => le a b = true) (order_by le l).
Proof.
  intros Htot. induction l as [|x l IH]; simpl; [constructor|].
  now apply insert_by_Sorted.
Qed.

Lemma order_by_key_ascending {A : Type} (key : A -> Z) (l : list A) :
  StronglySorted (fun a b => key a <= key b)
                 (order_by (fun a b => key a <=? key b) l).
Proof.
  apply Sorted_StronglySorted; [intros a b c; lia|].
  eapply Sorted_ind with
    (P := fun l => Sorted (fun a b => key a <= key b) l);
    [constructor| |apply order_by_Sorted; intros a b; lia].
  intros a l' _ IH Hhd. constructor; [exact IH|].
  destruct Hhd as [|b l'' Hab]; constructor. now apply Z.leb_le.
Qed.

Lemma order_by_key_descending {A : Type} (key : A -> Z) (l : list A) :
  StronglySorted (fun a b => key b <= key a)
                 (order_by (fun a b => key b <=? key a) l).
Proof.
  apply Sorted_StronglySorted; [intros a b c; lia|].
  eapply Sorted_ind with
    (P := fun l => Sorted (fun a b => key b <= key a) l);
    [constructor| |apply order_by_Sorted; intros a b; lia].
  intros a l' _ IH Hhd. constructor; [exact IH|].
  destruct Hhd as [|b l'' Hab]; constructor. now apply Z.leb_le.
Qed.

Lemma StronglySorted_strict {A : Type} (key : A -> Z) (l : list A) :
  NoDup (map key l) ->
  StronglySorted (fun a b => key a <= key b) l ->
  StronglySorted (fun a b => key a < key b) l.
Proof.
  induction l as [|x l IH]; intros Hnd Hs; [constructor|].
  inversion Hnd as [|? ? Hnotin Hnd']; subst.
  inversion Hs as [|? ? Hs' Hall]; subst.
  constructor; [now apply IH|].
  rewrite Forall_forall in *. intros y Hy.
  specialize (Hall y Hy).
  assert (key x <> key y) by (intros E; apply Hnotin; rewrite E; now apply in_map).
  lia.
Qed.

Lemma StronglySorted_skipn {A : Type} (R : A -> A -> Prop) (n : nat)
    (l : list A) :
  StronglySorted R l -> StronglySorted R (skipn n l).
Proof.
  revert l. induction n as [|n IH]; intros l Hs; [exact Hs|].
  destruct l as [|x l]; [exact Hs|]. simpl. apply IH.
  now inversion Hs.
Qed.

Lemma StronglySorted_firstn {A : Type} (R : A -> A -> Prop) (n : nat)
    (l : list A) :
  StronglySorted R l -> StronglySorted R (firstn n l).
Proof.
  revert l. induction n as [|n IH]; intros l Hs; [constructor|].
  destruct l as [|x l]; [constructor|]. simpl.
  inversion Hs as [|? ? Hs' Hall]; subst.
  constructor; [now apply IH|].
  rewrite Forall_forall in *. intros y Hy. apply Hall.
  now apply in_firstn in Hy.
Qed.

Lemma NoDup_map_Permutation {A : Type} (key : A -> Z) (l l' : list A) :
  Permutation l l' -> NoDup (map key l') -> NoDup (map key l).
Proof.
  intros Hp Hnd. eapply Permutation_NoDup; [|exact Hnd].
  apply Permutation_map. now symmetry.
Qed.

(** X7: [get_holidays_in_range] lists exactly the active holidays whose
    date lies in the inclusive range, each once, in ascending date order
    (strictly ascending, since the date is unique), and the set of holiday
    dates the statistics use has one element per listed holiday. *)
Theorem holidays_in_range_sorted (db : Db) (s e : date) :
  Permutation (HolidayRepository.get_holidays_in_range db s e)
              (filter (holiday_in_range s e) (holidays db))
  /\ StronglySorted (fun a b => Holiday.date_ a <= Holiday.date_ b)
                    (HolidayRepository.get_holidays_in_range db s e)
  /\ (NoDup (map Holiday.date_ (holidays db)) ->
      StronglySorted (fun a b => Holiday.date_ a < Holiday.date_ b)
                     (HolidayRepository.get_holidays_in_range db s e)
      /\ HolidayRepository.get_holiday_dates_in_range db s e
         = map Holiday.date_ (HolidayRepository.get_holidays_in_range db s e))
  /\ (e < s -> HolidayRepository.get_holidays_in_range db s e = []).
Proof.
  unfold HolidayRepository.get_holiday_dates_in_range,
    HolidayRepository.get_holidays_in_range.
  split; [apply order_by_Permutation|].
  split; [apply order_by_key_ascending|].
  split.
  - intros Hnd.
    assert (Hnd' : NoDup (map Holiday.date_
                     (order_by (fun a b => Holiday.date_ a <=? Holiday.date_ b)
                        (filter (fun h => (s <=? Holiday.date_ h)
                                          && (Holiday.date_ h <=? e)
                                          && Bool.eqb (Holiday.is_active h) true)
                                (holidays db))))).
    { eapply NoDup_map_Permutation; [apply order_by_Permutation|].
      now apply NoDup_map_filter. }
    split.
    + apply StronglySorted_strict; [exact Hnd'|].
      apply order_by_key_ascending.
    + now apply nodup_fixed_point.
  - intros Hes.
    replace (filter _ (holidays db)) with (@nil Holiday.t); [reflexivity|].
    symmetry. apply filter_nil_iff. intros x _.
    destruct (s <=? Holiday.date_ x) eqn:E1; [|reflexivity].
    destruct (Holiday.date_ x <=? e) eqn:E2; [|reflexivity].
    apply Z.leb_le in E1, E2. lia.
Qed.

(** X8: the holiday listing of the service.  With both bounds it is the
    range query, uncapped, and [total] is the number of active holidays in
    the range; with one bound missing the other is ignored: the answer is
    that of the unfiltered listing, which holds the active holidays in
    descending date order and stops after 100 rows. *)
Theorem get_holidays_listing (db : Db) :
  (forall s e,
      AttendanceService.get_holidays db (Some s) (Some e)
      = (HolidayRepository.get_holidays_in_range db s e,
         len (filter (holiday_in_range s e) (holidays db))))
  /\ (forall s, AttendanceService.get_holidays db (Some s) None
                = AttendanceService.get_holidays db None None)
  /\ (forall e, AttendanceService.get_holidays db None (Some e)
                = AttendanceService.get_holidays db None None)
  /\ (let (listing, total) := AttendanceService.get_holidays db None None in
      total = len listing
      /\ total
         = Z.min 100
             (len (filter (fun h => Holiday.is_active h) (holidays db)))
      /\ (forall h, In h listing ->
                    In h (holidays db) /\ Holiday.is_active h = true)
      /\ StronglySorted (fun a b => Holiday.date_ b <= Holiday.date_ a)
                        listing
      /\ (len (filter (fun h => Holiday.is_active h) (holidays db)) <= 100 ->
          forall h, In h (holidays db) -> Holiday.is_active h = true ->
                    In h listing)).
Proof.
  split.
  { intros s e. unfold AttendanceService.get_holidays. f_equal.
    unfold len, HolidayRepository.get_holidays_in_range.
    now rewrite length_order_by. }
  split; [reflexivity|]. split; [reflexivity|].
  unfold AttendanceService.get_holidays, HolidayRepository.get_all_active,
    offset_limit.
  cbn [skipn].
  assert (Hf : filter (fun h => Bool.eqb (Holiday.is_active h) true)
                      (holidays db)
               = filter (fun h => Holiday.is_active h) (holidays db)).
  { apply filter_ext. intros h. now destruct (Holiday.is_active h). }
  rewrite Hf.
  split; [reflexivity|].
  split.
  { unfold len. rewrite length_firstn, length_order_by. lia. }
  split.
  { intros h Hh. apply in_firstn in Hh. apply in_order_by in Hh.
    now apply filter_In in Hh. }
  split.
  { apply StronglySorted_firstn. apply order_by_key_descending. }
  intros Hle h Hin Hact.
  rewrite firstn_all2.
  - apply in_order_by. apply filter_In. auto.
  - rewrite length_order_by. unfold len in Hle. lia.
Qed.


(** ** Geofences *)

Lemma geofence_get_by_id_found (db : Db) (g : CampusGeofence.t) :
  NoDup (map CampusGeofence.id (campus_geofences db)) ->
  In g (campus_geofences db) ->
  GeofenceRepository.get_by_id db (CampusGeofence.id g) = Ok (Some g).
Proof.
  intros Hnd Hin. unfold GeofenceRepository.get_by_id.
  now rewrite (filter_key_unique CampusGeofence.id _ _ Hnd Hin).
Qed.

Lemma geofence_get_by_id_absent (db : Db) (k : Z) :
  ~ In k (map CampusGeofence.id (campus_geofences db)) ->
  GeofenceRepository.get_by_id db k = Ok None.
Proof.
  intros Hk. unfold GeofenceRepository.get_by_id.
  now rewrite (filter_key_absent CampusGeofence.id _ _ Hk).
Qed.

Lemma precheck_without_geofence (db : Db) (now : datetime) (student : User.t)
    (pre : AttendancePreCheckOut) :
  GeofenceRepository.get_primary_active_geofence db = Ok None ->
  AttendanceService.check_attendance_prerequisites db now student = Ok pre ->
  can_mark pre = false
  /\ In "Campus geofence not configured" (blockers pre).
Proof.
  intros Hg H.
  unfold AttendanceService.check_attendance_prerequisites in H.
  rewrite Hg in H. revert H.
  repeat pipeline_step; intros H; try discriminate; injection H as <-;
    cbn [can_mark blockers]; split;
    try reflexivity; simpl; tauto.
Qed.

Lemma mark_without_geofence (face_service : FaceRecognitionService)
    (math : Libm) (db : Db) (now : datetime) (student : User.t)
    (location : LocationData) (image_file : UploadFile) :
  GeofenceRepository.get_primary_active_geofence db = Ok None ->
  exists res db',
    AttendanceService.mark_attendance face_service math db now student
                                      location image_file = Ok (res, db')
    /\ mr_success res = false
    /\ mr_failure_reason res = Some FailureReason.OUTSIDE_CAMPUS
    /\ mr_message res = "Campus geofence not configured"
    /\ attendance_records db' = attendance_records db
    /\ files db' = files db.
Proof.
  intros Hg. unfold AttendanceService.mark_attendance.
  rewrite Hg. cbn [bind]. unfold AttendanceAttemptRepository.create.
  cbn [bind]. eexists. eexists. split; [reflexivity|].
  repeat split.
Qed.

(** X9: deleting the primary geofence.  With unique ids and at most one
    primary active geofence, [delete_geofence] removes exactly that row;
    afterwards the id is unknown (a second delete raises the ValueError that
    the endpoint answers with 404), no primary geofence is left, the
    pre-check reports "Campus geofence not configured" and refuses, and
    every marking attempt fails at the first gate with OUTSIDE_CAMPUS
    without storing the image or touching the records. *)
Theorem delete_primary_geofence_blocks_marking (db : Db)
    (g : CampusGeofence.t) :
  NoDup (map CampusGeofence.id (campus_geofences db)) ->
  single_primary_active db ->
  In g (campus_geofences db) -> primary_active g = true ->
  exists db',
    AttendanceService.delete_geofence db (CampusGeofence.id g) = Ok db'
    /\ AdminAttendanceRouter.delete_geofence db (CampusGeofence.id g)
       = Ok ("Geofence deleted successfully", db')
    /\ (forall x, In x (campus_geofences db')
                  <-> In x (campus_geofences db) /\ x <> g)
    /\ GeofenceRepository.get_by_id db' (CampusGeofence.id g) = Ok None
    /\ AttendanceService.delete_geofence db' (CampusGeofence.id g)
       = Raise (ValueError "Geofence not found")
    /\ AdminAttendanceRouter.delete_geofence db' (CampusGeofence.id g)
       = Raise (HTTPException 404 "Geofence not found")
    /\ GeofenceRepository.get_primary_active_geofence db' = Ok None
    /\ (forall now student pre,
           AttendanceService.check_attendance_prerequisites db' now student
           = Ok pre ->
           can_mark pre = false
           /\ In "Campus geofence not configured" (blockers pre))
    /\ (forall face_service math now student location image_file,
           exists res db'',
             AttendanceService.mark_attendance face_service math db' now
               student location image_file = Ok (res, db'')
             /\ mr_success res = false
             /\ mr_failure_reason res = Some FailureReason.OUTSIDE_CAMPUS
             /\ mr_message res = "Campus geofence not configured"
             /\ attendance_records db'' = attendance_records db'
             /\ files db'' = files db').
Proof.
  intros Hnd Hsingle Hin Hpa.
  set (rows := filter (fun x => negb (CampusGeofence.id x
                                      =? CampusGeofence.id g))
                      (campus_geofences db)).
  assert (Hdel : AttendanceService.delete_geofence db (CampusGeofence.id g)
                 = Ok (with_campus_geofences rows db)).
  { unfold AttendanceService.delete_geofence.
    rewrite (geofence_get_by_id_found db g Hnd Hin). reflexivity. }
  assert (Hrows : forall x, In x rows
                            <-> In x (campus_geofences db) /\ x <> g).
  { intros x. unfold rows. rewrite filter_In, negb_true_iff, Z.eqb_neq.
    split.
    - intros [Hx Hne]. split; [exact Hx|]. congruence.
    - intros [Hx Hne]. split; [exact Hx|]. intros E. apply Hne.
      now apply (NoDup_map_eq CampusGeofence.id (campus_geofences db)). }
  assert (Habsent : ~ In (CampusGeofence.id g) (map CampusGeofence.id rows)).
  { intros Hk. apply in_map_iff in Hk. destruct Hk as (x & Hk & Hx).
    apply filter_In in Hx. destruct Hx as [_ Hx].
    rewrite Hk, Z.eqb_refl in Hx. discriminate. }
  assert (Hget : GeofenceRepository.get_by_id (with_campus_geofences rows db)
                   (CampusGeofence.id g) = Ok None)
    by (now apply geofence_get_by_id_absent).
  assert (Hagain : AttendanceService.delete_geofence
                     (with_campus_geofences rows db) (CampusGeofence.id g)
                   = Raise (ValueError "Geofence not found")).
  { unfold AttendanceService.delete_geofence. now rewrite Hget. }
  assert (Hnone : GeofenceRepository.get_primary_active_geofence
                    (with_campus_geofences rows db) = Ok None).
  { rewrite get_primary_active_geofence_eq.
    cbn [campus_geofences with_campus_geofences].
    replace (filter primary_active rows) with (@nil CampusGeofence.t);
      [reflexivity|].
    symmetry. apply filter_nil_iff. intros x Hx.
    apply Hrows in Hx. destruct Hx as [Hx Hne].
    destruct (primary_active x) eqn:E; [exfalso|reflexivity].
    assert (Hone : filter primary_active (campus_geofences db) = [g]).
    { apply hd_error_single; [exact Hsingle|].
      destruct (filter primary_active (campus_geofences db)) as [|y l] eqn:Ef.
      - exfalso.
        assert (In g (filter primary_active (campus_geofences db)))
          by (apply filter_In; auto).
        now rewrite Ef in *.
      - unfold single_primary_active in Hsingle. rewrite Ef in Hsingle.
        destruct l; [|simpl in Hsingle; lia].
        assert (Hg : In g (filter primary_active (campus_geofences db)))
          by (apply filter_In; auto).
        rewrite Ef in Hg. destruct Hg as [->|[]]. reflexivity. }
    assert (Hxin : In x (filter primary_active (campus_geofences db)))
      by (apply filter_In; auto).
    rewrite Hone in Hxin. destruct Hxin as [<-|[]]. now apply Hne. }
  exists (with_campus_geofences rows db).
  split; [exact Hdel|].
  split.
  { unfold AdminAttendanceRouter.delete_geofence. now rewrite Hdel. }
  split; [exact Hrows|]. split; [exact Hget|]. split; [exact Hagain|].
  split.
  { unfold AdminAttendanceRouter.delete_geofence. now rewrite Hagain. }
  split; [exact Hnone|].
  split.
  - intros now student pre. now apply precheck_without_geofence.
  - intros. now apply mark_without_geofence.
Qed.

Lemma delete_primary_geofence_blocks_marking_witness :
  exists db',
    AttendanceService.delete_geofence campus_db 1 = Ok db'
    /\ campus_geofences db' = []
    /\ exists res db'',
         AttendanceService.mark_attendance one_face_service flat_math db'
           wednesday_0915 student7 on_campus selfie = Ok (res, db'')
         /\ mr_failure_reason res = Some FailureReason.OUTSIDE_CAMPUS.
Proof.
  assert (Hnd : NoDup (map CampusGeofence.id (campus_geofences campus_db)))
    by (repeat constructor; simpl; tauto).
  assert (Hs : single_primary_active campus_db)
    by (unfold single_primary_active; simpl; lia).
  destruct (delete_primary_geofence_blocks_marking campus_db campus_geofence
              Hnd Hs)
    as (db' & Hdel & _ & _ & _ & _ & _ & _ & _ & Hmark);
    [now left|reflexivity|].
  exists db'. split; [exact Hdel|].
  split; [vm_compute in Hdel; injection Hdel as <-; reflexivity|].
  destruct (Hmark one_face_service flat_math wednesday_0915 student7
              on_campus selfie) as (res & db'' & Hm & _ & Hr & _).
  exists res, db''. auto.
Defined.

Lemma single_of_member {A : Type} (p : A -> bool) (l : list A) (x : A) :
  (List.length (filter p l) <= 1)%nat -> In x l -> p x = true ->
  filter p l = [x].
Proof.
  intros Hlen Hin Hp.
  assert (Hx : In x (filter p l)) by (apply filter_In; auto).
  destruct (filter p l) as [|y [|z t]]; simpl in *; try lia; try tauto.
  destruct Hx as [->|[]]. reflexivity.
Qed.

(** X10: [create_geofence] always succeeds on a table with unique ids and
    at most one primary active geofence: the new row is active, carries the
    request's values under a fresh id, is returned by [get_by_id], and the
    table still has at most one primary active geofence; a geofence created
    as primary is afterwards the primary one, and one created as
    non-primary leaves the primary lookup as it was. *)
Theorem create_geofence_registers (db : Db) (data : GeofenceCreate)
    (admin : User.t) :
  NoDup (map CampusGeofence.id (campus_geofences db)) ->
  single_primary_active db ->
  exists g db',
    AttendanceService.create_geofence db data admin = Ok (g, db')
    /\ CampusGeofence.is_active g = true
    /\ CampusGeofence.is_primary g = gc_is_primary data
    /\ CampusGeofence.name g = gc_name data
    /\ CampusGeofence.latitude g = gc_latitude data
    /\ CampusGeofence.longitude g = gc_longitude data
    /\ CampusGeofence.radius_meters g = gc_radius_meters data
    /\ CampusGeofence.accuracy_threshold g = gc_accuracy_threshold data
    /\ CampusGeofence.created_by g = Some (User.id admin)
    /\ ~ In (CampusGeofence.id g) (map CampusGeofence.id (campus_geofences db))
    /\ map CampusGeofence.id (campus_geofences db')
       = map CampusGeofence.id (campus_geofences db) ++ [CampusGeofence.id g]
    /\ NoDup (map CampusGeofence.id (campus_geofences db'))
    /\ GeofenceRepository.get_by_id db' (CampusGeofence.id g) = Ok (Some g)
    /\ single_primary_active db'
    /\ (gc_is_primary data = true ->
        GeofenceRepository.get_primary_active_geofence db' = Ok (Some g))
    /\ (gc_is_primary data = false ->
        GeofenceRepository.get_primary_active_geofence db'
        = GeofenceRepository.get_primary_active_geofence db).
Proof.
  intros Hnd Hsingle.
  assert (Hex : exists g db' rows,
             AttendanceService.create_geofence db data admin = Ok (g, db')
             /\ map CampusGeofence.id rows
                = map CampusGeofence.id (campus_geofences db)
             /\ campus_geofences db' = rows ++ [g]
             /\ g = CampusGeofence.mk (next_id CampusGeofence.id rows)
                      (gc_name data) (gc_description data) (gc_latitude data)
                      (gc_longitude data) (gc_radius_meters data)
                      (gc_accuracy_threshold data) true (gc_is_primary data)
                      (Some (User.id admin))
             /\ (gc_is_primary data = false -> rows = campus_geofences db)).
  { unfold AttendanceService.create_geofence.
    rewrite get_primary_active_geofence_eq.
    rewrite (scalar_one_or_none_ok _ Hsingle).
    destruct (gc_is_primary data) eqn:Ep; cbn [bind].
    - destruct (List.hd_error _) as [e|]; cbn [bind];
        unfold GeofenceRepository.update, GeofenceRepository.create;
        cbn [bind campus_geofences with_campus_geofences];
        eexists; eexists; eexists; (split; [reflexivity|]).
      + split; [apply map_id_replace_row|].
        split; [reflexivity|]. split; [reflexivity|]. discriminate.
      + split; [reflexivity|]. split; [reflexivity|].
        split; [reflexivity|]. discriminate.
    - unfold GeofenceRepository.create.
      eexists; eexists; eexists; (split; [reflexivity|]).
      split; [reflexivity|]. split; [reflexivity|].
      split; [reflexivity|]. reflexivity. }
  destruct Hex as (g & db' & rows & Hc & Hids & Hrows & Hg & Hkeep).
  pose proof (create_geofence_single_primary db data admin g db' Hsingle Hc)
    as Hsingle'.
  assert (Hfresh : ~ In (CampusGeofence.id g)
                     (map CampusGeofence.id (campus_geofences db))).
  { rewrite <- Hids, Hg. cbn [CampusGeofence.id]. apply next_id_fresh. }
  assert (Hids' : map CampusGeofence.id (campus_geofences db')
                  = map CampusGeofence.id (campus_geofences db)
                    ++ [CampusGeofence.id g]).
  { rewrite Hrows, map_app, Hids. reflexivity. }
  assert (Hnd' : NoDup (map CampusGeofence.id (campus_geofences db'))).
  { rewrite Hids'. now apply NoDup_app_fresh. }
  assert (Hin : In g (campus_geofences db')).
  { rewrite Hrows. apply in_or_app. right. now left. }
  exists g, db'. split; [exact Hc|].
  rewrite Hg at 1 2 3 4 5 6 7 8.
  cbn [CampusGeofence.is_active CampusGeofence.is_primary CampusGeofence.name
       CampusGeofence.latitude CampusGeofence.longitude
       CampusGeofence.radius_meters CampusGeofence.accuracy_threshold
       CampusGeofence.created_by].
  do 8 (split; [reflexivity|]).
  split; [exact Hfresh|]. split; [exact Hids'|]. split; [exact Hnd'|].
  split; [now apply geofence_get_by_id_found|].
  split; [exact Hsingle'|].
  split.
  - intros Hp. rewrite get_primary_active_geofence_eq.
    rewrite (single_of_member primary_active _ g Hsingle' Hin);
      [reflexivity|].
    rewrite Hg. unfold primary_active.
    cbn [CampusGeofence.is_active CampusGeofence.is_primary].
    now rewrite Hp.
  - intros Hp. rewrite !get_primary_active_geofence_eq.
    rewrite Hrows, (Hkeep Hp), filter_app. cbn [filter].
    replace (primary_active g) with false; [now rewrite app_nil_r|].
    rewrite Hg. unfold primary_active.
    cbn [CampusGeofence.is_active CampusGeofence.is_primary].
    now rewrite Hp.
Qed.

Lemma create_geofence_registers_witness :
  let data := mk_geofence_create "Annex" None 13 80 300 50 true in
  exists g db',
    AttendanceService.create_geofence campus_db data (User.mk 1 None)
    = Ok (g, db')
    /\ CampusGeofence.id g = 2
    /\ GeofenceRepository.get_primary_active_geofence db' = Ok (Some g)
    /\ single_primary_active db'.
Proof.
  intros data.
  assert (Hnd : NoDup (map CampusGeofence.id (campus_geofences campus_db)))
    by (repeat constructor; simpl; tauto).
  assert (Hs : single_primary_active campus_db)
    by (unfold single_primary_active; simpl; lia).
  destruct (create_geofence_registers campus_db data (User.mk 1 None) Hnd Hs)
    as (g & db' & Hc & _ & _ & _ & _ & _ & _ & _ & _ & _ & _ & _ & _
        & Hs' & Hprim & _).
  exists g, db'. split; [exact Hc|].
  split; [vm_compute in Hc; injection Hc as <- _; reflexivity|].
  split; [now apply Hprim|exact Hs'].
Defined.

Lemma not_null_setattr {A : Type} (column : string)
    (field : option (option A)) (old : A) :
  field <> Some None ->
  exists new,
    AttendanceService.not_null column
      (AttendanceService.setattr field (Some old)) = Ok new
    /\ field_written field old new.
Proof.
  intros H. destruct field as [[v|]|]; [| congruence |];
    eexists; split; reflexivity.
Qed.

(** A null in a column that is not nullable fails the flush. *)
Lemma apply_geofence_update_null (data : GeofenceUpdate)
    (g : CampusGeofence.t) :
  nulls_a_required_field data ->
  exists c,
    AttendanceService.apply_geofence_update data g = Raise (IntegrityError c).
Proof.
  unfold nulls_a_required_field, AttendanceService.apply_geofence_update.
  destruct (gu_name data) as [[?|]|];
    cbn [AttendanceService.setattr AttendanceService.not_null bind];
    try (intros _; eexists; reflexivity);
  (destruct (gu_latitude data) as [[?|]|];
    cbn [AttendanceService.setattr AttendanceService.not_null bind];
    try (intros _; eexists; reflexivity));
  (destruct (gu_longitude data) as [[?|]|];
    cbn [AttendanceService.setattr AttendanceService.not_null bind];
    try (intros _; eexists; reflexivity));
  (destruct (gu_radius_meters data) as [[?|]|];
    cbn [AttendanceService.setattr AttendanceService.not_null bind];
    try (intros _; eexists; reflexivity));
  (destruct (gu_accuracy_threshold data) as [[?|]|];
    cbn [AttendanceService.setattr AttendanceService.not_null bind];
    try (intros _; eexists; reflexivity));
  (destruct (gu_is_active data) as [[?|]|];
    cbn [AttendanceService.setattr AttendanceService.not_null bind];
    try (intros _; eexists; reflexivity));
  (destruct (gu_is_primary data) as [[?|]|];
    cbn [AttendanceService.setattr AttendanceService.not_null bind];
    try (intros _; eexists; reflexivity));
  intros [H|[H|[H|[H|[H|[H|H]]]]]]; discriminate H.
Qed.

(** Without such a null the row is written, field by field. *)
Lemma apply_geofence_update_ok (data : GeofenceUpdate)
    (g : CampusGeofence.t) :
  ~ nulls_a_required_field data ->
  exists g',
    AttendanceService.apply_geofence_update data g = Ok g'
    /\ CampusGeofence.id g' = CampusGeofence.id g
    /\ CampusGeofence.created_by g' = CampusGeofence.created_by g
    /\ CampusGeofence.description g'
       = match gu_description data with
         | Some description => description
         | None => CampusGeofence.description g
         end
    /\ field_written (gu_name data) (CampusGeofence.name g)
                     (CampusGeofence.name g')
    /\ field_written (gu_latitude data) (CampusGeofence.latitude g)
                     (CampusGeofence.latitude g')
    /\ field_written (gu_longitude data) (CampusGeofence.longitude g)
                     (CampusGeofence.longitude g')
    /\ field_written (gu_radius_meters data) (CampusGeofence.radius_meters g)
                     (CampusGeofence.radius_meters g')
    /\ field_written (gu_accuracy_threshold data)
                     (CampusGeofence.accuracy_threshold g)
                     (CampusGeofence.accuracy_threshold g')
    /\ field_written (gu_is_active data) (CampusGeofence.is_active g)
                     (CampusGeofence.is_active g')
    /\ field_written (gu_is_primary data) (CampusGeofence.is_primary g)
                     (CampusGeofence.is_primary g').
Proof.
  intros Hnull. unfold nulls_a_required_field in Hnull.
  unfold AttendanceService.apply_geofence_update.
  destruct (not_null_setattr "name" (gu_name data) (CampusGeofence.name g))
    as (name & -> & Hname); [tauto|].
  destruct (not_null_setattr "latitude" (gu_latitude data)
              (CampusGeofence.latitude g)) as (lat & -> & Hlat); [tauto|].
  destruct (not_null_setattr "longitude" (gu_longitude data)
              (CampusGeofence.longitude g)) as (lon & -> & Hlon); [tauto|].
  destruct (not_null_setattr "radius_meters" (gu_radius_meters data)
              (CampusGeofence.radius_meters g)) as (rad & -> & Hrad);
    [tauto|].
  destruct (not_null_setattr "accuracy_threshold" (gu_accuracy_threshold data)
              (CampusGeofence.accuracy_threshold g)) as (acc & -> & Hacc);
    [tauto|].
  destruct (not_null_setattr "is_active" (gu_is_active data)
              (CampusGeofence.is_active g)) as (act & -> & Hact); [tauto|].
  destruct (not_null_setattr "is_primary" (gu_is_primary data)
              (CampusGeofence.is_primary g)) as (prim & -> & Hprim); [tauto|].
  cbn [bind]. eexists. split; [reflexivity|].
  cbn [CampusGeofence.id CampusGeofence.created_by CampusGeofence.description
       CampusGeofence.name CampusGeofence.latitude CampusGeofence.longitude
       CampusGeofence.radius_meters CampusGeofence.accuracy_threshold
       CampusGeofence.is_active CampusGeofence.is_primary].
  split; [reflexivity|]. split; [reflexivity|].
  split; [now destruct (gu_description data)|].
  tauto.
Qed.

(** X11: [update_geofence] addresses one row.  For an id that no row has
    it raises the ValueError that the endpoint answers with 404.  For the
    id of a row, a request that sets a column that is not nullable (every
    column but the description) to null fails with an IntegrityError, which
    the endpoint lets through.  Any other request rewrites that row only:
    the ids and every other row are kept, the row keeps its id and creator,
    every field that the request left unset keeps its value and every field
    that it set holds the value of the request, and [get_by_id] returns the
    updated row.  Switching the primary geofence to inactive leaves the
    campus without a primary geofence. *)
Theorem update_geofence_one_row (db : Db) (data : GeofenceUpdate) :
  NoDup (map CampusGeofence.id (campus_geofences db)) ->
  (forall k, ~ In k (map CampusGeofence.id (campus_geofences db)) ->
             AttendanceService.update_geofence db k data
             = Raise (ValueError "Geofence not found")
             /\ AdminAttendanceRouter.update_geofence db k data
                = Raise (HTTPException 404 "Geofence not found"))
  /\ (forall g, In g (campus_geofences db) ->
      nulls_a_required_field data ->
      exists c,
        AttendanceService.update_geofence db (CampusGeofence.id g) data
        = Raise (IntegrityError c)
        /\ AdminAttendanceRouter.update_geofence db (CampusGeofence.id g) data
           = Raise (IntegrityError c))
  /\ (forall g, In g (campus_geofences db) ->
      ~ nulls_a_required_field data ->
      exists g' db',
        AttendanceService.update_geofence db (CampusGeofence.id g) data
        = Ok (g', db')
        /\ AdminAttendanceRouter.update_geofence db (CampusGeofence.id g) data
           = Ok (g', db')
        /\ CampusGeofence.id g' = CampusGeofence.id g
        /\ CampusGeofence.created_by g' = CampusGeofence.created_by g
        /\ CampusGeofence.description g'
           = match gu_description data with
             | Some description => description
             | None => CampusGeofence.description g
             end
        /\ field_written (gu_name data) (CampusGeofence.name g)
                         (CampusGeofence.name g')
        /\ field_written (gu_latitude data) (CampusGeofence.latitude g)
                         (CampusGeofence.latitude g')
        /\ field_written (gu_longitude data) (CampusGeofence.longitude g)
                         (CampusGeofence.longitude g')
        /\ field_written (gu_radius_meters data)
                         (CampusGeofence.radius_meters g)
                         (CampusGeofence.radius_meters g')
        /\ field_written (gu_accuracy_threshold data)
                         (CampusGeofence.accuracy_threshold g)
                         (CampusGeofence.accuracy_threshold g')
        /\ field_written (gu_is_active data) (CampusGeofence.is_active g)
                         (CampusGeofence.is_active g')
        /\ field_written (gu_is_primary data) (CampusGeofence.is_primary g)
                         (CampusGeofence.is_primary g')
        /\ map CampusGeofence.id (campus_geofences db')
           = map CampusGeofence.id (campus_geofences db)
        /\ (forall x, In x (campus_geofences db') <->
                      x = g' \/ (In x (campus_geofences db) /\ x <> g))
        /\ GeofenceRepository.get_by_id db' (CampusGeofence.id g)
           = Ok (Some g')
        /\ (single_primary_active db -> primary_active g = true ->
            gu_is_active data = Some (Some false) ->
            GeofenceRepository.get_primary_active_geofence db' = Ok None)).
Proof.
  intros Hnd. split; [|split].
  - intros k Hk.
    assert (H : AttendanceService.update_geofence db k data
                = Raise (ValueError "Geofence not found")).
    { unfold AttendanceService.update_geofence.
      now rewrite (geofence_get_by_id_absent db k Hk). }
    split; [exact H|].
    unfold AdminAttendanceRouter.update_geofence. now rewrite H.
  - intros g Hin Hnull.
    destruct (apply_geofence_update_null data g Hnull) as [c Hc].
    assert (H : AttendanceService.update_geofence db (CampusGeofence.id g) data
                = Raise (IntegrityError c)).
    { unfold AttendanceService.update_geofence.
      rewrite (geofence_get_by_id_found db g Hnd Hin). cbn [bind].
      now rewrite Hc. }
    exists c. split; [exact H|].
    unfold AdminAttendanceRouter.update_geofence. now rewrite H.
  - intros g Hin Hnull.
    destruct (apply_geofence_update_ok data g Hnull)
      as (g' & Hg' & Hid & Hcreator & Hdesc & Hname & Hlat & Hlon & Hrad
          & Hacc & Hact & Hprim).
    set (rows := replace_row CampusGeofence.id g' (campus_geofences db)).
    assert (H : AttendanceService.update_geofence db (CampusGeofence.id g) data
                = Ok (g', with_campus_geofences rows db)).
    { unfold AttendanceService.update_geofence.
      rewrite (geofence_get_by_id_found db g Hnd Hin). cbn [bind].
      rewrite Hg'. reflexivity. }
    assert (Hrows : forall x, In x rows <->
                      x = g' \/ (In x (campus_geofences db) /\ x <> g)).
    { intros x. unfold rows. rewrite in_replace_row.
      rewrite Hid. split.
      - intros [[-> _]|[Hx Hne]]; [now left|right].
        split; [exact Hx|]. congruence.
      - intros [->|[Hx Hne]]; [left; split; [reflexivity|now apply in_map]|].
        right. split; [exact Hx|]. intros E. apply Hne.
        now apply (NoDup_map_eq CampusGeofence.id (campus_geofences db)). }
    assert (Hids : map CampusGeofence.id rows
                   = map CampusGeofence.id (campus_geofences db))
      by apply map_id_replace_row.
    exists g', (with_campus_geofences rows db).
    split; [exact H|].
    split; [unfold AdminAttendanceRouter.update_geofence; now rewrite H|].
    do 10 (split; [assumption|]).
    cbn [campus_geofences with_campus_geofences].
    split; [exact Hids|]. split; [exact Hrows|].
    split.
    { assert (Hin' : In g' rows) by (apply Hrows; now left).
      rewrite <- Hid.
      apply geofence_get_by_id_found; [|exact Hin'].
      cbn [campus_geofences with_campus_geofences]. now rewrite Hids. }
    intros Hsingle Hpa Hoff.
    rewrite get_primary_active_geofence_eq.
    cbn [campus_geofences with_campus_geofences].
    replace (filter primary_active rows) with (@nil CampusGeofence.t);
      [reflexivity|].
    symmetry. apply filter_nil_iff. intros x Hx.
    apply Hrows in Hx. destruct Hx as [->|[Hx Hne]].
    + unfold primary_active. rewrite Hoff in Hact.
      cbn [field_written] in Hact. now rewrite Hact.
    + destruct (primary_active x) eqn:E; [exfalso|reflexivity].
      pose proof (single_of_member primary_active _ g Hsingle Hin Hpa)
        as Hone.
      assert (Hxin : In x (filter primary_active (campus_geofences db)))
        by (apply filter_In; auto).
      rewrite Hone in Hxin. destruct Hxin as [<-|[]]. now apply Hne.
Qed.

Lemma update_geofence_one_row_witness :
  let off := mk_geofence_update None None None None None None
                                (Some (Some false)) None in
  let null_name := mk_geofence_update (Some None) None None None None None
                                      None None in
  (exists g' db',
      AttendanceService.update_geofence campus_db 1 off = Ok (g', db')
      /\ CampusGeofence.is_active g' = false
      /\ CampusGeofence.is_primary g' = true
      /\ GeofenceRepository.get_primary_active_geofence db' = Ok None)
  /\ AdminAttendanceRouter.update_geofence campus_db 2 off
     = Raise (HTTPException 404 "Geofence not found")
  /\ exists c,
       AdminAttendanceRouter.update_geofence campus_db 1 null_name
       = Raise (IntegrityError c).
Proof.
  intros off null_name.
  assert (Hnd : NoDup (map CampusGeofence.id (campus_geofences campus_db)))
    by (repeat constructor; simpl; tauto).
  assert (Hs : single_primary_active campus_db)
    by (unfold single_primary_active; simpl; lia).
  assert (Hoff : ~ nulls_a_required_field off).
  { unfold nulls_a_required_field, off. simpl.
    intros [H|[H|[H|[H|[H|[H|H]]]]]]; discriminate H. }
  split; [|split].
  - destruct (update_geofence_one_row campus_db off Hnd) as (_ & _ & Hhit).
    destruct (Hhit campus_geofence (or_introl eq_refl) Hoff) as
      (g' & db' & Hc & _ & _ & _ & _ & _ & _ & _ & _ & _ & Hact & Hprim
       & _ & _ & _ & Hnone).
    exists g', db'. split; [exact Hc|].
    split; [exact Hact|]. split; [exact Hprim|].
    now apply Hnone.
  - destruct (update_geofence_one_row campus_db off Hnd) as (Hmiss & _).
    apply Hmiss. simpl. intros [H|[]]. discriminate.
  - destruct (update_geofence_one_row campus_db null_name Hnd)
      as (_ & Hnull & _).
    destruct (Hnull campus_geofence (or_introl eq_refl)) as (c & _ & Hc).
    + unfold nulls_a_required_field, null_name. simpl. now left.
    + exists c. exact Hc.
Defined.


(** ** Profile photos: review and upload *)

Lemma photo_get_by_id_found (db : Db) (p : ProfilePhoto.t) :
  photos_pk db -> In p (profile_photos db) ->
  ProfilePhotoRepository.get_by_id db (ProfilePhoto.id p) = Ok (Some p).
Proof.
  intros Hnd Hin. unfold ProfilePhotoRepository.get_by_id.
  now rewrite (filter_key_unique ProfilePhoto.id _ _ Hnd Hin).
Qed.

Lemma photo_get_by_id_absent (db : Db) (k : Z) :
  ~ In k (map ProfilePhoto.id (profile_photos db)) ->
  ProfilePhotoRepository.get_by_id db k = Ok None.
Proof.
  intros Hk. unfold ProfilePhotoRepository.get_by_id.
  now rewrite (filter_key_absent ProfilePhoto.id _ _ Hk).
Qed.

Lemma review_already_reviewed (db : Db) (now : datetime) (p : ProfilePhoto.t)
    (reviewer : User.t) (approval : ProfilePhotoApproval) :
  photos_pk db -> In p (profile_photos db) ->
  ProfilePhoto.status p <> ProfilePhotoStatus.PENDING ->
  AttendanceService.review_profile_photo db now (ProfilePhoto.id p) reviewer
                                         approval
  = Raise (ValueError "Photo has already been reviewed").
Proof.
  intros Hpk Hin Hst. unfold AttendanceService.review_profile_photo.
  rewrite (photo_get_by_id_found db p Hpk Hin). cbn [bind].
  destruct (ProfilePhoto.status p); [congruence| |]; reflexivity.
Qed.

(** X12: a review is final.  Reviewing an id that no photo has raises
    "Profile photo not found" and reviewing a photo that is not PENDING
    raises "Photo has already been reviewed"; the admin endpoint answers
    both with 404.  Hence once a review has succeeded, every further review
    of the same photo, by anyone and with any verdict, is refused. *)
Theorem review_is_final (db : Db) :
  photos_pk db -> single_approved db ->
  (forall now k reviewer approval,
      ~ In k (map ProfilePhoto.id (profile_photos db)) ->
      AttendanceService.review_profile_photo db now k reviewer approval
      = Raise (ValueError "Profile photo not found")
      /\ AdminAttendanceRouter.review_profile_photo db now k approval reviewer
         = Raise (HTTPException 404 "Profile photo not found"))
  /\ (forall now p reviewer approval,
         In p (profile_photos db) ->
         ProfilePhoto.status p <> ProfilePhotoStatus.PENDING ->
         AttendanceService.review_profile_photo db now (ProfilePhoto.id p)
                                                reviewer approval
         = Raise (ValueError "Photo has already been reviewed")
         /\ AdminAttendanceRouter.review_profile_photo
              db now (ProfilePhoto.id p) approval reviewer
            = Raise (HTTPException 404 "Photo has already been reviewed"))
  /\ (forall now k reviewer approval p db',
         AttendanceService.review_profile_photo db now k reviewer approval
         = Ok (p, db') ->
         ProfilePhoto.reviewed_by p = Some (User.id reviewer)
         /\ ProfilePhoto.reviewed_at p = Some now
         /\ forall now' reviewer' approval',
              AttendanceService.review_profile_photo db' now' k reviewer'
                                                     approval'
              = Raise (ValueError "Photo has already been reviewed")).
Proof.
  intros Hpk Hsa. split; [|split].
  - intros now k reviewer approval Hk.
    assert (H : AttendanceService.review_profile_photo db now k reviewer
                                                       approval
                = Raise (ValueError "Profile photo not found")).
    { unfold AttendanceService.review_profile_photo.
      now rewrite (photo_get_by_id_absent db k Hk). }
    split; [exact H|].
    unfold AdminAttendanceRouter.review_profile_photo. now rewrite H.
  - intros now p reviewer approval Hin Hst.
    pose proof (review_already_reviewed db now p reviewer approval Hpk Hin Hst)
      as H.
    split; [exact H|].
    unfold AdminAttendanceRouter.review_profile_photo. now rewrite H.
  - intros now k reviewer approval p db' H.
    destruct (review_profile_photo_invariant db now k reviewer approval p db'
                Hpk Hsa H) as (Hpk' & _ & Hin & Hid & Hst & _).
    assert (Hrev : ProfilePhoto.reviewed_by p = Some (User.id reviewer)
                   /\ ProfilePhoto.reviewed_at p = Some now).
    { revert H. unfold AttendanceService.review_profile_photo.
      repeat pipeline_step; intros H; try discriminate;
        apply photo_update_ok in H; destruct H as [-> _]; split; reflexivity. }
    split; [apply Hrev|]. split; [apply Hrev|].
    intros now' reviewer' approval'. rewrite <- Hid.
    apply review_already_reviewed; auto.
    rewrite Hst. destruct (approved approval); discriminate.
Qed.

Lemma review_is_final_witness :
  let t0 := mk_datetime 739000 (mk_time 8 0 0 0) in
  let now := mk_datetime 739252 (mk_time 10 0 0 0) in
  let new := ProfilePhoto.mk 2 7 "uploads/profile_photos/7_b.jpg" "7_b.jpg"
               None ProfilePhotoStatus.PENDING None None None t0 in
  let db := mk_db [new] [] [] [] [] [] [] [] in
  exists p db',
    AttendanceService.review_profile_photo db now 2 (User.mk 1 None)
      (mk_approval false None) = Ok (p, db')
    /\ AttendanceService.review_profile_photo db' now 2 (User.mk 1 None)
         (mk_approval true None)
       = Raise (ValueError "Photo has already been reviewed")
    /\ AdminAttendanceRouter.review_profile_photo db now 3
         (mk_approval true None) (User.mk 1 None)
       = Raise (HTTPException 404 "Profile photo not found").
Proof.
  intros t0 now new db.
  assert (Hpk : photos_pk db) by (repeat constructor; simpl; tauto).
  assert (Hsa : single_approved db).
  { intros s. unfold approved_photo_of. simpl.
    rewrite andb_false_r. simpl. lia. }
  destruct (review_is_final db Hpk Hsa) as (Hmiss & _ & Hfinal).
  destruct (AttendanceService.review_profile_photo db now 2 (User.mk 1 None)
              (mk_approval false None)) as [[p db']|e] eqn:Hc;
    [|vm_compute in Hc; discriminate].
  exists p, db'. split; [reflexivity|].
  split; [apply (Hfinal _ _ _ _ _ _ Hc)|].
  apply Hmiss. simpl. intros [H|[]]. discriminate.
Defined.

Lemma photo_status_eqb_eq (a b : ProfilePhotoStatus.t) :
  ProfilePhotoStatus.eqb a b = true <-> a = b.
Proof. destruct a, b; simpl; split; congruence. Qed.






(** ** Profile photos: the latest photo and the review queue *)

Lemma time_compare_antisym (a b : time) :
  time_compare b a = CompOpp (time_compare a b).
Proof.
  unfold time_compare.
  rewrite (Z.compare_antisym (hour a) (hour b)),
    (Z.compare_antisym (minute a) (minute b)),
    (Z.compare_antisym (second a) (second b)),
    (Z.compare_antisym (microsecond a) (microsecond b)).
  destruct (hour a ?= hour b), (minute a ?= minute b),
    (second a ?= second b), (microsecond a ?= microsecond b); reflexivity.
Qed.

Lemma datetime_compare_antisym (a b : datetime) :
  datetime_compare b a = CompOpp (datetime_compare a b).
Proof.
  unfold datetime_compare.
  rewrite (Z.compare_antisym (dt_date a) (dt_date b)),
    (time_compare_antisym (dt_time a) (dt_time b)).
  destruct (dt_date a ?= dt_date b), (time_compare (dt_time a) (dt_time b));
    reflexivity.
Qed.

Lemma datetime_compare_refl (a : datetime) : datetime_compare a a = Eq.
Proof.
  unfold datetime_compare, time_compare. now rewrite !Z.compare_refl.
Qed.

Lemma datetime_ge_refl (a : datetime) : datetime_ge a a = true.
Proof. unfold datetime_ge. now rewrite datetime_compare_refl. Qed.

Lemma datetime_ge_total (a b : datetime) :
  datetime_ge a b = false -> datetime_ge b a = true.
Proof.
  unfold datetime_ge. rewrite (datetime_compare_antisym a b).
  destruct (datetime_compare a b); simpl; congruence.
Qed.

Lemma datetime_le_total (a b : datetime) :
  datetime_le a b = false -> datetime_le b a = true.
Proof.
  unfold datetime_le. rewrite (datetime_compare_antisym a b).
  destruct (datetime_compare a b); simpl; congruence.
Qed.

Lemma order_by_hd_max {A : Type} (le : A -> A -> bool) (p : A) (l : list A) :
  le p p = true ->
  (forall q, In q l -> q = p \/ (le p q = true /\ le q p = false)) ->
  In p l -> List.hd_error (order_by le l) = Some p.
Proof.
  intros Hrefl. induction l as [|x t IH]; intros Hdom Hin; [contradiction|].
  simpl. destruct Hin as [->|Hin].
  - destruct (order_by le t) as [|y r] eqn:E; [reflexivity|].
    assert (Hy : In y t) by (apply (in_order_by le); rewrite E; now left).
    assert (le p y = true) as Hpy.
    { destruct (Hdom y (or_intror Hy)) as [->|[H _]]; auto. }
    simpl. now rewrite Hpy.
  - specialize (IH (fun q Hq => Hdom q (or_intror Hq)) Hin).
    destruct (order_by le t) as [|y r]; [discriminate|].
    injection IH as ->. simpl.
    destruct (Hdom x (or_introl eq_refl)) as [->|[_ Hxp]].
    + now rewrite Hrefl.
    + now rewrite Hxp.
Qed.








Lemma Sorted_skipn {A : Type} (R : A -> A -> Prop) (n : nat) (l : list A) :
  Sorted R l -> Sorted R (skipn n l).
Proof.
  revert l. induction n as [|n IH]; intros l Hs; [exact Hs|].
  destruct l as [|x l]; [exact Hs|]. simpl. apply IH. now inversion Hs.
Qed.

Lemma Sorted_firstn {A : Type} (R : A -> A -> Prop) (n : nat) (l : list A) :
  Sorted R l -> Sorted R (firstn n l).
Proof.
  revert l. induction n as [|n IH]; intros l Hs; [constructor|].
  destruct l as [|x l]; [constructor|]. simpl.
  inversion Hs as [|? ? Hs' Hhd]; subst.
  constructor; [now apply IH|].
  destruct n; [constructor|].
  destruct Hhd; simpl; constructor; auto.
Qed.

Lemma length_filter_replace_row_pk {A : Type} (id : A -> Z) (f : A -> bool)
    (old r : A) (l : list A) :
  NoDup (map id l) -> In old l -> id r = id old ->
  (List.length (filter f (replace_row id r l)) + (if f old then 1 else 0)
   = List.length (filter f l) + (if f r then 1 else 0))%nat.
Proof.
  intros Hnd Hin Hid. induction l as [|x l IH]; [contradiction|].
  inversion Hnd as [|? ? Hnotin Hnd']; subst.
  simpl. destruct Hin as [->|Hin].
  - rewrite Hid, Z.eqb_refl.
    assert (Hsame : replace_row id r l = l).
    { unfold replace_row. rewrite <- (map_id l) at 2. apply map_ext_in.
      intros y Hy. destruct (id y =? id r) eqn:E; [|reflexivity].
      apply Z.eqb_eq in E. exfalso. apply Hnotin.
      rewrite <- Hid, <- E. now apply in_map. }
    fold (replace_row id r l). rewrite Hsame.
    destruct (f old), (f r); simpl; lia.
  - replace (id x =? id r) with false.
    2:{ symmetry. apply Z.eqb_neq. intros E. apply Hnotin.
        rewrite E, Hid. now apply in_map. }
    fold (replace_row id r l). specialize (IH Hnd' Hin).
    destruct (f x); simpl; lia.
Qed.

Lemma review_profile_photo_rows (db : Db) (now : datetime) (k : Z)
    (reviewer : User.t) (approval : ProfilePhotoApproval)
    (p : ProfilePhoto.t) (db' : Db) :
  AttendanceService.review_profile_photo db now k reviewer approval
  = Ok (p, db') ->
  exists old,
    In old (profile_photos db)
    /\ ProfilePhoto.id old = k
    /\ ProfilePhoto.status old = ProfilePhotoStatus.PENDING
    /\ ProfilePhoto.id p = k
    /\ ProfilePhoto.status p <> ProfilePhotoStatus.PENDING
    /\ (profile_photos db'
        = replace_row ProfilePhoto.id p (profile_photos db)
        \/ exists e,
             In e (profile_photos db)
             /\ ProfilePhoto.status e = ProfilePhotoStatus.APPROVED
             /\ ProfilePhoto.id e <> k
             /\ profile_photos db'
                = replace_row ProfilePhoto.id p
                    (replace_row ProfilePhoto.id (demoted e)
                                 (profile_photos db))).
Proof.
  unfold AttendanceService.review_profile_photo.
  destruct (ProfilePhotoRepository.get_by_id db k) as [[old|]|] eqn:Hget;
    cbn [bind]; try discriminate.
  apply in_scalar_filter in Hget. destruct Hget as (Hin & Hid & _).
  apply Z.eqb_eq in Hid.
  destruct (ProfilePhoto.status old) eqn:Hst; cbn [ProfilePhotoStatus.eqb negb];
    try discriminate.
  destruct (approved approval).
  - rewrite get_approved_photo_for_student_eq.
    destruct (scalar_one_or_none _) as [[e|]|] eqn:He; cbn [bind];
      try discriminate.
    + apply in_scalar_filter in He. destruct He as (Hein & Heap & _).
      unfold approved_photo_of in Heap. apply andb_true_iff in Heap.
      destruct Heap as [_ Hest].
      assert (Hest' : ProfilePhoto.status e = ProfilePhotoStatus.APPROVED)
        by (destruct (ProfilePhoto.status e); simpl in Hest; congruence).
      destruct (negb (ProfilePhoto.id e =? ProfilePhoto.id old)) eqn:Hne.
      * destruct (ProfilePhotoRepository.update db _) as [[e' db1]|] eqn:Hu1;
          cbn [bind]; try discriminate.
        apply photo_update_ok in Hu1. destruct Hu1 as [_ Hrows1].
        intros Hu2. apply photo_update_ok in Hu2.
        destruct Hu2 as [-> Hrows2].
        exists old. split; [exact Hin|]. split; [exact Hid|].
        split; [exact Hst|]. split; [exact Hid|].
        split; [discriminate|]. right. exists e.
        split; [exact Hein|]. split; [exact Hest'|].
        split.
        { apply negb_true_iff, Z.eqb_neq in Hne. congruence. }
        rewrite Hrows2, Hrows1. reflexivity.
      * intros Hu2. apply photo_update_ok in Hu2.
        destruct Hu2 as [-> Hrows2].
        exists old. split; [exact Hin|]. split; [exact Hid|].
        split; [exact Hst|]. split; [exact Hid|].
        split; [discriminate|]. now left.
    + intros Hu2. apply photo_update_ok in Hu2.
      destruct Hu2 as [-> Hrows2].
      exists old. split; [exact Hin|]. split; [exact Hid|].
      split; [exact Hst|]. split; [exact Hid|].
      split; [discriminate|]. now left.
  - intros Hu2. apply photo_update_ok in Hu2.
    destruct Hu2 as [-> Hrows2].
    exists old. split; [exact Hin|]. split; [exact Hid|].
    split; [exact Hst|]. split; [exact Hid|].
    split; [discriminate|]. now left.
Qed.

(** X16: the review queue.  [get_pending_photos] answers a page of the
    PENDING photos in ascending order of creation, of length
    min(limit, total - skip), together with the number of all PENDING
    photos, which does not depend on the page.  A successful review takes
    exactly the reviewed photo out of the queue: the total drops by one and
    the photo is listed on no page. *)
Theorem pending_queue (db : Db) :
  photos_pk db ->
  (forall skip limit,
      let (photos, total) := AttendanceService.get_pending_photos db skip limit in
      total = len (filter is_pending (profile_photos db))
      /\ List.length photos
         = Nat.min limit (Z.to_nat total - skip)
      /\ (forall p, In p photos ->
                    In p (profile_photos db)
                    /\ ProfilePhoto.status p = ProfilePhotoStatus.PENDING)
      /\ Sorted (fun a b => datetime_le (ProfilePhoto.created_at a)
                                        (ProfilePhoto.created_at b) = true)
                photos
      /\ AdminAttendanceRouter.get_pending_photos db skip limit
         = (photos, total))
  /\ (forall now k reviewer approval p db',
         AttendanceService.review_profile_photo db now k reviewer approval
         = Ok (p, db') ->
         ProfilePhotoRepository.count_pending db'
         = ProfilePhotoRepository.count_pending db - 1
         /\ forall skip limit q,
              In q (fst (AttendanceService.get_pending_photos db' skip limit))
              -> ProfilePhoto.id q <> k).
Proof.
  intros Hpk. split.
  - intros skip limit.
    unfold AttendanceService.get_pending_photos,
      ProfilePhotoRepository.get_pending_photos,
      ProfilePhotoRepository.count_pending, offset_limit.
    fold is_pending.
    change (fun p => ProfilePhotoStatus.eqb (ProfilePhoto.status p)
                                            ProfilePhotoStatus.PENDING)
      with is_pending.
    split; [reflexivity|].
    split.
    { rewrite length_firstn, length_skipn, length_order_by.
      unfold len. now rewrite Nat2Z.id. }
    split.
    { intros p Hp. apply in_firstn, in_skipn, in_order_by, filter_In in Hp.
      destruct Hp as [Hp Hst]. split; [exact Hp|].
      now apply photo_status_eqb_eq. }
    split; [|reflexivity].
    apply Sorted_firstn, Sorted_skipn, order_by_Sorted.
    intros a b. apply datetime_le_total.
  - intros now k reviewer approval p db' H.
    destruct (review_profile_photo_rows db now k reviewer approval p db' H)
      as (old & Hin & Hid & Hst & Hpid & Hpst & Hrows).
    assert (Hp_pending : is_pending p = false).
    { unfold is_pending. destruct (ProfilePhoto.status p); simpl; congruence. }
    assert (Hold_pending : is_pending old = true)
      by (unfold is_pending; now rewrite Hst).
    assert (Hcount :
      (List.length (filter is_pending (profile_photos db')) + 1
       = List.length (filter is_pending (profile_photos db)))%nat
      /\ forall q, In q (profile_photos db') -> is_pending q = true ->
                   ProfilePhoto.id q <> k).
    { destruct Hrows as [Hrows|(e & Hein & Hest & Hek & Hrows)].
      - pose proof (length_filter_replace_row_pk ProfilePhoto.id is_pending
                      old p (profile_photos db) Hpk Hin) as Hl.
        rewrite Hpid, Hid in Hl. specialize (Hl eq_refl).
        rewrite Hold_pending, Hp_pending in Hl. rewrite Hrows.
        split; [lia|].
        intros q Hq Hqp Hqk. apply in_replace_row in Hq.
        destruct Hq as [[-> _]|[_ Hne]]; [congruence|]. congruence.
      - set (rows1 := replace_row ProfilePhoto.id (demoted e)
                                  (profile_photos db)) in *.
        assert (Hpk1 : NoDup (map ProfilePhoto.id rows1))
          by (unfold rows1; now rewrite map_id_replace_row).
        assert (He_pending : is_pending e = false)
          by (unfold is_pending; now rewrite Hest).
        pose proof (length_filter_replace_row_pk ProfilePhoto.id is_pending
                      e (demoted e) (profile_photos db) Hpk Hein eq_refl)
          as Hl1.
        rewrite He_pending in Hl1.
        replace (is_pending (demoted e)) with false in Hl1 by reflexivity.
        fold rows1 in Hl1.
        assert (Hin1 : In old rows1).
        { apply in_replace_row. right. split; [exact Hin|].
          cbn [demoted ProfilePhoto.id ProfilePhoto.set_rejection_reason
               ProfilePhoto.set_status]. congruence. }
        pose proof (length_filter_replace_row_pk ProfilePhoto.id is_pending
                      old p rows1 Hpk1 Hin1) as Hl2.
        rewrite Hpid, Hid in Hl2. specialize (Hl2 eq_refl).
        rewrite Hold_pending, Hp_pending in Hl2. rewrite Hrows.
        split; [lia|].
        intros q Hq Hqp Hqk. apply in_replace_row in Hq.
        destruct Hq as [[-> _]|[_ Hne]]; [congruence|]. congruence. }
    destruct Hcount as [Hcount Hnot].
    split.
    + unfold ProfilePhotoRepository.count_pending, len.
      change (fun p => ProfilePhotoStatus.eqb (ProfilePhoto.status p)
                                              ProfilePhotoStatus.PENDING)
        with is_pending. lia.
    + intros skip limit q Hq.
      unfold AttendanceService.get_pending_photos,
        ProfilePhotoRepository.get_pending_photos, offset_limit in Hq.
      cbn [fst] in Hq.
      apply in_firstn, in_skipn, in_order_by, filter_In in Hq.
      destruct Hq as [Hq Hqp]. now apply Hnot.
Qed.

Lemma pending_queue_witness :
  let t0 := mk_datetime 739000 (mk_time 8 0 0 0) in
  let now := mk_datetime 739252 (mk_time 10 0 0 0) in
  let new := ProfilePhoto.mk 2 7 "uploads/profile_photos/7_b.jpg" "7_b.jpg"
               None ProfilePhotoStatus.PENDING None None None t0 in
  let db := mk_db [new] [] [] [] [] [] [] [] in
  AttendanceService.get_pending_photos db 0 50 = ([new], 1)
  /\ exists p db',
       AttendanceService.review_profile_photo db now 2 (User.mk 1 None)
         (mk_approval true None) = Ok (p, db')
       /\ ProfilePhotoRepository.count_pending db' = 0.
Proof.
  intros t0 now new db.
  assert (Hpk : photos_pk db) by (repeat constructor; simpl; tauto).
  destruct (pending_queue db Hpk) as [_ Hreview].
  split; [reflexivity|].
  destruct (AttendanceService.review_profile_photo db now 2 (User.mk 1 None)
              (mk_approval true None)) as [[p db']|e] eqn:Hc;
    [|vm_compute in Hc; discriminate].
  exists p, db'. split; [reflexivity|].
  destruct (Hreview _ _ _ _ _ _ Hc) as [Hcount _].
  rewrite Hcount. reflexivity.
Defined.


(** ** Attendance windows *)

Lemma filter_filter_andb {A : Type} (f g : A -> bool) (l : list A) :
  filter g (filter f l) = filter (fun x => f x && g x) l.
Proof.
  induction l as [|x l IH]; simpl; [reflexivity|].
  destruct (f x); simpl; [destruct (g x)|]; now rewrite IH.
Qed.

Lemma get_active_windows_offered (db : Db)
    (category : option StudentCategory.t) :
  AttendanceWindowRepository.get_active_windows db category
  = filter (window_offered category) (attendance_windows db).
Proof.
  unfold AttendanceWindowRepository.get_active_windows, window_offered.
  destruct category as [c|].
  - rewrite filter_filter_andb. apply filter_ext. intros w.
    now destruct (AttendanceWindow.is_active w).
  - apply filter_ext. intros w.
    now destruct (AttendanceWindow.is_active w).
Qed.

Lemma is_within_time_window_existsb (windows : list AttendanceWindow.t)
    (t : time) (d : Z) :
  AttendanceService._is_within_time_window windows t d
  = existsb (fun w => window_covers w t d) windows.
Proof.
  induction windows as [|w l IH]; [reflexivity|].
  cbn [AttendanceService._is_within_time_window existsb].
  unfold window_covers at 1.
  destruct (existsb (Z.eqb d) (AttendanceWindow.days_of_week w));
    cbn [negb andb]; [|now rewrite IH].
  destruct (time_le (AttendanceWindow.start_time w) t
            && time_le t (AttendanceWindow.end_time w)); [reflexivity|].
  now rewrite IH.
Qed.

Lemma existsb_filter {A : Type} (f g : A -> bool) (l : list A) :
  existsb g (filter f l) = existsb (fun x => f x && g x) l.
Proof.
  induction l as [|x l IH]; simpl; [reflexivity|].
  destruct (f x); simpl; now rewrite IH.
Qed.

Lemma time_window_check_existsb (db : Db)
    (category : option StudentCategory.t) (t : time) (d : Z) :
  time_window_check db category t d
  = existsb (fun w => window_offered category w && window_covers w t d)
            (attendance_windows db).
Proof.
  unfold time_window_check.
  rewrite get_active_windows_offered, is_within_time_window_existsb.
  apply existsb_filter.
Qed.

Lemma time_le_spec (a b : time) :
  time_le a b = true <->
  hour a < hour b
  \/ (hour a = hour b
      /\ (minute a < minute b
          \/ (minute a = minute b
              /\ (second a < second b
                  \/ (second a = second b
                      /\ microsecond a <= microsecond b))))).
Proof.
  unfold time_le, time_compare.
  destruct (Z.compare_spec (hour a) (hour b)),
    (Z.compare_spec (minute a) (minute b)),
    (Z.compare_spec (second a) (second b)),
    (Z.compare_spec (microsecond a) (microsecond b));
    split; intros; try discriminate; try reflexivity; lia.
Qed.

Lemma time_le_trans (a b c : time) :
  time_le a b = true -> time_le b c = true -> time_le a c = true.
Proof. rewrite !time_le_spec. lia. Qed.

Lemma window_covers_inverted (w : AttendanceWindow.t) (t : time) (d : Z) :
  time_le (AttendanceWindow.start_time w) (AttendanceWindow.end_time w)
  = false ->
  window_covers w t d = false.
Proof.
  intros Hinv. unfold window_covers.
  destruct (time_le (AttendanceWindow.start_time w) t) eqn:E1;
    [|now rewrite andb_false_r].
  destruct (time_le t (AttendanceWindow.end_time w)) eqn:E2;
    [|now rewrite andb_false_r].
  rewrite (time_le_trans _ _ _ E1 E2) in Hinv. discriminate.
Qed.

Lemma create_attendance_window_check (db : Db)
    (data : AttendanceWindowCreate) :
  let w := AttendanceWindow.mk
             (next_id AttendanceWindow.id (attendance_windows db))
             (wc_name data) (wc_start_time data) (wc_end_time data)
             (wc_days_of_week data) (wc_student_category data)
             (wc_is_active data) in
  let db' := with_attendance_windows (attendance_windows db ++ [w]) db in
  AttendanceService.create_attendance_window db data = Ok (w, db')
  /\ forall category t d,
       time_window_check db' category t d
       = time_window_check db category t d
         || (window_offered category w && window_covers w t d).
Proof.
  intros w db'. split; [reflexivity|].
  intros category t d. rewrite !time_window_check_existsb.
  unfold db'. cbn [attendance_windows with_attendance_windows].
  rewrite existsb_app. cbn [existsb]. now rewrite orb_false_r.
Qed.

(** X17: creating an attendance window.  [create_attendance_window] always
    succeeds and appends one window with a fresh id and the request's
    values; afterwards the time-window check of a student answers as before
    or, in addition, when the new window is active, is offered to the
    student's category and covers the time and weekday.  The request model
    only accepts a name of 1 to 100 characters and weekdays between 0 and
    6. *)
Theorem create_attendance_window_opens (db : Db)
    (data : AttendanceWindowCreate) :
  (exists w db',
      AttendanceService.create_attendance_window db data = Ok (w, db')
      /\ AdminAttendanceRouter.create_attendance_window db data = Ok (w, db')
      /\ attendance_windows db' = attendance_windows db ++ [w]
      /\ ~ In (AttendanceWindow.id w)
              (map AttendanceWindow.id (attendance_windows db))
      /\ AttendanceWindow.name w = wc_name data
      /\ AttendanceWindow.start_time w = wc_start_time data
      /\ AttendanceWindow.end_time w = wc_end_time data
      /\ AttendanceWindow.days_of_week w = wc_days_of_week data
      /\ AttendanceWindow.student_category w = wc_student_category data
      /\ AttendanceWindow.is_active w = wc_is_active data
      /\ forall category t d,
           time_window_check db' category t d
           = time_window_check db category t d
             || (window_offered category w && window_covers w t d))
  /\ (forall name s e days cat act data',
         AttendanceWindowCreate_validate name s e days cat act = Ok data' ->
         data' = mk_window_create name s e days cat act
         /\ (1 <= String.length name <= 100)%nat
         /\ forall d, In d days -> 0 <= d <= 6)
  /\ (forall name s e days cat act d,
         In d days -> ~ 0 <= d <= 6 ->
         validate_days days
         = Raise (ValueError "Days must be between 0 (Monday) and 6 (Sunday)")
         /\ exists field,
              AttendanceWindowCreate_validate name s e days cat act
              = Raise (ValidationError field)).
Proof.
  split; [|split].
  - destruct (create_attendance_window_check db data) as [Hc Hcheck].
    eexists. eexists. split; [exact Hc|]. split; [exact Hc|].
    cbn [attendance_windows with_attendance_windows AttendanceWindow.id
         AttendanceWindow.name AttendanceWindow.start_time
         AttendanceWindow.end_time AttendanceWindow.days_of_week
         AttendanceWindow.student_category AttendanceWindow.is_active].
    split; [reflexivity|]. split; [apply next_id_fresh|].
    do 6 (split; [reflexivity|]). exact Hcheck.
  - intros name s e days cat act data'.
    unfold AttendanceWindowCreate_validate, validate_days.
    destruct ((1 <=? String.length name)%nat
              && (String.length name <=? 100)%nat) eqn:En;
      cbn [negb]; [|discriminate].
    destruct (forallb _ days) eqn:Ed; cbn [negb]; [|discriminate].
    intros [= <-]. split; [reflexivity|].
    apply andb_true_iff in En. destruct En as [E1 E2].
    apply Nat.leb_le in E1, E2. split; [lia|].
    intros d Hd. rewrite forallb_forall in Ed. specialize (Ed d Hd).
    lia.
  - intros name s e days cat act d Hd Hout.
    assert (Hv : validate_days days
                 = Raise (ValueError
                            "Days must be between 0 (Monday) and 6 (Sunday)")).
    { unfold validate_days.
      destruct (forallb _ days) eqn:Ed; [exfalso|reflexivity].
      rewrite forallb_forall in Ed. specialize (Ed d Hd). lia. }
    split; [exact Hv|].
    unfold AttendanceWindowCreate_validate. rewrite Hv.
    destruct (negb _); eexists; reflexivity.
Qed.

(** X18: deleting an attendance window.  For an id that no window has the
    service raises "Attendance window not found", which the endpoint
    answers with 404.  Otherwise exactly that window is removed, a second
    delete is answered with 404, and the time-window check of a student
    succeeds afterwards exactly when one of the remaining windows is
    offered to the student and covers the time. *)
Theorem delete_attendance_window_closes (db : Db) :
  NoDup (map AttendanceWindow.id (attendance_windows db)) ->
  (forall k, ~ In k (map AttendanceWindow.id (attendance_windows db)) ->
             AttendanceService.delete_attendance_window db k
             = Raise (ValueError "Attendance window not found")
             /\ AdminAttendanceRouter.delete_attendance_window db k
                = Raise (HTTPException 404 "Attendance window not found"))
  /\ (forall w, In w (attendance_windows db) ->
      exists db',
        AttendanceService.delete_attendance_window db (AttendanceWindow.id w)
        = Ok db'
        /\ AdminAttendanceRouter.delete_attendance_window
             db (AttendanceWindow.id w)
           = Ok ("Attendance window deleted successfully", db')
        /\ (forall x, In x (attendance_windows db')
                      <-> In x (attendance_windows db) /\ x <> w)
        /\ AdminAttendanceRouter.delete_attendance_window
             db' (AttendanceWindow.id w)
           = Raise (HTTPException 404 "Attendance window not found")
        /\ (forall category t d,
               time_window_check db' category t d = true <->
               exists x, In x (attendance_windows db) /\ x <> w
                         /\ window_offered category x = true
                         /\ window_covers x t d = true)
        /\ (attendance_windows db = [w] ->
            forall category t d, time_window_check db' category t d = false)).
Proof.
  intros Hnd.
  assert (Hmiss : forall db0 k,
             ~ In k (map AttendanceWindow.id (attendance_windows db0)) ->
             AttendanceService.delete_attendance_window db0 k
             = Raise (ValueError "Attendance window not found")
             /\ AdminAttendanceRouter.delete_attendance_window db0 k
                = Raise (HTTPException 404 "Attendance window not found")).
  { intros db0 k Hk.
    assert (H : AttendanceService.delete_attendance_window db0 k
                = Raise (ValueError "Attendance window not found")).
    { unfold AttendanceService.delete_attendance_window,
        AttendanceWindowRepository.get_by_id.
      now rewrite (filter_key_absent AttendanceWindow.id _ _ Hk). }
    split; [exact H|].
    unfold AdminAttendanceRouter.delete_attendance_window. now rewrite H. }
  split; [apply Hmiss|].
  intros w Hin.
  set (rows := filter (fun x => negb (AttendanceWindow.id x
                                      =? AttendanceWindow.id w))
                      (attendance_windows db)).
  assert (Hdel : AttendanceService.delete_attendance_window
                   db (AttendanceWindow.id w)
                 = Ok (with_attendance_windows rows db)).
  { unfold AttendanceService.delete_attendance_window,
      AttendanceWindowRepository.get_by_id.
    now rewrite (filter_key_unique AttendanceWindow.id _ _ Hnd Hin). }
  assert (Hrows : forall x, In x rows
                            <-> In x (attendance_windows db) /\ x <> w).
  { intros x. unfold rows. rewrite filter_In, negb_true_iff, Z.eqb_neq.
    split.
    - intros [Hx Hne]. split; [exact Hx|]. congruence.
    - intros [Hx Hne]. split; [exact Hx|]. intros E. apply Hne.
      now apply (NoDup_map_eq AttendanceWindow.id (attendance_windows db)). }
  exists (with_attendance_windows rows db).
  split; [exact Hdel|].
  split.
  { unfold AdminAttendanceRouter.delete_attendance_window.
    now rewrite Hdel. }
  cbn [attendance_windows with_attendance_windows].
  split; [exact Hrows|].
  split.
  { apply Hmiss. cbn [attendance_windows with_attendance_windows].
    intros Hk. apply in_map_iff in Hk. destruct Hk as (x & Hk & Hx).
    apply filter_In in Hx. destruct Hx as [_ Hx].
    rewrite Hk, Z.eqb_refl in Hx. discriminate. }
  assert (Hcheck : forall category t d,
             time_window_check (with_attendance_windows rows db) category t d
             = true <->
             exists x, In x (attendance_windows db) /\ x <> w
                       /\ window_offered category x = true
                       /\ window_covers x t d = true).
  { intros category t d. rewrite time_window_check_existsb.
    cbn [attendance_windows with_attendance_windows].
    rewrite existsb_exists. split.
    - intros (x & Hx & Hc). apply Hrows in Hx.
      apply andb_true_iff in Hc. exists x. tauto.
    - intros (x & Hx & Hne & Ho & Hc). exists x.
      split; [apply Hrows; auto|]. now rewrite Ho, Hc. }
  split; [exact Hcheck|].
  intros Hone category t d. apply not_true_is_false. intros H.
  apply Hcheck in H. destruct H as (x & Hx & Hne & _).
  rewrite Hone in Hx. destruct Hx as [<-|[]]. now apply Hne.
Qed.

Lemma delete_attendance_window_closes_witness :
  exists db',
    AttendanceService.delete_attendance_window campus_db 1 = Ok db'
    /\ time_window_check campus_db None (mk_time 9 15 0 0) 2 = true
    /\ time_window_check db' None (mk_time 9 15 0 0) 2 = false
    /\ AdminAttendanceRouter.delete_attendance_window campus_db 5
       = Raise (HTTPException 404 "Attendance window not found").
Proof.
  assert (Hnd : NoDup (map AttendanceWindow.id (attendance_windows campus_db)))
    by (repeat constructor; simpl; tauto).
  destruct (delete_attendance_window_closes campus_db Hnd) as [Hmiss Hhit].
  destruct (Hhit (morning_window 1 "Morning"))
    as (db' & Hdel & _ & _ & _ & _ & Hclosed); [now left|].
  exists db'. split; [exact Hdel|]. split; [reflexivity|].
  split; [now apply Hclosed|].
  apply Hmiss. simpl. intros [H|[]]. discriminate.
Defined.

(** X19: a window needs [start_time <= end_time] to ever open, and nothing
    checks it.  The window check succeeds only through a window whose start
    is not after its end and whose weekday list holds the day; the request
    model accepts any pair of times, and a window created with its end
    before its start (one meant to span midnight, say) is stored but leaves
    every time-window check as it was. *)
Theorem inverted_window_never_opens :
  (forall windows t d,
      AttendanceService._is_within_time_window windows t d = true ->
      exists w, In w windows
                /\ In d (AttendanceWindow.days_of_week w)
                /\ time_le (AttendanceWindow.start_time w)
                           (AttendanceWindow.end_time w) = true)
  /\ (forall name s e days cat act s' e' data,
         AttendanceWindowCreate_validate name s e days cat act = Ok data ->
         AttendanceWindowCreate_validate name s' e' days cat act
         = Ok (mk_window_create name s' e' days cat act))
  /\ (forall db data,
         time_le (wc_start_time data) (wc_end_time data) = false ->
         exists w db',
           AttendanceService.create_attendance_window db data = Ok (w, db')
           /\ In w (attendance_windows db')
           /\ AttendanceWindow.start_time w = wc_start_time data
           /\ AttendanceWindow.end_time w = wc_end_time data
           /\ forall category t d,
                time_window_check db' category t d
                = time_window_check db category t d).
Proof.
  split; [|split].
  - intros windows t d H. apply is_within_time_window_iff in H.
    destruct H as (w & Hin & Hd & H1 & H2).
    exists w. split; [exact Hin|]. split; [exact Hd|].
    now apply (time_le_trans _ t).
  - intros name s e days cat act s' e' data.
    unfold AttendanceWindowCreate_validate.
    destruct (negb _); [discriminate|].
    destruct (validate_days days) as [ds|] eqn:Hv; [|discriminate].
    intros _. unfold validate_days in Hv.
    destruct (negb _); [discriminate|]. now injection Hv as <-.
  - intros db data Hinv.
    destruct (create_attendance_window_check db data) as [Hc Hcheck].
    eexists. eexists. split; [exact Hc|].
    cbn [attendance_windows with_attendance_windows
         AttendanceWindow.start_time AttendanceWindow.end_time].
    split; [apply in_or_app; right; now left|].
    split; [reflexivity|]. split; [reflexivity|].
    intros category t d. rewrite Hcheck.
    rewrite window_covers_inverted by exact Hinv.
    now rewrite andb_false_r, orb_false_r.
Qed.


(** ** The audit trail and the day's record *)

Lemma datetime_le_today_end (now : datetime) :
  time_valid (dt_time now) ->
  datetime_le now (mk_datetime (dt_date now) time_max) = true.
Proof.
  intros (Hh & Hm & Hs & Hu).
  unfold datetime_le, datetime_compare. cbn [dt_date dt_time].
  rewrite Z.compare_refl.
  change (time_le (dt_time now) time_max = true).
  apply time_le_spec. unfold time_max. cbn [hour minute second microsecond].
  lia.
Qed.

Lemma datetime_other_day (now : datetime) (d : date) :
  d <> dt_date now ->
  datetime_ge now (mk_datetime d time_min)
  && datetime_le now (mk_datetime d time_max) = false.
Proof.
  intros Hd. unfold datetime_ge, datetime_le, datetime_compare.
  cbn [dt_date dt_time].
  destruct (Z.compare_spec (dt_date now) d); [congruence| |];
    [reflexivity|apply andb_false_r].
Qed.

Lemma hd_error_offset_limit {A : Type} (limit : nat) (l : list A) (x : A) :
  List.hd_error l = Some x ->
  List.hd_error (offset_limit 0 (S limit) l) = Some x.
Proof.
  unfold offset_limit. destruct l; [discriminate|]. simpl. auto.
Qed.

Lemma failed_on_date_new (now : datetime) (a : AttendanceAttempt.t) :
  time_valid (dt_time now) -> AttendanceAttempt.attempted_at a = now ->
  Bool.eqb (AttendanceAttempt.success a) false
  && datetime_ge (AttendanceAttempt.attempted_at a)
                 (mk_datetime (dt_date now) time_min)
  && datetime_le (AttendanceAttempt.attempted_at a)
                 (mk_datetime (dt_date now) time_max)
  = negb (AttendanceAttempt.success a).
Proof.
  intros Hv ->. rewrite datetime_le_today_end by exact Hv.
  unfold time_min. rewrite datetime_ge_today_start by exact Hv.
  now destruct (AttendanceAttempt.success a).
Qed.

(** X20: the audit trail of a marking call.  A call of [mark_attendance]
    that returns at a valid time of day raises the day's count of failed
    attempts by one when it failed and leaves it alone when it succeeded,
    and never changes the count of another day.  When the call is later
    than the student's earlier attempts, the new attempt heads the
    student's attempt list (and that of the endpoint); a failed one that is
    later than the earlier failures heads the admin's list of failed
    attempts, and a successful one does not change that list. *)
Theorem mark_attendance_audit_trail (face_service : FaceRecognitionService)
    (math : Libm) (db : Db) (now : datetime) (student : User.t)
    (location : LocationData) (image_file : UploadFile)
    (res : AttendanceMarkResult) (db' : Db) :
  time_valid (dt_time now) ->
  AttendanceService.mark_attendance face_service math db now student
                                    location image_file = Ok (res, db') ->
  exists a,
    attendance_attempts db' = attendance_attempts db ++ [a]
    /\ AttendanceAttempt.success a = mr_success res
    /\ AttendanceAttemptRepository.count_failed_for_date db' (dt_date now)
       = AttendanceAttemptRepository.count_failed_for_date db (dt_date now)
         + (if mr_success res then 0 else 1)
    /\ (forall d, d <> dt_date now ->
                  AttendanceAttemptRepository.count_failed_for_date db' d
                  = AttendanceAttemptRepository.count_failed_for_date db d)
    /\ ((forall b, In b (attendance_attempts db) ->
                   AttendanceAttempt.student_id b = User.id student ->
                   datetime_ge (AttendanceAttempt.attempted_at b) now = false)
        -> List.hd_error
             (AttendanceService.get_student_attempts db' (User.id student))
           = Some a
           /\ List.hd_error
                (fst (AttendanceRouter.get_attendance_attempts db' student))
              = Some a)
    /\ (mr_success res = false ->
        (forall b, In b (attendance_attempts db) ->
                   AttendanceAttempt.success b = false ->
                   datetime_ge (AttendanceAttempt.attempted_at b) now = false)
        -> List.hd_error (AttendanceService.get_failed_attempts db' None None)
           = Some a)
    /\ (mr_success res = true ->
        forall s e, AttendanceService.get_failed_attempts db' s e
                    = AttendanceService.get_failed_attempts db s e).
Proof.
  intros Hv Hmark.
  destruct (mark_attendance_logs_once _ _ _ _ _ _ _ _ _ Hmark)
    as (a & Happ & Hsid & Hat & Hsucc & _ & _).
  exists a. split; [exact Happ|]. split; [exact Hsucc|].
  split.
  { unfold AttendanceAttemptRepository.count_failed_for_date, len.
    rewrite Happ, filter_app, length_app. cbn [filter].
    rewrite (failed_on_date_new now a Hv Hat), Hsucc.
    destruct (mr_success res); simpl; lia. }
  split.
  { intros d Hd.
    unfold AttendanceAttemptRepository.count_failed_for_date, len.
    rewrite Happ, filter_app, length_app. cbn [filter].
    rewrite Hat, <- andb_assoc, (datetime_other_day now d Hd), andb_false_r.
    simpl. lia. }
  split.
  { intros Hnew.
    assert (Hhd : List.hd_error
                    (AttendanceService.get_student_attempts
                       db' (User.id student)) = Some a).
    { unfold AttendanceService.get_student_attempts,
        AttendanceAttemptRepository.get_student_attempts.
      apply hd_error_offset_limit. apply order_by_hd_max.
      - apply datetime_ge_refl.
      - intros b Hb. apply filter_In in Hb. destruct Hb as [Hb Hs].
        apply Z.eqb_eq in Hs. rewrite Happ in Hb. apply in_app_or in Hb.
        destruct Hb as [Hb|[<-|[]]]; [right|now left].
        rewrite Hat. pose proof (Hnew b Hb Hs) as Hlt.
        split; [now apply datetime_ge_total|exact Hlt].
      - apply filter_In. rewrite Happ.
        split; [apply in_or_app; right; now left|].
        rewrite Hsid. apply Z.eqb_refl. }
    split; [exact Hhd|exact Hhd]. }
  split.
  { intros Hfail Hnew.
    unfold AttendanceService.get_failed_attempts,
      AttendanceAttemptRepository.get_failed_attempts.
    apply hd_error_offset_limit. apply order_by_hd_max.
    - apply datetime_ge_refl.
    - intros b Hb. apply filter_In in Hb. destruct Hb as [Hb Hs].
      rewrite Happ in Hb. apply in_app_or in Hb.
      destruct Hb as [Hb|[<-|[]]]; [right|now left].
      rewrite Hat.
      assert (Hbf : AttendanceAttempt.success b = false)
        by (destruct (AttendanceAttempt.success b); simpl in Hs; congruence).
      pose proof (Hnew b Hb Hbf) as Hlt.
      split; [now apply datetime_ge_total|exact Hlt].
    - apply filter_In. rewrite Happ.
      split; [apply in_or_app; right; now left|].
      now rewrite Hsucc, Hfail. }
  intros Hok s e.
  unfold AttendanceService.get_failed_attempts,
    AttendanceAttemptRepository.get_failed_attempts.
  rewrite Happ, filter_app. cbn [filter].
  rewrite Hsucc, Hok. cbn [Bool.eqb]. now rewrite app_nil_r.
Qed.

Lemma mark_attendance_audit_trail_witness :
  exists res db' a,
    AttendanceService.mark_attendance one_face_service flat_math campus_db
      wednesday_0915 student7 (mk_location 13 80 100) selfie = Ok (res, db')
    /\ mr_success res = false
    /\ AttendanceAttemptRepository.count_failed_for_date db' 739252 = 1
    /\ List.hd_error (AttendanceService.get_failed_attempts db' None None)
       = Some a.
Proof.
  destruct (AttendanceService.mark_attendance one_face_service flat_math
              campus_db wednesday_0915 student7 (mk_location 13 80 100) selfie)
    as [[res db']|e] eqn:Hmark; [|vm_compute in Hmark; discriminate].
  assert (Hv : time_valid (dt_time wednesday_0915))
    by (unfold time_valid; simpl; lia).
  destruct (mark_attendance_audit_trail _ _ _ _ _ _ _ _ _ Hv Hmark)
    as (a & _ & _ & Hcount & _ & _ & Hhead & _).
  assert (Hs : mr_success res = false).
  { vm_compute in Hmark. injection Hmark as <- _. reflexivity. }
  exists res, db', a. split; [reflexivity|]. split; [exact Hs|].
  split.
  - change 739252 with (dt_date wednesday_0915). rewrite Hcount, Hs.
    reflexivity.
  - apply Hhead; [exact Hs|]. intros b [].
Defined.

Lemma mark_attendance_day_record (face_service : FaceRecognitionService)
    (math : Libm) (db : Db) (now : datetime) (student : User.t)
    (location : LocationData) (image_file : UploadFile)
    (res : AttendanceMarkResult) (db' : Db) :
  NoDup (map AttendanceRecord.id (attendance_records db)) ->
  AttendanceService.mark_attendance face_service math db now student
                                    location image_file = Ok (res, db') ->
  mr_success res = true ->
  exists r,
    filter (record_of (User.id student) (dt_date now))
           (attendance_records db') = [r]
    /\ AttendanceRecord.status r = AttendanceStatus.PRESENT
    /\ AttendanceRecord.marked_at r = Some now
    /\ AttendanceRecord.face_match_confidence r = mr_face_match_score res.
Proof.
  intros Hpk.
  unfold AttendanceService.mark_attendance,
    AttendanceAttemptRepository.create,
    AttendanceRecordRepository.update, AttendanceRecordRepository.create.
  cbn [bind].
  repeat pipeline_step; intros H; try discriminate;
    injection H as <- <-; cbn [mr_success mr_face_match_score];
    intros Hs; try discriminate Hs.
  all: cbn [attendance_records with_attendance_attempts with_files
            with_attendance_records] in *.
  all: match goal with
       | Hq : AttendanceRecordRepository.get_student_record_for_date _ _ _
              = Ok (Some ?e) |- _ =>
           rewrite get_student_record_for_date_eq in Hq;
           cbn [attendance_records with_attendance_attempts with_files] in Hq;
           apply scalar_one_or_none_some in Hq;
           assert (Hkey : record_of (User.id student) (dt_date now) e = true)
             by (assert (Hin : In e (filter (record_of (User.id student)
                                                       (dt_date now))
                                            (attendance_records db)))
                   by (rewrite Hq; now left);
                 apply filter_In in Hin; tauto);
           match goal with
           | |- context [replace_row AttendanceRecord.id ?r _] =>
               destruct (upsert_record (attendance_records db) e r
                           (User.id student) (dt_date now) Hpk Hq eq_refl
                           Hkey) as [Hone _];
               exists r; split; [exact Hone|]; repeat split
           end
       | Hq : AttendanceRecordRepository.get_student_record_for_date _ _ _
              = Ok None |- _ =>
           rewrite get_student_record_for_date_eq in Hq;
           cbn [attendance_records with_attendance_attempts with_files] in Hq;
           apply scalar_one_or_none_none in Hq;
           rewrite filter_app, Hq; cbn [filter app];
           unfold record_of at 1;
           cbn [AttendanceRecord.student_id AttendanceRecord.attendance_date
                AttendanceRecord.set_id];
           rewrite !Z.eqb_refl; cbn [andb];
           eexists; split; [reflexivity|]; repeat split
       end.
Qed.

(** X21: the day's record after a marking call.  Where the record ids are
    unique, a call of [mark_attendance] that returns a success leaves the
    student's one record of the day, PRESENT, marked at the time of the
    call with the score of the result: the status lookup of the day and its
    endpoint answer this record, and the marking endpoint refuses every
    further call of that day; after a call that returns a failure the
    status lookup answers what it answered before. *)
Theorem today_status_after_mark (face_service : FaceRecognitionService)
    (math : Libm) (db : Db) (now : datetime) (student : User.t)
    (location : LocationData) (image_file : UploadFile)
    (res : AttendanceMarkResult) (db' : Db) :
  NoDup (map AttendanceRecord.id (attendance_records db)) ->
  AttendanceService.mark_attendance face_service math db now student
                                    location image_file = Ok (res, db') ->
  (mr_success res = true ->
   exists r,
     AttendanceService.get_today_status db' now (User.id student)
     = Ok (Some r)
     /\ AttendanceRouter.get_today_attendance db' now student = Ok (Some r)
     /\ AttendanceRecord.status r = AttendanceStatus.PRESENT
     /\ AttendanceRecord.marked_at r = Some now
     /\ AttendanceRecord.face_match_confidence r = mr_face_match_score res
     /\ forall face_service' math' now' file lat lon acc,
          dt_date now' = dt_date now ->
          exists e,
            AttendanceRouter.mark_attendance face_service' math' db' now'
              file lat lon acc student = Raise e)
  /\ (mr_success res = false ->
      AttendanceService.get_today_status db' now (User.id student)
      = AttendanceService.get_today_status db now (User.id student)).
Proof.
  intros Hpk Hmark. split.
  - intros Hs.
    destruct (mark_attendance_day_record _ _ _ _ _ _ _ _ _ Hpk Hmark Hs)
      as (r & Hone & Hst & Hat & Hconf).
    assert (Hget : AttendanceRecordRepository.get_student_record_for_date
                     db' (User.id student) (dt_date now) = Ok (Some r)).
    { rewrite get_student_record_for_date_eq, Hone. reflexivity. }
    assert (Hstatus : AttendanceService.get_today_status
                        db' now (User.id student) = Ok (Some r)).
    { unfold AttendanceService.get_today_status. now rewrite Hget. }
    exists r. split; [exact Hstatus|]. split; [exact Hstatus|].
    split; [exact Hst|]. split; [exact Hat|]. split; [exact Hconf|].
    intros face_service' math' now' file lat lon acc Hday.
    apply (router_blocks_already_marked face_service' math' db' now' file
             lat lon acc student r); [|exact Hst].
    now rewrite Hday.
  - intros Hs.
    destruct (mark_attendance_logs_once _ _ _ _ _ _ _ _ _ Hmark)
      as (a & _ & _ & _ & _ & _ & Hrest).
    destruct (Hrest Hs) as [Hrec _].
    unfold AttendanceService.get_today_status.
    rewrite !get_student_record_for_date_eq. now rewrite Hrec.
Qed.

Lemma today_status_after_mark_witness :
  exists res db' r,
    AttendanceService.mark_attendance one_face_service flat_math campus_db
      wednesday_0915 student7 on_campus selfie = Ok (res, db')
    /\ AttendanceService.get_today_status db' wednesday_0915 7 = Ok (Some r)
    /\ AttendanceRecord.status r = AttendanceStatus.PRESENT.
Proof.
  assert (Hpk : NoDup (map AttendanceRecord.id
                           (attendance_records campus_db)))
    by constructor.
  eexists. eexists.
  match goal with
  | |- exists r, ?call = Ok (?res, ?db') /\ _ =>
      assert (Hmark : call = Ok (res, db')) by (vm_compute; reflexivity);
      destruct (today_status_after_mark one_face_service flat_math campus_db
                  wednesday_0915 student7 on_campus selfie res db' Hpk Hmark)
        as [Hok _]
  end.
  destruct (Hok eq_refl) as (r & Hget & _ & Hst & _).
  exists r. split; [exact Hmark|]. split; [exact Hget|exact Hst].
Defined.


(** ** The admin reports *)

Lemma dict_from_find {A : Type} (key : A -> Z) (l : list A) :
  forall (acc : list (date * A)) (k : Z) (r : A),
    dict_find k (fold_left (fun d r => dict_set (key r) r d) l acc) = Some r ->
    (In r l /\ key r = k) \/ dict_find k acc = Some r.
Proof.
  induction l as [|x l IH]; intros acc k r H; [now right|].
  simpl in H. apply IH in H. destruct H as [[Hin Hk]|H].
  - left. split; [now right|exact Hk].
  - destruct (Z.eq_dec (key x) k) as [E|E].
    + subst k. rewrite dict_find_set_same in H. injection H as <-.
      left. split; [now left|reflexivity].
    + rewrite dict_find_set_other in H by exact E. now right.
Qed.

Lemma dict_from_keeps {A : Type} (key : A -> Z) (l : list A) :
  forall (acc : list (date * A)) (k : Z),
    dict_find k acc <> None ->
    dict_find k (fold_left (fun d r => dict_set (key r) r d) l acc) <> None.
Proof.
  induction l as [|x l IH]; intros acc k H; [exact H|].
  simpl. apply IH.
  destruct (Z.eq_dec (key x) k) as [E|E].
  - subst k. now rewrite dict_find_set_same.
  - now rewrite dict_find_set_other.
Qed.

Lemma dict_from_has {A : Type} (key : A -> Z) (l : list A) :
  forall (acc : list (date * A)) (r : A),
    In r l ->
    dict_find (key r) (fold_left (fun d r => dict_set (key r) r d) l acc)
    <> None.
Proof.
  induction l as [|x l IH]; intros acc r Hin; [contradiction|].
  simpl. destruct Hin as [->|Hin]; [|now apply IH].
  apply dict_from_keeps. now rewrite dict_find_set_same.
Qed.

Lemma status_counts_partition {A : Type} (st : A -> AttendanceStatus.t)
    (l : list A) :
  len (filter (fun s => AttendanceStatus.eqb (st s) AttendanceStatus.PRESENT) l)
  + len (filter (fun s => AttendanceStatus.eqb (st s) AttendanceStatus.ABSENT) l)
  + len (filter (fun s => AttendanceStatus.eqb (st s) AttendanceStatus.PENDING) l)
  = len l.
Proof.
  unfold len. induction l as [|x l IH]; [reflexivity|].
  cbn [filter]. destruct (st x); cbn [AttendanceStatus.eqb Datatypes.length]; lia.
Qed.

Lemma any_window_still_open_iff (windows : list AttendanceWindow.t)
    (t : time) (d : Z) :
  DetailedAttendanceRepository.any_window_still_open windows t d = true <->
  exists w, In w windows
            /\ In d (AttendanceWindow.days_of_week w)
            /\ time_le t (AttendanceWindow.end_time w) = true.
Proof.
  induction windows as [|w l IH];
    cbn [DetailedAttendanceRepository.any_window_still_open].
  - split; [discriminate|]. now intros (w & [] & _).
  - destruct (existsb (Z.eqb d) (AttendanceWindow.days_of_week w)) eqn:Ed.
    + destruct (time_le t (AttendanceWindow.end_time w)) eqn:Et.
      * split; [intros _|reflexivity]. exists w.
        split; [now left|]. split; [|exact Et].
        apply existsb_exists in Ed. destruct Ed as (x & Hx & E).
        apply Z.eqb_eq in E. now subst.
      * rewrite IH. split.
        -- intros (x & Hx & H). exists x. split; [now right|exact H].
        -- intros (x & [<-|Hx] & Hd & Ht); [congruence|].
           exists x. auto.
    + rewrite IH. split.
      * intros (x & Hx & H). exists x. split; [now right|exact H].
      * intros (x & [<-|Hx] & Hd & Ht).
        -- exfalso.
           assert (existsb (Z.eqb d) (AttendanceWindow.days_of_week w) = true)
             by (apply existsb_exists; exists d; split;
                 [exact Hd|apply Z.eqb_refl]).
           congruence.
        -- exists x. auto.
Qed.

Lemma student_filter_eq (users : list UserRow.t) :
  filter
    (fun u =>
       existsb (UserRole.eqb (UserRow.role u))
               [UserRole.STUDENT; UserRole.HOSTELLER; UserRole.DAY_SCHOLAR]
       && Bool.eqb (UserRow.is_active u) true)
    users
  = filter active_student users.
Proof.
  apply filter_ext. intros u. unfold active_student.
  destruct (UserRow.role u), (UserRow.is_active u); reflexivity.
Qed.

(** X22: the detailed attendance list of a date has one row per active
    user of a student role, named "<first> <last>"; the three counts add up
    to the number of rows.  A student with a record on the date is shown
    with the status and time of a record of that date; a student without
    one is shown PENDING when the date is today and some active window
    lists today's weekday and has not ended yet (neither the window's start
    nor its category is consulted), and ABSENT otherwise, so for another
    date than today a PENDING row always comes from a PENDING record. *)
Theorem detailed_attendance_rows (users : list UserRow.t) (db : Db)
    (now : datetime) (d : date) :
  let out :=
    AttendanceService.get_detailed_attendance_for_date users db now d in
  AdminAttendanceRouter.get_detailed_attendance users db now None
  = AttendanceService.get_detailed_attendance_for_date
      users db now (dt_date now)
  /\ dl_total_students out = len (filter active_student users)
  /\ dl_present_count out + dl_absent_count out + dl_pending_count out
     = dl_total_students out
  /\ Permutation (map dr_student_id (dl_students out))
                 (map UserRow.id (filter active_student users))
  /\ (forall row, In row (dl_students out) ->
      exists u,
        In u users /\ active_student u = true
        /\ dr_student_id row = UserRow.id u
        /\ dr_student_name row
           = (UserRow.first_name u ++ " " ++ UserRow.last_name u)%string
        /\ ((exists r, In r (attendance_records db)
                       /\ record_of (UserRow.id u) d r = true
                       /\ dr_status row = AttendanceRecord.status r
                       /\ dr_marked_at row = AttendanceRecord.marked_at r)
            \/ ((forall r, In r (attendance_records db) ->
                           record_of (UserRow.id u) d r = false)
                /\ dr_status row = unmarked_status db now d
                /\ dr_marked_at row = None)))
  /\ (d <> dt_date now -> unmarked_status db now d = AttendanceStatus.ABSENT)
  /\ (unmarked_status db now (dt_date now) = AttendanceStatus.PENDING <->
      exists w, In w (attendance_windows db)
                /\ AttendanceWindow.is_active w = true
                /\ In (weekday (dt_date now)) (AttendanceWindow.days_of_week w)
                /\ time_le (dt_time now) (AttendanceWindow.end_time w) = true).
Proof.
  intros out. split; [reflexivity|].
  unfold out, AttendanceService.get_detailed_attendance_for_date,
    DetailedAttendanceRepository.get_all_students_with_attendance_for_date.
  cbn [dl_total_students dl_present_count dl_absent_count dl_pending_count
       dl_students].
  rewrite student_filter_eq.
  set (students := order_by DetailedAttendanceRepository.name_le
                            (filter active_student users)).
  set (records := filter (fun r => AttendanceRecord.attendance_date r =? d)
                         (attendance_records db)).
  set (by_student := fold_left
                       (fun dct r => dict_set (AttendanceRecord.student_id r)
                                              r dct) records []).
  assert (Hopen :
    (if d =? dt_date now
     then DetailedAttendanceRepository.any_window_still_open
            (filter (fun w => Bool.eqb (AttendanceWindow.is_active w) true)
                    (attendance_windows db))
            (dt_time now) (weekday (dt_date now))
     else false)
    = ((d =? dt_date now)
       && DetailedAttendanceRepository.any_window_still_open
            (filter (fun w => AttendanceWindow.is_active w)
                    (attendance_windows db))
            (dt_time now) (weekday (dt_date now)))).
  { replace (filter (fun w => Bool.eqb (AttendanceWindow.is_active w) true)
                    (attendance_windows db))
      with (filter (fun w => AttendanceWindow.is_active w)
                   (attendance_windows db)).
    - now destruct (d =? dt_date now).
    - apply filter_ext. intros w. now destruct (AttendanceWindow.is_active w). }
  rewrite Hopen.
  split.
  { unfold len. rewrite length_map. unfold students.
    now rewrite length_order_by. }
  split; [apply status_counts_partition|].
  split.
  { rewrite map_map. cbn [dr_student_id].
    apply Permutation_map. apply order_by_Permutation. }
  split.
  { intros row Hrow. apply in_map_iff in Hrow.
    destruct Hrow as (u & <- & Hu).
    apply in_order_by, filter_In in Hu. destruct Hu as [Hu Hact].
    exists u. split; [exact Hu|]. split; [exact Hact|].
    cbn [dr_student_id dr_student_name dr_status dr_marked_at].
    split; [reflexivity|]. split; [reflexivity|].
    destruct (dict_find (UserRow.id u) by_student) as [r|] eqn:Ef.
    - left. apply dict_from_find in Ef.
      destruct Ef as [[Hr Hk]|Ef]; [|discriminate].
      apply filter_In in Hr. destruct Hr as [Hr Hd].
      exists r. split; [exact Hr|].
      split; [|split; reflexivity].
      unfold record_of. rewrite Hk, Z.eqb_refl. exact Hd.
    - right. split; [|split; reflexivity].
      intros r Hr. destruct (record_of (UserRow.id u) d r) eqn:E;
        [exfalso|reflexivity].
      unfold record_of in E. apply andb_true_iff in E. destruct E as [E1 E2].
      apply Z.eqb_eq in E1.
      assert (Hin : In r records) by (apply filter_In; auto).
      pose proof (dict_from_has AttendanceRecord.student_id records [] r Hin)
        as Hhas.
      fold by_student in Hhas. rewrite E1 in Hhas. congruence. }
  split.
  { intros Hd. unfold unmarked_status.
    apply Z.eqb_neq in Hd. now rewrite Hd. }
  clear Hopen. unfold unmarked_status. rewrite Z.eqb_refl. cbn [andb].
  destruct (DetailedAttendanceRepository.any_window_still_open _ _ _) eqn:E.
  - split; [intros _|reflexivity].
    apply any_window_still_open_iff in E. destruct E as (w & Hw & Hd & Ht).
    apply filter_In in Hw. exists w. tauto.
  - split; [discriminate|]. intros (w & Hw & Ha & Hd & Ht).
    assert (DetailedAttendanceRepository.any_window_still_open
              (filter (fun w => AttendanceWindow.is_active w)
                      (attendance_windows db))
              (dt_time now) (weekday (dt_date now)) = true); [|congruence].
    apply any_window_still_open_iff. exists w.
    split; [apply filter_In; auto|auto].
Qed.


Lemma count_by_role_get (users : list UserRow.t) (r : UserRole.t) :
  str_dict_get (UserRepository.count_by_role users) (UserRole.value r) 0
  = len (filter (fun u => UserRole.eqb (UserRow.role u) r) users).
Proof.
  unfold UserRepository.count_by_role, UserRole.all. cbn [flat_map].
  assert (Hz : forall n : Z, 0 <= n -> (0 <? n) = false -> n = 0)
    by (intros n Hn Hlt; apply Z.ltb_ge in Hlt; lia).
  assert (Hlen : forall p, 0 <= len (filter p users))
    by (intros p; unfold len; lia).
  destruct r;
    repeat match goal with
    | |- context [if 0 <? len (filter ?p users) then _ else _] =>
        let E := fresh "E" in
        destruct (0 <? len (filter p users)) eqn:E;
        [|apply (Hz _ (Hlen p)) in E]
    end;
    cbn [app str_dict_get UserRole.value String.eqb Ascii.eqb Bool.eqb];
    congruence.
Qed.

Lemma student_roles_split (users : list UserRow.t) :
  len (filter (fun u => UserRole.eqb (UserRow.role u) UserRole.STUDENT) users)
  + len (filter (fun u => UserRole.eqb (UserRow.role u) UserRole.HOSTELLER)
                users)
  + len (filter (fun u => UserRole.eqb (UserRow.role u) UserRole.DAY_SCHOLAR)
                users)
  = len (filter (fun u => is_student_role (UserRow.role u)) users).
Proof.
  unfold len. induction users as [|u t IH]; [reflexivity|].
  cbn [filter]. destruct (UserRow.role u); cbn [UserRole.eqb is_student_role];
    cbn [Datatypes.length]; lia.
Qed.

Lemma active_inactive_split (users : list UserRow.t) :
  len (filter (fun u => is_student_role (UserRow.role u)) users)
  = len (filter active_student users)
    + len (filter (fun u => is_student_role (UserRow.role u)
                            && negb (UserRow.is_active u)) users).
Proof.
  unfold len, active_student. induction users as [|u t IH]; [reflexivity|].
  cbn [filter].
  destruct (is_student_role (UserRow.role u)), (UserRow.is_active u);
    cbn [andb negb Datatypes.length]; lia.
Qed.

Lemma filter_none {A : Type} (p : A -> bool) (l : list A) :
  (forall x, In x l -> p x = false) -> filter p l = [].
Proof.
  induction l as [|x t IH]; [reflexivity|]. intros H. cbn [filter].
  rewrite (H x (or_introl eq_refl)). apply IH. intros y Hy. apply H.
  now right.
Qed.

(** X23: the dashboard of a date counts as students all users with role
    STUDENT, HOSTELLER or DAY_SCHOLAR, active or not, so its total is the
    total of the detailed list plus the number of deactivated students; the
    present count is the number of PRESENT records of the date, whoever they
    belong to, and the absent count is the difference of the two (it is not
    clamped at zero); the failed count is the repository's count of the
    date; with no student the percentage is 0.  Without a date the endpoint
    reports today. *)
Theorem dashboard_counts (users : list UserRow.t) (db : Db) (now : datetime)
    (d : date) :
  let s := AttendanceService.get_dashboard_stats users db d in
  AdminAttendanceRouter.get_dashboard_stats users db now None
  = AttendanceService.get_dashboard_stats users db (dt_date now)
  /\ ds_date s = d
  /\ ds_total_students s
     = len (filter (fun u => is_student_role (UserRow.role u)) users)
  /\ ds_total_students s
     = dl_total_students
         (AttendanceService.get_detailed_attendance_for_date users db now d)
       + len (filter (fun u => is_student_role (UserRow.role u)
                               && negb (UserRow.is_active u)) users)
  /\ ds_present_count s
     = len (filter (fun r => (AttendanceRecord.attendance_date r =? d)
                             && AttendanceStatus.eqb (AttendanceRecord.status r)
                                                     AttendanceStatus.PRESENT)
                   (attendance_records db))
  /\ ds_absent_count s = ds_total_students s - ds_present_count s
  /\ ds_failed_attempts_count s
     = AttendanceAttemptRepository.count_failed_for_date db d
  /\ (ds_total_students s = 0 -> ds_attendance_percentage s = 0%float)
  /\ ((forall u, In u users -> is_student_role (UserRow.role u) = false) ->
      ds_total_students s = 0
      /\ ds_absent_count s = - ds_present_count s).
Proof.
  intros s. split; [reflexivity|]. split; [reflexivity|].
  assert (Htotal : ds_total_students s
                   = len (filter (fun u => is_student_role (UserRow.role u))
                                 users)).
  { unfold s, AttendanceService.get_dashboard_stats.
    cbn [ds_total_students].
    change "STUDENT" with (UserRole.value UserRole.STUDENT).
    change "HOSTELLER" with (UserRole.value UserRole.HOSTELLER).
    change "DAY_SCHOLAR" with (UserRole.value UserRole.DAY_SCHOLAR).
    rewrite !count_by_role_get. apply student_roles_split. }
  split; [exact Htotal|].
  split.
  { rewrite Htotal, active_inactive_split. f_equal.
    unfold AttendanceService.get_detailed_attendance_for_date,
      DetailedAttendanceRepository.get_all_students_with_attendance_for_date.
    cbn [dl_total_students]. rewrite student_filter_eq.
    unfold len. now rewrite length_map, length_order_by. }
  split; [reflexivity|]. split; [reflexivity|]. split; [reflexivity|].
  split.
  { intros H0. unfold s, AttendanceService.get_dashboard_stats in *.
    cbn [ds_total_students ds_attendance_percentage] in *.
    rewrite H0. reflexivity. }
  intros Hnone.
  assert (H0 : ds_total_students s = 0).
  { rewrite Htotal. unfold len.
    replace (filter (fun u => is_student_role (UserRow.role u)) users)
      with (@nil UserRow.t); [reflexivity|].
    symmetry. apply filter_none. exact Hnone. }
  split; [exact H0|].
  change (ds_absent_count s) with (ds_total_students s - ds_present_count s).
  rewrite H0. lia.
Qed.


Lemma no_row_on_inactive_date (db : Db) (d : date) :
  NoDup (map Holiday.date_ (holidays db)) ->
  Forall (fun h => Holiday.is_active h = true) (holidays db) ->
  HolidayRepository.get_by_date db d = Ok None ->
  forall x, In x (holidays db) -> Holiday.date_ x <> d.
Proof.
  intros Hnd Hact Hget x Hx Hd.
  rewrite Forall_forall in Hact.
  rewrite <- Hd, (get_by_date_found db x Hnd Hx (Hact x Hx)) in Hget.
  discriminate.
Qed.

Lemma uq_date_fresh (rows : list Holiday.t) (h : Holiday.t) :
  (forall x, In x rows -> Holiday.date_ x <> Holiday.date_ h) ->
  HolidayRepository.uq_date h rows = true.
Proof.
  intros Hno. unfold HolidayRepository.uq_date. apply negb_true_iff.
  destruct (existsb _ rows) eqn:E; [|reflexivity].
  apply existsb_exists in E. destruct E as (x & Hx & E).
  apply andb_true_iff in E. destruct E as [_ E]. apply Z.eqb_eq in E.
  now destruct (Hno x Hx).
Qed.

(** One line of the bulk import, run in a table without soft-deleted rows,
    and the same line run again in any later table. *)
Lemma bulk_line_replay (admin_id year : Z) (s : AttendanceService.bulk_state)
    (n : Z) (line : string) (s' : AttendanceService.bulk_state) :
  holidays_wf (AttendanceService.bs_db s) ->
  Forall (fun h => Holiday.is_active h = true)
         (holidays (AttendanceService.bs_db s)) ->
  AttendanceService.bulk_line admin_id year s n line = Ok s' ->
  holidays_wf (AttendanceService.bs_db s')
  /\ Forall (fun h => Holiday.is_active h = true)
            (holidays (AttendanceService.bs_db s'))
  /\ (exists new,
         AttendanceService.bs_db s'
         = with_holidays (holidays (AttendanceService.bs_db s) ++ new)
                         (AttendanceService.bs_db s)
         /\ AttendanceService.bs_created s'
            = AttendanceService.bs_created s
              ++ map (fun h => mk_created (date_isoformat (Holiday.date_ h))
                                          (Holiday.name h)) new
         /\ Forall (fun h => Holiday.holiday_type h = "GENERAL"
                             /\ Holiday.is_recurring h = true
                             /\ Holiday.description h = None
                             /\ Holiday.created_by h = Some admin_id) new)
  /\ forall admin_id' t m,
       holidays_wf (AttendanceService.bs_db t) ->
       incl (holidays (AttendanceService.bs_db s'))
            (holidays (AttendanceService.bs_db t)) ->
       exists t',
         AttendanceService.bulk_line admin_id' year t m line = Ok t'
         /\ AttendanceService.bs_db t' = AttendanceService.bs_db t
         /\ AttendanceService.bs_created t' = AttendanceService.bs_created t
         /\ len (AttendanceService.bs_errors t')
            = len (AttendanceService.bs_errors t)
              + (if is_skipped_line line then 0 else 1).
Proof.
  intros Hwf Hact. unfold AttendanceService.bulk_line, is_skipped_line.
  cbv zeta.
  assert (Hsame : forall db : Db, with_holidays (holidays db ++ []) db = db).
  { intros db. rewrite app_nil_r. now destruct db. }
  assert (Hskip : Ok s = Ok s' ->
            holidays_wf (AttendanceService.bs_db s')
            /\ Forall (fun h => Holiday.is_active h = true)
                      (holidays (AttendanceService.bs_db s'))
            /\ (exists new,
                   AttendanceService.bs_db s'
                   = with_holidays
                       (holidays (AttendanceService.bs_db s) ++ new)
                       (AttendanceService.bs_db s)
                   /\ AttendanceService.bs_created s'
                      = AttendanceService.bs_created s
                        ++ map (fun h =>
                                  mk_created (date_isoformat (Holiday.date_ h))
                                             (Holiday.name h)) new
                   /\ Forall (fun h => Holiday.holiday_type h = "GENERAL"
                                       /\ Holiday.is_recurring h = true
                                       /\ Holiday.description h = None
                                       /\ Holiday.created_by h = Some admin_id)
                             new)).
  { intros H. injection H as <-. split; [exact Hwf|]. split; [exact Hact|].
    exists []. rewrite Hsame. cbn [map]. rewrite app_nil_r. auto. }
  assert (Herr : forall msg,
            Ok (AttendanceService.add_error s n msg) = Ok s' ->
            holidays_wf (AttendanceService.bs_db s')
            /\ Forall (fun h => Holiday.is_active h = true)
                      (holidays (AttendanceService.bs_db s'))
            /\ (exists new,
                   AttendanceService.bs_db s'
                   = with_holidays
                       (holidays (AttendanceService.bs_db s) ++ new)
                       (AttendanceService.bs_db s)
                   /\ AttendanceService.bs_created s'
                      = AttendanceService.bs_created s
                        ++ map (fun h =>
                                  mk_created (date_isoformat (Holiday.date_ h))
                                             (Holiday.name h)) new
                   /\ Forall (fun h => Holiday.holiday_type h = "GENERAL"
                                       /\ Holiday.is_recurring h = true
                                       /\ Holiday.description h = None
                                       /\ Holiday.created_by h = Some admin_id)
                             new)).
  { intros msg H. injection H as <-.
    cbn [AttendanceService.add_error AttendanceService.bs_db
         AttendanceService.bs_created].
    split; [exact Hwf|]. split; [exact Hact|].
    exists []. rewrite Hsame. cbn [map]. rewrite app_nil_r. auto. }
  assert (Hlen : forall (t : AttendanceService.bulk_state) m msg,
            exists t',
              Ok (AttendanceService.add_error t m msg) = Ok t'
              /\ AttendanceService.bs_db t' = AttendanceService.bs_db t
              /\ AttendanceService.bs_created t'
                 = AttendanceService.bs_created t
              /\ len (AttendanceService.bs_errors t')
                 = len (AttendanceService.bs_errors t) + 1).
  { intros t m msg. eexists. split; [reflexivity|].
    cbn [AttendanceService.add_error AttendanceService.bs_db
         AttendanceService.bs_created AttendanceService.bs_errors].
    split; [reflexivity|]. split; [reflexivity|].
    unfold len. rewrite length_app. cbn [Datatypes.length]. lia. }
  destruct (String.length (strip line) =? 0)%nat; cbn [orb].
  { intros H. destruct (Hskip H) as (H1 & H2 & H3).
    split; [exact H1|]. split; [exact H2|]. split; [exact H3|].
    intros a t m _ _. exists t. rewrite Z.add_0_r. auto. }
  destruct (str_in "date" (lower (strip line))
            && str_in "holiday" (lower (strip line))).
  { intros H. destruct (Hskip H) as (H1 & H2 & H3).
    split; [exact H1|]. split; [exact H2|]. split; [exact H3|].
    intros a t m _ _. exists t. rewrite Z.add_0_r. auto. }
  destruct (len _ <? 2).
  { intros H. destruct (Herr _ H) as (H1 & H2 & H3).
    split; [exact H1|]. split; [exact H2|]. split; [exact H3|].
    intros a t m _ _. apply Hlen. }
  destruct (re_match_date _) as [[g1 g2]|].
  2:{ intros H. destruct (Herr _ H) as (H1 & H2 & H3).
      split; [exact H1|]. split; [exact H2|]. split; [exact H3|].
      intros a t m _ _. apply Hlen. }
  destruct (py_int _) as [day|e]; cbn [bind]; [|intros H; discriminate H].
  destruct (AttendanceService.month_map_get _ _) as [month|].
  2:{ intros H. destruct (Herr _ H) as (H1 & H2 & H3).
      split; [exact H1|]. split; [exact H2|]. split; [exact H3|].
      intros a t m _ _. apply Hlen. }
  destruct (date_new year month _) as [holiday_date|e] eqn:Hdate.
  2:{ destruct e; try (intros H; discriminate H).
      intros H. destruct (Herr _ H) as (H1 & H2 & H3).
      split; [exact H1|]. split; [exact H2|]. split; [exact H3|].
      intros a t m _ _. apply Hlen. }
  assert (Hreplay : forall h,
            In h (holidays (AttendanceService.bs_db s')) ->
            Holiday.date_ h = holiday_date -> Holiday.is_active h = true ->
            forall admin_id' t m,
              holidays_wf (AttendanceService.bs_db t) ->
              incl (holidays (AttendanceService.bs_db s'))
                   (holidays (AttendanceService.bs_db t)) ->
              exists t',
                (existing <- HolidayRepository.get_by_date
                               (AttendanceService.bs_db t) holiday_date ;;
                 match existing with
                 | Some _ =>
                     Ok (AttendanceService.add_error t m
                           ("Holiday already exists for "
                            ++ date_isoformat holiday_date)%string)
                 | None =>
                     match
                       HolidayRepository.create (AttendanceService.bs_db t)
                         (mk_holiday_data holiday_date
                            (last (map strip
                                     (filter
                                        (fun p => negb (String.length (strip p)
                                                        =? 0)%nat)
                                        (re_split (strip line)))) "")
                            None (Some "GENERAL") (Some true)) admin_id'
                     with
                     | Ok (_, db) =>
                         Ok (AttendanceService.mk_bulk_state db
                               (AttendanceService.bs_created t ++
                                [mk_created (date_isoformat holiday_date)
                                   (last (map strip
                                            (filter
                                               (fun p =>
                                                  negb (String.length (strip p)
                                                        =? 0)%nat)
                                               (re_split (strip line)))) "")])
                               (AttendanceService.bs_errors t))
                     | Raise e =>
                         Ok (AttendanceService.add_error t m
                               ("Failed to create - " ++ exn_str e)%string)
                     end
                 end) = Ok t'
                /\ AttendanceService.bs_db t' = AttendanceService.bs_db t
                /\ AttendanceService.bs_created t'
                   = AttendanceService.bs_created t
                /\ len (AttendanceService.bs_errors t')
                   = len (AttendanceService.bs_errors t) + 1).
  { intros h Hin Hd Ha a t m Hwft Hincl.
    subst holiday_date.
    rewrite (get_by_date_found _ h (proj2 Hwft) (Hincl h Hin) Ha).
    cbn [bind]. apply Hlen. }
  destruct (get_by_date_defined (AttendanceService.bs_db s) holiday_date
              (proj2 Hwf)) as [existing Hget].
  rewrite Hget. cbn [bind]. destruct existing as [h0|].
  { intros H. destruct (Herr _ H) as (H1 & H2 & H3).
    split; [exact H1|]. split; [exact H2|]. split; [exact H3|].
    rewrite (get_by_date_unique _ _ (proj2 Hwf)) in Hget.
    injection Hget as Hget. apply hd_error_filter_some in Hget.
    destruct Hget as [Hin0 Hp0]. apply andb_true_iff in Hp0.
    destruct Hp0 as [Hd0 Ha0]. apply Z.eqb_eq in Hd0.
    apply eqb_prop in Ha0.
    apply (Hreplay h0); try assumption.
    injection H as <-. exact Hin0. }
  pose proof (no_row_on_inactive_date _ _ (proj2 Hwf) Hact Hget) as Hno.
  unfold HolidayRepository.create at 1.
  cbn [hd_date hd_name hd_description hd_holiday_type hd_is_recurring
       dict_get].
  rewrite uq_date_fresh by (cbn [Holiday.date_]; exact Hno).
  intros H. injection H as <-.
  cbn [AttendanceService.bs_db AttendanceService.bs_created holidays
       with_holidays].
  match goal with
  | |- context [holidays (AttendanceService.bs_db s) ++ [?row]] =>
      set (h := row)
  end.
  assert (Hcreate : HolidayRepository.create (AttendanceService.bs_db s)
                      (mk_holiday_data holiday_date (Holiday.name h) None
                         (Some "GENERAL") (Some true)) admin_id
                    = Ok (h, with_holidays
                               (holidays (AttendanceService.bs_db s) ++ [h])
                               (AttendanceService.bs_db s))).
  { unfold HolidayRepository.create.
    cbn [hd_date hd_name hd_description hd_holiday_type hd_is_recurring
         dict_get].
    fold h. rewrite uq_date_fresh by (cbn [Holiday.date_]; exact Hno).
    reflexivity. }
  destruct (holiday_create_wf _ _ _ _ _ Hwf Hcreate) as (Hwf' & _).
  split; [exact Hwf'|].
  split.
  { cbn [holidays with_holidays]. apply Forall_app. split; [exact Hact|].
    constructor; [reflexivity|constructor]. }
  split.
  { exists [h]. split; [reflexivity|]. split; [reflexivity|].
    constructor; [|constructor]. cbn. auto. }
  apply (Hreplay h); [|reflexivity|reflexivity].
  cbn [holidays with_holidays]. apply in_or_app. right. now left.
Qed.

Lemma with_holidays_app (db : Db) (l new : list Holiday.t) :
  with_holidays (holidays (with_holidays l db) ++ new) (with_holidays l db)
  = with_holidays (l ++ new) db.
Proof. now destruct db. Qed.

Lemma bulk_lines_replay (admin_id year : Z) (lines : list string) :
  forall (s : AttendanceService.bulk_state) (n : Z)
         (s' : AttendanceService.bulk_state),
    holidays_wf (AttendanceService.bs_db s) ->
    Forall (fun h => Holiday.is_active h = true)
           (holidays (AttendanceService.bs_db s)) ->
    AttendanceService.bulk_lines admin_id year s n lines = Ok s' ->
    holidays_wf (AttendanceService.bs_db s')
    /\ Forall (fun h => Holiday.is_active h = true)
              (holidays (AttendanceService.bs_db s'))
    /\ (exists new,
           AttendanceService.bs_db s'
           = with_holidays (holidays (AttendanceService.bs_db s) ++ new)
                           (AttendanceService.bs_db s)
           /\ AttendanceService.bs_created s'
              = AttendanceService.bs_created s
                ++ map (fun h => mk_created (date_isoformat (Holiday.date_ h))
                                            (Holiday.name h)) new
           /\ Forall (fun h => Holiday.holiday_type h = "GENERAL"
                               /\ Holiday.is_recurring h = true
                               /\ Holiday.description h = None
                               /\ Holiday.created_by h = Some admin_id) new)
    /\ forall admin_id' t m,
         holidays_wf (AttendanceService.bs_db t) ->
         incl (holidays (AttendanceService.bs_db s'))
              (holidays (AttendanceService.bs_db t)) ->
         exists t',
           AttendanceService.bulk_lines admin_id' year t m lines = Ok t'
           /\ AttendanceService.bs_db t' = AttendanceService.bs_db t
           /\ AttendanceService.bs_created t' = AttendanceService.bs_created t
           /\ len (AttendanceService.bs_errors t')
              = len (AttendanceService.bs_errors t)
                + len (filter (fun l => negb (is_skipped_line l)) lines).
Proof.
  induction lines as [|line lines IH]; intros s n s' Hwf Hact.
  - cbn [AttendanceService.bulk_lines]. intros H. injection H as <-.
    split; [exact Hwf|]. split; [exact Hact|]. split.
    { exists []. rewrite app_nil_r. cbn [map]. rewrite app_nil_r.
      split; [now destruct (AttendanceService.bs_db s)|]. auto. }
    intros a t m _ _. exists t. cbn [filter]. unfold len at 3.
    cbn [Datatypes.length]. rewrite Z.add_0_r. auto.
  - cbn [AttendanceService.bulk_lines].
    destruct (AttendanceService.bulk_line admin_id year s n line)
      as [s1|e] eqn:Hline; [|discriminate].
    cbn [bind]. intros Hrest.
    destruct (bulk_line_replay _ _ _ _ _ _ Hwf Hact Hline)
      as (Hwf1 & Hact1 & (new1 & Hdb1 & Hc1 & Hnew1) & Hreplay1).
    destruct (IH s1 (n + 1) s' Hwf1 Hact1 Hrest)
      as (Hwf' & Hact' & (new2 & Hdb2 & Hc2 & Hnew2) & Hreplay2).
    split; [exact Hwf'|]. split; [exact Hact'|]. split.
    { exists (new1 ++ new2). rewrite Hdb2, Hdb1, with_holidays_app, app_assoc.
      split; [reflexivity|]. rewrite Hc2, Hc1, map_app, app_assoc.
      split; [reflexivity|]. apply Forall_app. auto. }
    intros a t m Hwft Hincl.
    assert (Hincl1 : incl (holidays (AttendanceService.bs_db s1))
                          (holidays (AttendanceService.bs_db t))).
    { intros x Hx. apply Hincl. rewrite Hdb2. cbn [holidays with_holidays].
      apply in_or_app. now left. }
    destruct (Hreplay1 a t m Hwft Hincl1) as (t1 & Hrun1 & Hdbt1 & Hct1 & Het1).
    rewrite Hrun1. cbn [bind].
    destruct (Hreplay2 a t1 (m + 1)) as (t' & Hrun' & Hdbt' & Hct' & Het').
    { now rewrite Hdbt1. }
    { now rewrite Hdbt1. }
    exists t'. split; [exact Hrun'|]. split; [congruence|].
    split; [congruence|]. rewrite Het', Het1. cbn [filter].
    destruct (is_skipped_line line); cbn [negb]; unfold len;
      cbn [Datatypes.length]; lia.
Qed.

Lemma bulk_line_counts (admin_id year : Z) (s : AttendanceService.bulk_state)
    (n : Z) (line : string) (s' : AttendanceService.bulk_state) :
  AttendanceService.bulk_line admin_id year s n line = Ok s' ->
  len (AttendanceService.bs_created s') + len (AttendanceService.bs_errors s')
  = len (AttendanceService.bs_created s) + len (AttendanceService.bs_errors s)
    + (if is_skipped_line line then 0 else 1).
Proof.
  unfold AttendanceService.bulk_line, is_skipped_line. cbv zeta.
  destruct (String.length (strip line) =? 0)%nat; cbn [orb].
  { intros H. injection H as <-. lia. }
  destruct (str_in "date" (lower (strip line))
            && str_in "holiday" (lower (strip line))).
  { intros H. injection H as <-. lia. }
  assert (Herr : forall msg,
            Ok (AttendanceService.add_error s n msg) = Ok s' ->
            len (AttendanceService.bs_created s')
            + len (AttendanceService.bs_errors s')
            = len (AttendanceService.bs_created s)
              + len (AttendanceService.bs_errors s) + 1).
  { intros msg H. injection H as <-.
    cbn [AttendanceService.add_error AttendanceService.bs_created
         AttendanceService.bs_errors].
    unfold len. rewrite length_app. cbn [Datatypes.length]. lia. }
  destruct (len _ <? 2); [apply Herr|].
  destruct (re_match_date _) as [[g1 g2]|]; [|apply Herr].
  destruct (py_int _) as [day|e]; cbn [bind]; [|intros H; discriminate H].
  destruct (AttendanceService.month_map_get _ _) as [month|]; [|apply Herr].
  destruct (date_new year month day) as [holiday_date|e].
  2:{ destruct e; try (intros H; discriminate H). apply Herr. }
  destruct (HolidayRepository.get_by_date _ _) as [existing|e]; cbn [bind];
    [|intros H; discriminate H].
  destruct existing as [h0|]; [apply Herr|].
  destruct (HolidayRepository.create _ _ _) as [[h db']|e]; [|apply Herr].
  intros H. injection H as <-.
  cbn [AttendanceService.bs_created AttendanceService.bs_errors].
  unfold len. rewrite length_app. cbn [Datatypes.length]. lia.
Qed.

Lemma bulk_lines_counts (admin_id year : Z) (lines : list string) :
  forall (s : AttendanceService.bulk_state) (n : Z)
         (s' : AttendanceService.bulk_state),
    AttendanceService.bulk_lines admin_id year s n lines = Ok s' ->
    len (AttendanceService.bs_created s')
    + len (AttendanceService.bs_errors s')
    = len (AttendanceService.bs_created s)
      + len (AttendanceService.bs_errors s)
      + len (filter (fun l => negb (is_skipped_line l)) lines).
Proof.
  induction lines as [|line lines IH]; intros s n s';
    cbn [AttendanceService.bulk_lines].
  - intros H. injection H as <-. cbn [filter]. unfold len at 5.
    cbn [Datatypes.length]. lia.
  - destruct (AttendanceService.bulk_line admin_id year s n line)
      as [s1|e] eqn:Hline; cbn [bind]; [|intros H; discriminate H].
    intros Hrest. apply IH in Hrest. apply bulk_line_counts in Hline.
    cbn [filter]. destruct (is_skipped_line line); cbn [negb];
      unfold len in *; cbn [Datatypes.length]; lia.
Qed.

(** X24: importing the same text twice.  In a holiday table with unique ids
    and dates and no soft-deleted row, a bulk import that returns has kept
    every other table and every existing holiday and has appended one
    active, recurring holiday of type GENERAL, credited to the admin, for
    each entry of its [created] list, in order; its created and error
    counts together are the number of lines that are not skipped.  A second
    import of the same text for the same year, by whichever admin, returns
    as well, creates nothing, leaves the database as it is, and reports one
    error for every line that is not skipped. *)
Theorem bulk_import_twice (db : Db) (admin_id : Z) (text : string)
    (year : Z) (res : bulk_result) (db' : Db) :
  holidays_wf db ->
  Forall (fun h => Holiday.is_active h = true) (holidays db) ->
  AttendanceService.bulk_create_holidays db admin_id text year
  = Ok (res, db') ->
  (exists new,
      db' = with_holidays (holidays db ++ new) db
      /\ created res
         = map (fun h => mk_created (date_isoformat (Holiday.date_ h))
                                    (Holiday.name h)) new
      /\ Forall (fun h => Holiday.is_active h = true
                          /\ Holiday.holiday_type h = "GENERAL"
                          /\ Holiday.is_recurring h = true
                          /\ Holiday.description h = None
                          /\ Holiday.created_by h = Some admin_id) new)
  /\ created_count res + error_count res
     = len (filter (fun l => negb (is_skipped_line l))
                   (split_lines (strip text)))
  /\ forall admin_id',
       exists res',
         AttendanceService.bulk_create_holidays db' admin_id' text year
         = Ok (res', db')
         /\ created res' = []
         /\ created_count res' = 0
         /\ error_count res' = created_count res + error_count res.
Proof.
  intros Hwf Hact Hcall.
  unfold AttendanceService.bulk_create_holidays in Hcall.
  destruct (AttendanceService.bulk_lines admin_id year
              (AttendanceService.mk_bulk_state db [] []) 1
              (split_lines (strip text))) as [s'|e] eqn:Hrun;
    cbn [bind] in Hcall; [|discriminate Hcall].
  injection Hcall as <- <-.
  pose proof (bulk_lines_counts _ _ _ _ _ _ Hrun) as Hcount.
  cbn [AttendanceService.bs_created AttendanceService.bs_errors] in Hcount.
  destruct (bulk_lines_replay admin_id year (split_lines (strip text))
              (AttendanceService.mk_bulk_state db [] []) 1 s' Hwf Hact Hrun)
    as (Hwf' & Hall & (new & Hdb & Hcreated & Hnew) & Hreplay).
  cbn [AttendanceService.bs_db AttendanceService.bs_created app]
    in Hdb, Hcreated.
  cbn [created created_count error_count].
  split.
  { exists new. split; [exact Hdb|]. split; [exact Hcreated|].
    rewrite Hdb in Hall. cbn [holidays with_holidays] in Hall.
    apply Forall_app in Hall. destruct Hall as [_ Hall].
    rewrite Forall_forall in *. intros h Hh. split; [auto|]. apply Hnew, Hh. }
  split.
  { rewrite Hcount. unfold len at 1 2. cbn [Datatypes.length]. lia. }
  intros a.
  destruct (Hreplay a
              (AttendanceService.mk_bulk_state (AttendanceService.bs_db s')
                                               [] []) 1)
    as (t' & Hrun' & Hdbt & Hct & Het).
  { exact Hwf'. }
  { apply incl_refl. }
  unfold AttendanceService.bulk_create_holidays. rewrite Hrun'. cbn [bind].
  cbn [AttendanceService.bs_db AttendanceService.bs_created
       AttendanceService.bs_errors] in Hdbt, Hct, Het.
  eexists. split; [now rewrite Hdbt|].
  cbn [created created_count error_count]. rewrite Hct.
  split; [reflexivity|]. split; [reflexivity|].
  rewrite Het, Hcount. unfold len at 1 3 4. cbn [Datatypes.length]. lia.
Qed.

Lemma bulk_import_twice_witness :
  let db := mk_db [] [] [] [] [] [] [] [] in
  holidays_wf db
  /\ Forall (fun h => Holiday.is_active h = true) (holidays db)
  /\ exists res db',
       AttendanceService.bulk_create_holidays db 1 example_text 2025
       = Ok (res, db')
       /\ forall admin_id',
            exists res',
              AttendanceService.bulk_create_holidays db' admin_id'
                                                     example_text 2025
              = Ok (res', db')
              /\ created res' = []
              /\ error_count res' = created_count res + error_count res.
Proof.
  intros db.
  assert (Hwf : holidays_wf db) by (split; constructor).
  assert (Hact : Forall (fun h => Holiday.is_active h = true) (holidays db))
    by constructor.
  split; [exact Hwf|]. split; [exact Hact|].
  assert (Hno : forall h, In h (holidays db) -> Holiday.date_ h <> 739252)
    by (intros h []).
  pose proof (bulk_example db 1 Hno) as Hrun.
  destruct (bulk_import_twice db 1 example_text 2025 _ _ Hwf Hact Hrun)
    as (_ & _ & Hagain).
  eexists. eexists. split; [exact Hrun|].
  intros a. destruct (Hagain a) as (res' & Hrun' & Hc & _ & He).
  exists res'. auto.
Defined.


Lemma dates_down_descending (last : date) (n : nat) :
  StronglySorted (fun a b => b < a) (dates_down last n).
Proof.
  revert last. induction n as [|n IH]; intros last; cbn [dates_down];
    constructor; [apply IH|].
  apply Forall_forall. intros d Hd. apply in_dates_down in Hd. lia.
Qed.

Lemma flat_map_descending (f : date -> list history_entry) (l : list date) :
  (forall d x, In x (f d) -> entry_date x = d) ->
  (forall d, (List.length (f d) <= 1)%nat) ->
  StronglySorted (fun a b => b < a) l ->
  StronglySorted (fun a b => entry_date b < entry_date a) (flat_map f l).
Proof.
  intros Hkey Hone. induction 1 as [|a l Hs IH Hall]; cbn [flat_map];
    [constructor|].
  pose proof (Hone a) as Hlen. pose proof (Hkey a) as Ha.
  destruct (f a) as [|x [|y t]]; cbn [Datatypes.length app] in *;
    [exact IH| |lia].
  constructor; [exact IH|].
  apply Forall_forall. intros y Hy. apply in_flat_map in Hy.
  destruct Hy as (d & Hd & Hy). rewrite (Hkey d y Hy), (Ha x (or_introl eq_refl)).
  rewrite Forall_forall in Hall. now apply Hall.
Qed.

Lemma length_flat_map_filter (f : date -> list history_entry)
    (g : date -> bool) (l : list date) :
  (forall d, In d l -> List.length (f d) = if g d then 1%nat else 0%nat) ->
  List.length (flat_map f l) = List.length (filter g l).
Proof.
  induction l as [|a l IH]; intros H; [reflexivity|].
  cbn [flat_map filter]. rewrite length_app, (H a (or_introl eq_refl)).
  rewrite IH by (intros d Hd; apply H; now right).
  now destruct (g a).
Qed.

Lemma length_filter_Permutation {A : Type} (p : A -> bool) (l l' : list A) :
  Permutation l l' ->
  List.length (filter p l) = List.length (filter p l').
Proof.
  induction 1 as [|x l l' _ IH|x y l|l l' l'' _ IH1 _ IH2]; cbn [filter].
  - reflexivity.
  - destruct (p x); cbn [Datatypes.length]; congruence.
  - destruct (p x), (p y); reflexivity.
  - congruence.
Qed.

Lemma NoDup_dates_from (start : date) (n : nat) : NoDup (dates_from start n).
Proof.
  revert start. induction n as [|n IH]; intros start; cbn [dates_from];
    constructor; [|apply IH].
  rewrite in_dates_from. lia.
Qed.

Lemma dates_down_range (s e : date) :
  Permutation (dates_down e (Z.to_nat (e - s + 1))) (date_range s e).
Proof.
  apply NoDup_Permutation.
  - apply NoDup_dates_down.
  - apply NoDup_dates_from.
  - intros d. now rewrite in_stats_range, in_date_range.
Qed.

(** X25: the history that the /history endpoint returns is the history of
    the statistics with its length as total.  Its entries are in strictly
    descending order of their dates (newest first, no date twice); it has at
    most one entry per working day of the range, and exactly as many entries
    as the statistics count working days when the range does not reach
    beyond today; in a range that lies after today it has no synthesized
    entry.  For an explicit range away from the two ends of the calendar the
    endpoint returns. *)
Theorem history_listing (db : Db) (today : date) (current_user : User.t)
    (so eo : option date) :
  (forall records total,
      AttendanceRouter.get_attendance_history db today current_user so eo
      = Ok (records, total) ->
      exists stats,
        DetailedAttendanceRepository.get_student_attendance_stats
          db today (User.id current_user) so eo = Ok stats
        /\ records = st_records stats
        /\ total = len records
        /\ StronglySorted (fun a b => entry_date b < entry_date a) records
        /\ total <= st_total_working_days stats
        /\ (st_end_date stats <= today ->
            total = st_total_working_days stats)
        /\ (today < st_start_date stats ->
            forall x, In x records -> is_virtual x = false))
  /\ (forall s e,
         so = Some s -> eo = Some e -> date_min < s -> e < date_max ->
         is_ok (AttendanceRouter.get_attendance_history
                  db today current_user so eo) = true).
Proof.
  unfold AttendanceRouter.get_attendance_history,
    AttendanceService.get_student_attendance_history.
  split.
  2:{ intros s e -> -> Hs He.
      pose proof (stats_total db today (User.id current_user) s e Hs He) as H.
      destruct (DetailedAttendanceRepository.get_student_attendance_stats
                  _ _ _ _ _); [reflexivity|discriminate]. }
  intros records total.
  destruct (DetailedAttendanceRepository.get_student_attendance_stats
              db today (User.id current_user) so eo) as [stats|] eqn:Hstats;
    cbn [bind]; [|discriminate].
  rewrite map_id. intros H. injection H as <- <-.
  exists stats. split; [reflexivity|]. split; [reflexivity|].
  split; [reflexivity|].
  apply stats_resolved in Hstats. apply stats_explicit in Hstats.
  cbv zeta in Hstats. destruct Hstats as (_ & _ & Hw & _ & _ & _ & Hh).
  rewrite Hh, Hw. clear Hh Hw.
  set (s := st_start_date stats). set (e := st_end_date stats).
  set (hdates := HolidayRepository.get_holiday_dates_in_range db s e).
  set (rbd := records_by_date_from [] _).
  set (f := history_entries today (User.id current_user) hdates rbd).
  assert (Hkey : forall d x, In x (f d) -> entry_date x = d).
  { intros d x Hx. apply in_history_entries in Hx.
    destruct Hx as [_ [[r [Hr ->]]|[_ [_ ->]]]]; [|reflexivity].
    apply records_by_date_find in Hr.
    destruct Hr as [[_ Hr]|Hr]; [exact Hr|discriminate]. }
  assert (Hone : forall d, (List.length (f d) <= 1)%nat).
  { intros d. unfold f, history_entries.
    destruct (is_working_day hdates d); [|cbn; lia].
    destruct (dict_find d rbd); [cbn; lia|].
    destruct (d <=? today); cbn; lia. }
  split.
  { apply flat_map_descending; [exact Hkey|exact Hone|].
    apply dates_down_descending. }
  assert (Hle : forall g : date -> bool,
            (forall d, s <= d <= e ->
                       List.length (f d) = if g d then 1%nat else 0%nat) ->
            len (flat_map f (dates_down e (Z.to_nat (e - s + 1))))
            = len (filter g (date_range s e))).
  { intros g Hg. unfold len. f_equal.
    rewrite (length_flat_map_filter f g)
      by (intros d Hd; apply Hg; now apply in_stats_range).
    apply length_filter_Permutation, dates_down_range. }
  split.
  { rewrite (Hle (fun d => working_day db d
                           && match dict_find d rbd with
                              | Some _ => true
                              | None => d <=? today
                              end)).
    - unfold len. apply inj_le.
      apply (length_filter_andb (working_day db)).
    - intros d Hd. unfold f, history_entries, hdates.
      rewrite (is_working_day_in_range db s e d Hd).
      destruct (working_day db d); [|reflexivity]. cbn [andb].
      destruct (dict_find d rbd); [reflexivity|].
      now destruct (d <=? today). }
  split.
  { intros Hpast. apply Hle. intros d Hd. unfold f, history_entries, hdates.
    rewrite (is_working_day_in_range db s e d Hd).
    destruct (working_day db d); [|reflexivity].
    destruct (dict_find d rbd); [reflexivity|].
    assert (Hd' : (d <=? today) = true) by (apply Z.leb_le; lia).
    now rewrite Hd'. }
  intros Hfuture x Hx. apply in_flat_map in Hx.
  destruct Hx as (d & Hd & Hx). apply in_stats_range in Hd.
  apply in_history_entries in Hx.
  destruct Hx as [_ [[r [_ ->]]|[_ [Hdt _]]]]; [reflexivity|lia].
Qed.


Lemma all_from_spec (p : Z -> bool) (n : nat) (lo : Z) :
  all_from p n lo = true ->
  forall d, lo <= d < lo + Z.of_nat n -> p d = true.
Proof.
  revert lo. induction n as [|n IH]; intros lo H d Hd; [lia|].
  cbn [all_from] in H. apply andb_true_iff in H. destruct H as [H0 H].
  destruct (Z.eq_dec d lo) as [->|Hne]; [exact H0|].
  apply (IH (lo + 1) H). lia.
Qed.

Lemma ord2ymd_month_and_day (d : date) :
  let n := d - 1 in
  let a := n / 146097 in
  let b := (n mod 146097) / 36524 in
  let c := ((n mod 146097) mod 36524) / 1461 in
  let e := (((n mod 146097) mod 36524) mod 1461) / 365 in
  let k := (((n mod 146097) mod 36524) mod 1461) mod 365 in
  let year := a * 400 + 1 + b * 100 + c * 4 + e in
  _ord2ymd d
  = if (e =? 4) || (b =? 4) then (year - 1, 12, 31)
    else month_and_day year ((e =? 3) && (negb (c =? 24) || (b =? 3))) k.
Proof. reflexivity. Qed.

Lemma days_before_year_formula (a b c e : Z) :
  0 <= b <= 3 -> 0 <= c <= 24 -> 0 <= e <= 3 ->
  _days_before_year (a * 400 + 1 + b * 100 + c * 4 + e)
  = 146097 * a + 36524 * b + 1461 * c + 365 * e.
Proof.
  intros Hb Hc He. unfold _days_before_year. cbv zeta.
  replace (a * 400 + 1 + b * 100 + c * 4 + e - 1)
    with (a * 400 + b * 100 + c * 4 + e) by lia.
  assert (H4 : (a * 400 + b * 100 + c * 4 + e) / 4 = 100 * a + 25 * b + c)
    by (symmetry; apply (Z.div_unique _ _ _ e); lia).
  assert (H100 : (a * 400 + b * 100 + c * 4 + e) / 100 = 4 * a + b)
    by (symmetry; apply (Z.div_unique _ _ _ (c * 4 + e)); lia).
  assert (H400 : (a * 400 + b * 100 + c * 4 + e) / 400 = a)
    by (symmetry; apply (Z.div_unique _ _ _ (b * 100 + c * 4 + e)); lia).
  rewrite H4, H100, H400. lia.
Qed.

Lemma is_leap_formula (a b c e : Z) :
  0 <= b <= 3 -> 0 <= c <= 24 -> 0 <= e <= 3 ->
  _is_leap (a * 400 + 1 + b * 100 + c * 4 + e)
  = (e =? 3) && (negb (c =? 24) || (b =? 3)).
Proof.
  intros Hb Hc He. unfold _is_leap.
  set (y := a * 400 + 1 + b * 100 + c * 4 + e).
  assert (H4 : y mod 4 = (e + 1) mod 4).
  { unfold y. replace (a * 400 + 1 + b * 100 + c * 4 + e)
      with (e + 1 + (a * 100 + b * 25 + c) * 4) by lia.
    apply Z_mod_plus_full. }
  assert (H100 : y mod 100 = (c * 4 + e + 1) mod 100).
  { unfold y. replace (a * 400 + 1 + b * 100 + c * 4 + e)
      with (c * 4 + e + 1 + (a * 4 + b) * 100) by lia.
    apply Z_mod_plus_full. }
  assert (H400 : y mod 400 = (b * 100 + c * 4 + e + 1) mod 400).
  { unfold y. replace (a * 400 + 1 + b * 100 + c * 4 + e)
      with (b * 100 + c * 4 + e + 1 + a * 400) by lia.
    apply Z_mod_plus_full. }
  rewrite H4, H100, H400.
  destruct (e =? 3) eqn:E3; [apply Z.eqb_eq in E3|apply Z.eqb_neq in E3].
  - subst e. change ((3 + 1) mod 4) with 0. cbn [Z.eqb andb].
    destruct (c =? 24) eqn:E24;
      [apply Z.eqb_eq in E24|apply Z.eqb_neq in E24]; cbn [negb orb].
    + subst c. change (24 * 4 + 3 + 1) with (0 + 1 * 100).
      rewrite Z_mod_plus_full. change (0 mod 100) with 0. cbn [Z.eqb negb orb].
      destruct (b =? 3) eqn:Eb;
        [apply Z.eqb_eq in Eb|apply Z.eqb_neq in Eb].
      * subst b. reflexivity.
      * rewrite Z.mod_small by lia. apply Z.eqb_neq. lia.
    + rewrite (Z.mod_small (c * 4 + 3 + 1)) by lia.
      replace (c * 4 + 3 + 1 =? 0) with false by (symmetry; apply Z.eqb_neq; lia).
      reflexivity.
  - replace ((e + 1) mod 4 =? 0) with false; [reflexivity|].
    symmetry. apply Z.eqb_neq. rewrite Z.mod_small by lia. lia.
Qed.

Lemma month_and_day_half (year : Z) (leapyear : bool) (k : Z) :
  0 <= k <= 364 ->
  let m := snd (fst (month_and_day year leapyear k)) in
  fst (fst (month_and_day year leapyear k)) = year
  /\ 1 <= m <= 12
  /\ (7 <= m <-> 181 + (if leapyear then 1 else 0) <= k).
Proof.
  intros Hk. cbv zeta.
  split.
  { unfold month_and_day. cbv zeta. now destruct (k <? _). }
  assert (Hall : forall l,
            all_from
              (fun k =>
                 let m := snd (fst (month_and_day 0 l k)) in
                 (1 <=? m) && (m <=? 12)
                 && Bool.eqb (7 <=? m) (181 + (if l then 1 else 0) <=? k))
              365 0 = true)
    by (intros [|]; vm_compute; reflexivity).
  pose proof (all_from_spec _ _ _ (Hall leapyear) k) as H.
  cbv zeta in H. specialize (H ltac:(lia)).
  assert (Hm : snd (fst (month_and_day year leapyear k))
               = snd (fst (month_and_day 0 leapyear k))).
  { unfold month_and_day. cbv zeta. now destruct (k <? _). }
  rewrite Hm.
  apply andb_true_iff in H. destruct H as [H H3].
  apply andb_true_iff in H. destruct H as [H1 H2].
  apply Z.leb_le in H1, H2. apply eqb_prop in H3.
  split; [lia|]. rewrite <- !Z.leb_le. rewrite H3. tauto.
Qed.

Lemma days_before_year_step (y : Z) :
  _days_before_year y + 365 <= _days_before_year (y + 1)
  <= _days_before_year y + 366.
Proof.
  unfold _days_before_year. cbv zeta.
  replace (y + 1 - 1) with (y - 1 + 1) by lia.
  set (x := y - 1). Z.div_mod_to_equations. lia.
Qed.

Lemma days_before_year_far (y : Z) :
  10000 <= y -> 3652059 <= _days_before_year y.
Proof.
  intros Hy. unfold _days_before_year. cbv zeta.
  set (x := y - 1). assert (9999 <= x) by (unfold x; lia).
  Z.div_mod_to_equations. lia.
Qed.

Lemma days_before_month_7 (y : Z) :
  _days_before_month y 7 = 181 + (if _is_leap y then 1 else 0).
Proof. unfold _days_before_month. reflexivity. Qed.

Lemma days_before_month_6 (y : Z) :
  _days_before_month y 6 = 151 + (if _is_leap y then 1 else 0).
Proof. unfold _days_before_month. reflexivity. Qed.

(** The academic year that starts on July 1 of [default_start_year]
    contains the day. *)
Lemma default_year_contains (d : date) :
  date_min <= d <= date_max ->
  1 <= date_year d <= 9999
  /\ 1 <= date_month d <= 12
  /\ _ymd2ord (default_start_year d) 7 1 <= d
     <= _ymd2ord (default_start_year d + 1) 6 30.
Proof.
  unfold date_min, date_max. intros Hd.
  unfold default_start_year, date_year, date_month.
  rewrite ord2ymd_month_and_day. cbv zeta.
  set (n := d - 1).
  pose proof (Z.div_mod n 146097 ltac:(lia)) as E1.
  pose proof (Z.mod_pos_bound n 146097 ltac:(lia)) as B1.
  set (a := n / 146097) in *. set (r1 := n mod 146097) in *.
  pose proof (Z.div_mod r1 36524 ltac:(lia)) as E2.
  pose proof (Z.mod_pos_bound r1 36524 ltac:(lia)) as B2.
  set (b := r1 / 36524) in *. set (r2 := r1 mod 36524) in *.
  pose proof (Z.div_mod r2 1461 ltac:(lia)) as E3.
  pose proof (Z.mod_pos_bound r2 1461 ltac:(lia)) as B3.
  set (c := r2 / 1461) in *. set (r3 := r2 mod 1461) in *.
  pose proof (Z.div_mod r3 365 ltac:(lia)) as E4.
  pose proof (Z.mod_pos_bound r3 365 ltac:(lia)) as B4.
  set (e := r3 / 365) in *. set (k := r3 mod 365) in *.
  assert (Hn : 0 <= n <= 3652058) by (unfold n; lia).
  assert (Ha : 0 <= a <= 24) by lia.
  assert (Hb : 0 <= b <= 4) by lia.
  assert (Hc : 0 <= c <= 24) by lia.
  assert (He : 0 <= e <= 4) by lia.
  assert (Hdn : d = n + 1) by (unfold n; lia).
  unfold _ymd2ord. rewrite days_before_month_7, days_before_month_6.
  destruct (b =? 4) eqn:Eb4; [apply Z.eqb_eq in Eb4|apply Z.eqb_neq in Eb4].
  { rewrite orb_true_r. cbn [fst snd]. change (7 <=? 12) with true. cbv iota.
    assert (Hce : c = 0 /\ e = 0 /\ k = 0) by lia.
    destruct Hce as (Hc0 & He0 & Hk0).
    pose proof (days_before_year_formula (a + 1) 0 0 0
                  ltac:(lia) ltac:(lia) ltac:(lia)) as Hnext.
    replace ((a + 1) * 400 + 1 + 0 * 100 + 0 * 4 + 0)
      with (a * 400 + 1 + b * 100 + c * 4 + e - 1 + 1) in Hnext by lia.
    pose proof (days_before_year_step
                  (a * 400 + 1 + b * 100 + c * 4 + e - 1)) as Hstep.
    destruct (_is_leap (a * 400 + 1 + b * 100 + c * 4 + e - 1)),
             (_is_leap (a * 400 + 1 + b * 100 + c * 4 + e - 1 + 1)); lia. }
  rewrite orb_false_r.
  destruct (e =? 4) eqn:Ee4; [apply Z.eqb_eq in Ee4|apply Z.eqb_neq in Ee4].
  { cbn [fst snd]. change (7 <=? 12) with true. cbv iota.
    assert (Hc23 : c <= 23 /\ k = 0) by lia. destruct Hc23 as [Hc23 Hk0].
    pose proof (days_before_year_formula a b (c + 1) 0
                  ltac:(lia) ltac:(lia) ltac:(lia)) as Hnext.
    replace (a * 400 + 1 + b * 100 + (c + 1) * 4 + 0)
      with (a * 400 + 1 + b * 100 + c * 4 + e - 1 + 1) in Hnext by lia.
    pose proof (days_before_year_step
                  (a * 400 + 1 + b * 100 + c * 4 + e - 1)) as Hstep.
    destruct (_is_leap (a * 400 + 1 + b * 100 + c * 4 + e - 1)),
             (_is_leap (a * 400 + 1 + b * 100 + c * 4 + e - 1 + 1)); lia. }
  set (y := a * 400 + 1 + b * 100 + c * 4 + e).
  pose proof (days_before_year_formula a b c e
                ltac:(lia) ltac:(lia) ltac:(lia)) as Hy.
  fold y in Hy.
  pose proof (is_leap_formula a b c e ltac:(lia) ltac:(lia) ltac:(lia))
    as Hleap.
  fold y in Hleap. rewrite <- Hleap.
  destruct (month_and_day_half y (_is_leap y) k ltac:(lia))
    as (Hyear & Hm & Hhalf).
  cbv zeta in Hm, Hhalf. rewrite Hyear.
  assert (Hy9999 : y <= 9999).
  { destruct (Z_le_gt_dec y 9999) as [H|H]; [exact H|].
    pose proof (days_before_year_far y ltac:(lia)). lia. }
  split; [unfold y in *; lia|]. split; [exact Hm|].
  pose proof (days_before_year_step y) as Hstep.
  pose proof (days_before_year_step (y - 1)) as Hprev.
  replace (y - 1 + 1) with y in Hprev by lia.
  destruct (7 <=? snd (fst (month_and_day y (_is_leap y) k))) eqn:E7;
    [apply Z.leb_le in E7|apply Z.leb_gt in E7].
  - apply Hhalf in E7.
    destruct (_is_leap y), (_is_leap (y + 1)); lia.
  - assert (Hk : k < 181 + (if _is_leap y then 1 else 0)).
    { destruct (Z_lt_ge_dec k (181 + (if _is_leap y then 1 else 0)))
        as [H|H]; [exact H|]. apply Z.ge_le in H. apply Hhalf in H. lia. }
    replace (y - 1 + 1) with y by lia.
    destruct (_is_leap y), (_is_leap (y - 1)); lia.
Qed.

Lemma year_decompose (y : Z) :
  exists a b c e,
    0 <= b <= 3 /\ 0 <= c <= 24 /\ 0 <= e <= 3
    /\ y = a * 400 + 1 + b * 100 + c * 4 + e.
Proof.
  exists ((y - 1) / 400), ((y - 1) mod 400 / 100),
         ((y - 1) mod 400 mod 100 / 4), ((y - 1) mod 400 mod 100 mod 4).
  pose proof (Z.div_mod (y - 1) 400 ltac:(lia)) as E1.
  pose proof (Z.mod_pos_bound (y - 1) 400 ltac:(lia)) as B1.
  set (r1 := (y - 1) mod 400) in *.
  pose proof (Z.div_mod r1 100 ltac:(lia)) as E2.
  pose proof (Z.mod_pos_bound r1 100 ltac:(lia)) as B2.
  set (r2 := r1 mod 100) in *.
  pose proof (Z.div_mod r2 4 ltac:(lia)) as E3.
  pose proof (Z.mod_pos_bound r2 4 ltac:(lia)) as B3.
  lia.
Qed.

Lemma days_before_year_leap (y : Z) :
  _days_before_year (y + 1)
  = _days_before_year y + 365 + (if _is_leap y then 1 else 0).
Proof.
  destruct (year_decompose y) as (a & b & c & e & Hb & Hc & He & ->).
  rewrite (is_leap_formula a b c e Hb Hc He).
  rewrite (days_before_year_formula a b c e Hb Hc He).
  destruct (e =? 3) eqn:E3; [apply Z.eqb_eq in E3|apply Z.eqb_neq in E3];
    cbn [andb].
  2:{ replace (a * 400 + 1 + b * 100 + c * 4 + e + 1)
        with (a * 400 + 1 + b * 100 + c * 4 + (e + 1)) by lia.
      rewrite days_before_year_formula by lia. lia. }
  subst e.
  destruct (c =? 24) eqn:E24; [apply Z.eqb_eq in E24|apply Z.eqb_neq in E24];
    cbn [negb orb].
  2:{ replace (a * 400 + 1 + b * 100 + c * 4 + 3 + 1)
        with (a * 400 + 1 + b * 100 + (c + 1) * 4 + 0) by lia.
      rewrite days_before_year_formula by lia. lia. }
  subst c.
  destruct (b =? 3) eqn:Eb; [apply Z.eqb_eq in Eb|apply Z.eqb_neq in Eb].
  - subst b.
    replace (a * 400 + 1 + 3 * 100 + 24 * 4 + 3 + 1)
      with ((a + 1) * 400 + 1 + 0 * 100 + 0 * 4 + 0) by lia.
    rewrite days_before_year_formula by lia. lia.
  - replace (a * 400 + 1 + b * 100 + 24 * 4 + 3 + 1)
      with (a * 400 + 1 + (b + 1) * 100 + 0 * 4 + 0) by lia.
    rewrite days_before_year_formula by lia. lia.
Qed.

Lemma date_new_july_1 (y : Z) :
  1 <= y <= 9999 -> date_new y 7 1 = Ok (_ymd2ord y 7 1).
Proof.
  intros Hy. unfold date_new, MINYEAR, MAXYEAR.
  rewrite (c_int_small y) by lia. cbn [bind c_int Z.ltb Z.compare orb].
  replace ((1 <=? y) && (y <=? 9999)) with true
    by (symmetry; apply andb_true_iff; rewrite !Z.leb_le; lia).
  reflexivity.
Qed.

Lemma date_new_june_30 (y : Z) :
  1 <= y <= 9999 -> date_new y 6 30 = Ok (_ymd2ord y 6 30).
Proof.
  intros Hy. unfold date_new, MINYEAR, MAXYEAR.
  rewrite (c_int_small y) by lia. cbn [bind c_int Z.ltb Z.compare orb].
  replace ((1 <=? y) && (y <=? 9999)) with true
    by (symmetry; apply andb_true_iff; rewrite !Z.leb_le; lia).
  reflexivity.
Qed.

Lemma date_new_year_out_of_range (y m d : Z) :
  ~ 1 <= y <= 9999 ->
  -2147483648 <= y <= 2147483647 -> -2147483648 <= m <= 2147483647 ->
  -2147483648 <= d <= 2147483647 ->
  date_new y m d
  = Raise (ValueError ("year " ++ str_of_Z y ++ " is out of range")).
Proof.
  intros Hy Hy' Hm Hd. unfold date_new, MINYEAR, MAXYEAR.
  rewrite (c_int_small y Hy'), (c_int_small m Hm), (c_int_small d Hd).
  cbn [bind].
  replace ((1 <=? y) && (y <=? 9999)) with false; [reflexivity|].
  symmetry. apply andb_false_iff. rewrite !Z.leb_gt. lia.
Qed.

Lemma min_as_if (a b : Z) : (if a <? b then a else b) = Z.min a b.
Proof. destruct (a <? b) eqn:E; [apply Z.ltb_lt in E|apply Z.ltb_ge in E]; lia. Qed.

(** X26: the default academic year.  Where the two settings can be read,
    [get_academic_year_dates] first computes the default range, July 1 of
    the year in which today's academic year starts to June 30 of the next
    year, and then lets each configured date replace its default.  The
    default range contains today and is 365 or 366 days long.  As the
    defaults are computed in any case, the call raises ValueError for a
    day before July 1 of year 1 and for a day from July 1 of year 9999 on,
    also when both dates are configured.  The statistics without a start
    date are those of the range from the start of the academic year to the
    earlier one of its end and the given end date (today, when none is
    given). *)
Theorem default_academic_year (db : Db) (today : date)
    (so eo : option date) :
  date_min <= today <= date_max ->
  SettingsRepository.get_setting db SettingsRepository.ACADEMIC_YEAR_START
  = Ok so ->
  SettingsRepository.get_setting db SettingsRepository.ACADEMIC_YEAR_END
  = Ok eo ->
  let y := default_start_year today in
  0 <= y <= 9999
  /\ (1 <= y < 9999 ->
      exists s e,
        date_new y 7 1 = Ok s /\ date_new (y + 1) 6 30 = Ok e
        /\ s <= today <= e
        /\ 364 <= e - s <= 365
        /\ SettingsRepository.get_academic_year_dates db today
           = Ok (dict_get so s, dict_get eo e)
        /\ forall student_id end_date,
             DetailedAttendanceRepository.get_student_attendance_stats
               db today student_id None end_date
             = DetailedAttendanceRepository.get_student_attendance_stats
                 db today student_id (Some (dict_get so s))
                 (Some (Z.min (dict_get eo e) (dict_get end_date today))))
  /\ (y = 0 \/ y = 9999 ->
      exists msg,
        SettingsRepository.get_academic_year_dates db today
        = Raise (ValueError msg)).
Proof.
  intros Hd Hs He y.
  destruct (default_year_contains today Hd) as (Hyear & Hmonth & Hin).
  fold y in Hin.
  assert (Hy : y = if 7 <=? date_month today then date_year today
                   else date_year today - 1) by reflexivity.
  assert (Hget : SettingsRepository.get_academic_year_dates db today
                 = (' (default_start, default_end) <-
                      (s <- date_new y 7 1 ;;
                       e <- date_new (y + 1) 6 30 ;;
                       Ok (s, e)) ;;
                    Ok (dict_get so default_start, dict_get eo default_end))).
  { unfold SettingsRepository.get_academic_year_dates.
    rewrite Hs. cbn [bind]. rewrite He. cbn [bind]. rewrite Hy.
    destruct (7 <=? date_month today); [reflexivity|].
    now replace (date_year today - 1 + 1) with (date_year today) by lia. }
  split; [destruct (7 <=? date_month today); lia|].
  split.
  - intros Hy1.
    exists (_ymd2ord y 7 1), (_ymd2ord (y + 1) 6 30).
    rewrite Hget, date_new_july_1, date_new_june_30 by lia.
    split; [reflexivity|]. split; [reflexivity|]. split; [exact Hin|].
    split.
    { unfold _ymd2ord. rewrite days_before_month_7, days_before_month_6.
      rewrite (days_before_year_leap y).
      destruct (_is_leap y), (_is_leap (y + 1)); lia. }
    split; [reflexivity|].
    intros student_id end_date.
    unfold DetailedAttendanceRepository.get_student_attendance_stats.
    rewrite Hget, date_new_july_1, date_new_june_30 by lia.
    cbn [bind dict_get]. rewrite min_as_if. reflexivity.
  - intros [H0|H9]; rewrite Hget.
    + rewrite H0, (date_new_year_out_of_range 0 7 1) by lia.
      eexists. reflexivity.
    + rewrite H9, date_new_july_1 by lia.
      rewrite (date_new_year_out_of_range (9999 + 1) 6 30) by lia.
      eexists. reflexivity.
Qed.

Lemma default_academic_year_witness :
  let db := mk_db [] [] [] [] [] [] [] [] in
  date_min <= 739252 <= date_max
  /\ default_start_year 739252 = 2024
  /\ exists s e,
       date_new 2024 7 1 = Ok s /\ date_new 2025 6 30 = Ok e
       /\ s <= 739252 <= e
       /\ SettingsRepository.get_academic_year_dates db 739252 = Ok (s, e).
Proof.
  intros db.
  assert (Hd : date_min <= 739252 <= date_max)
    by (unfold date_min, date_max; lia).
  assert (Hy : default_start_year 739252 = 2024) by (vm_compute; reflexivity).
  split; [exact Hd|]. split; [exact Hy|].
  destruct (default_academic_year db 739252 None None Hd eq_refl eq_refl)
    as (_ & H & _).
  rewrite Hy in H.
  destruct (H ltac:(lia)) as (s & e & Hs & He & Hin & _ & Hget & _).
  exists s, e. auto.
Defined.


(** ** Verification outcomes at the endpoint *)






